(** * Somerset Lesson Generator: a shallow embedding of [lesson_generator_app.py]

    The development follows the source file top to bottom:
    - the Python runtime pieces the program leans on (text as sequences of
      code points, [strip], [split], [join], [replace], [str], [strftime]);
    - the table the program keeps in memory (a pandas frame: ordered column
      labels, rows of cells, the missing markers NaN and NaT);
    - [load_data], the "Add New Lesson" handler, [format_list] and
      [generate_pdf] (file name and story of flowables);
    - the properties of each. *)

From Stdlib Require Import List NArith ZArith Bool Lia.
From Stdlib Require Decimal String Ascii.
Import String.StringSyntax.
Delimit Scope string_scope with string.
Import ListNotations.

Set Implicit Arguments.

(* ================================================================== *)
(** * Python text *)
(* ================================================================== *)

(** A Python [str] is a sequence of Unicode code points. *)
Definition pystr := list N.

(** Literals are written as UTF-8 byte strings and decoded once, so that
    the bullet glyph U+2022 is one character, as it is for Python. *)
Fixpoint bytes_of (s : String.string) : list N :=
  match s with
  | String.EmptyString => []
  | String.String a t => Ascii.N_of_ascii a :: bytes_of t
  end.

Fixpoint utf8_decode (bs : list N) : pystr :=
  match bs with
  | [] => []
  | b :: t =>
      if (b <? 128)%N then b :: utf8_decode t
      else if (b <? 224)%N then
        match t with
        | b1 :: t1 => ((b - 192) * 64 + (b1 - 128))%N :: utf8_decode t1
        | _ => []
        end
      else if (b <? 240)%N then
        match t with
        | b1 :: b2 :: t2 =>
            ((b - 224) * 4096 + (b1 - 128) * 64 + (b2 - 128))%N
              :: utf8_decode t2
        | _ => []
        end
      else
        match t with
        | b1 :: b2 :: b3 :: t3 =>
            ((b - 240) * 262144 + (b1 - 128) * 4096
             + (b2 - 128) * 64 + (b3 - 128))%N :: utf8_decode t3
        | _ => []
        end
  end.

Definition u (s : String.string) : pystr := utf8_decode (bytes_of s).

Arguments u s%_string.

Definition cp_eqb (a b : N) : bool := (a =? b)%N.

Definition pystr_eqb (a b : pystr) : bool :=
  if list_eq_dec N.eq_dec a b then true else false.

(** Code points of the characters the program names. *)
Definition NL : N := 10.
Definition SEMI : N := 59.
Definition BULLET : N := 8226.

(** [str.isspace] for one character: CPython's [_PyUnicode_IsWhitespace]. *)
Definition isspace (c : N) : bool :=
  ((9 <=? c) && (c <=? 13)
   || (28 <=? c) && (c <=? 32)
   || (c =? 133) || (c =? 160) || (c =? 5760)
   || (8192 <=? c) && (c <=? 8202)
   || (c =? 8232) || (c =? 8233) || (c =? 8239) || (c =? 8287)
   || (c =? 12288))%N.

(** [s.lstrip()], [s.rstrip()], [s.strip()] *)
Fixpoint lstrip (s : pystr) : pystr :=
  match s with
  | [] => []
  | c :: t => if isspace c then lstrip t else s
  end.

Definition rstrip (s : pystr) : pystr := rev (lstrip (rev s)).

Definition strip (s : pystr) : pystr := rstrip (lstrip s).

(** [s.replace(old, new)] for a one-character [old]. *)
Definition replace (old : N) (new : pystr) (s : pystr) : pystr :=
  flat_map (fun c => if cp_eqb c old then new else [c]) s.

(** [s.split(sep)] for a one-character [sep]: empty pieces are kept. *)
Fixpoint split_on (sep : N) (s : pystr) : list pystr :=
  match s with
  | [] => [[]]
  | c :: t =>
      if cp_eqb c sep then [] :: split_on sep t
      else match split_on sep t with
           | [] => [[c]]
           | w :: ws => (c :: w) :: ws
           end
  end.

(** [s.split()]: pieces between runs of whitespace, none of them empty.
    [cur] is the piece being read, kept reversed. *)
Fixpoint split_ws_aux (cur : pystr) (s : pystr) : list pystr :=
  match s with
  | [] => match cur with [] => [] | _ => [rev cur] end
  | c :: t =>
      if isspace c then
        match cur with
        | [] => split_ws_aux [] t
        | _ => rev cur :: split_ws_aux [] t
        end
      else split_ws_aux (c :: cur) t
  end.

Definition split_ws (s : pystr) : list pystr := split_ws_aux [] s.

(** [sep.join(l)] *)
Fixpoint join (sep : pystr) (l : list pystr) : pystr :=
  match l with
  | [] => []
  | [x] => x
  | x :: t => x ++ sep ++ join sep t
  end.

(** [enumerate(l)], counting from [i]. *)
Fixpoint enumerate_from (A : Type) (i : nat) (l : list A) : list (nat * A) :=
  match l with
  | [] => []
  | x :: t => (i, x) :: enumerate_from (S i) t
  end.

Definition enumerate (A : Type) (l : list A) : list (nat * A) :=
  enumerate_from 0 l.

(** Decimal rendering, [str(n)] for an [int]. *)
Fixpoint uint_cps (d : Decimal.uint) : pystr :=
  match d with
  | Decimal.Nil => []
  | Decimal.D0 d => 48%N :: uint_cps d
  | Decimal.D1 d => 49%N :: uint_cps d
  | Decimal.D2 d => 50%N :: uint_cps d
  | Decimal.D3 d => 51%N :: uint_cps d
  | Decimal.D4 d => 52%N :: uint_cps d
  | Decimal.D5 d => 53%N :: uint_cps d
  | Decimal.D6 d => 54%N :: uint_cps d
  | Decimal.D7 d => 55%N :: uint_cps d
  | Decimal.D8 d => 56%N :: uint_cps d
  | Decimal.D9 d => 57%N :: uint_cps d
  end.

Definition str_nat (n : nat) : pystr := uint_cps (Nat.to_uint n).

Definition str_int (z : Z) : pystr :=
  match Z.to_int z with
  | Decimal.Pos d => uint_cps d
  | Decimal.Neg d => 45%N :: uint_cps d
  end.

(** [n] rendered with at least two digits (strftime's %d, %H, %M, %S). *)
Definition two_digits (n : nat) : pystr :=
  if Nat.ltb n 10 then 48%N :: str_nat n else str_nat n.

(* ================================================================== *)
(** * Cell values *)
(* ================================================================== *)

(** What a cell of the table, or an entry of a row dictionary, can hold:
    the missing marker NaN, text, a whole number, a timestamp (a date cell
    of the sheet), the missing marker NaT that stands for a missing
    timestamp, or any other object (a float), known here, like a
    timestamp, by what [str] shows of it. *)
Inductive value : Type :=
  | VNaN
  | VStr (s : pystr)
  | VInt (z : Z)
  | VOther (shown : pystr)
  | VTime (shown : pystr)
  | VNaT.

(** [pd.isna(v)] *)
Definition is_nan (v : value) : bool :=
  match v with VNaN | VNaT => true | _ => false end.

Definition is_time (v : value) : bool :=
  match v with VTime _ => true | _ => false end.

Definition is_str (v : value) : bool :=
  match v with VStr _ => true | _ => false end.

(** [str(v)] *)
Definition py_str (v : value) : pystr :=
  match v with
  | VNaN => u "nan"
  | VStr s => s
  | VInt z => str_int z
  | VOther shown => shown
  | VTime shown => shown
  | VNaT => u "NaT"
  end.

(* ================================================================== *)
(** * format_list *)
(* ================================================================== *)

(** [[x.strip() for x in text.replace("\n", ";").split(";") if x.strip()]] *)
Definition items_of (text : pystr) : list pystr :=
  map strip
    (filter (fun x => negb (pystr_eqb (strip x) []))
       (split_on SEMI (replace NL [SEMI] text))).

Definition numbered_entry (p : nat * pystr) : pystr :=
  str_nat (fst p + 1) ++ u ". " ++ snd p.

Definition bullet_entry (it : pystr) : pystr :=
  u "• " ++ it.

Definition format_list (text : value) (numbered : bool) : pystr :=
  match text with
  | VStr s =>
      if pystr_eqb (strip s) [] then []
      else
        let items := items_of s in
        match items with
        | [] => s
        | _ =>
            if numbered
            then join (u "<br/>") (map numbered_entry (enumerate items))
            else join (u "<br/>") (map bullet_entry items)
        end
  | _ => []
  end.

(* ================================================================== *)
(** * The table in memory *)
(* ================================================================== *)

(** A pandas frame as the program uses it: ordered column labels and rows
    of cells, one cell per label.  Labels are the headers after [str(c)]. *)
Record DataFrame : Type := mkDF {
  columns : list pystr;
  rows : list (list value)
}.

(** Every row has one cell per column. *)
Definition rectangular (df : DataFrame) : Prop :=
  Forall (fun r => length r = length (columns df)) (rows df).

(** [len(df)] *)
Definition len (df : DataFrame) : nat := length (rows df).

(** [c in df.columns], and [c in [...]] for a list of texts. *)
Definition has_column (c : pystr) (cols : list pystr) : bool :=
  existsb (pystr_eqb c) cols.

(** The cell of row [r] under label [c] (the first column so labelled). *)
Fixpoint row_get (cols : list pystr) (r : list value) (c : pystr)
  : option value :=
  match cols, r with
  | k :: cols', x :: r' => if pystr_eqb k c then Some x else row_get cols' r' c
  | _, _ => None
  end.

(** [df.at[i, c]] *)
Definition cell (df : DataFrame) (i : nat) (c : pystr) : option value :=
  match nth_error (rows df) i with
  | Some r => row_get (columns df) r c
  | None => None
  end.

(** [df[c] = v] with a scalar [v]: every cell under label [c] becomes [v];
    a label the frame does not have is appended as a new last column. *)
Fixpoint overwrite (cols : list pystr) (c : pystr) (v : value)
  (r : list value) : list value :=
  match cols, r with
  | k :: cols', x :: r' =>
      (if pystr_eqb k c then v else x) :: overwrite cols' c v r'
  | _, _ => r
  end.

Definition set_column (df : DataFrame) (c : pystr) (v : value) : DataFrame :=
  if has_column c (columns df)
  then mkDF (columns df) (map (overwrite (columns df) c v) (rows df))
  else mkDF (columns df ++ [c]) (map (fun r => r ++ [v]) (rows df)).

(** The cells of the column at position [j], top to bottom. *)
Definition column_cells (rs : list (list value)) (j : nat) : list value :=
  flat_map (fun r => match nth_error r j with
                     | Some v => [v]
                     | None => []
                     end) rs.

(** The column at position [j] has the dtype datetime64: it holds
    timestamps and NaT and nothing else.  ([read_excel] gives that dtype to
    a column of date cells and blanks; a column with any other cell, or
    with NaN, is of another dtype.) *)
Definition datetime_column (rs : list (list value)) (j : nat) : bool :=
  forallb (fun v => is_time v || match v with VNaT => true | _ => false end)
    (column_cells rs j).

(** [df.fillna("", inplace=True)]: a missing cell becomes the empty text,
    except in a datetime64 column, which takes the empty text for NaT and
    so keeps its missing cells. *)
Definition fill_cell (v : value) : value :=
  if is_nan v then VStr [] else v.

Fixpoint fill_row (dates : nat -> bool) (j : nat) (r : list value)
  : list value :=
  match r with
  | [] => []
  | x :: t => (if dates j then x else fill_cell x) :: fill_row dates (S j) t
  end.

Definition fillna (df : DataFrame) : DataFrame :=
  mkDF (columns df)
       (map (fill_row (datetime_column (rows df)) 0) (rows df)).

(** [df.dropna(how="all")]: a row goes when all its cells are missing. *)
Definition dropna_all (df : DataFrame) : DataFrame :=
  mkDF (columns df) (filter (fun r => negb (forallb is_nan r)) (rows df)).

(** The position of the first column labelled [c]. *)
Fixpoint col_index (cols : list pystr) (c : pystr) : option nat :=
  match cols with
  | [] => None
  | k :: cols' =>
      if pystr_eqb k c then Some 0 else option_map S (col_index cols' c)
  end.

(** The column labelled [c] has the dtype datetime64. *)
Definition date_column (df : DataFrame) (c : pystr) : bool :=
  match col_index (columns df) c with
  | Some j => datetime_column (rows df) j
  | None => false
  end.

(* ================================================================== *)
(** * load_data *)
(* ================================================================== *)

Definition required_columns : list pystr :=
  [u "Lesson Summary"; u "Terms / Vocabulary"; u "GIG / Bell Ringer"].

Definition week_names : list pystr :=
  [u "week"; u "week #"; u "week number"].

Definition title_names : list pystr :=
  [u "lesson title"; u "title"].

Section Load.

(** [str.lower] follows the Unicode case tables of the Python runtime;
    the program is modelled for any such function. *)
Variable lower : pystr -> pystr.

Definition is_week_header (c : pystr) : bool :=
  has_column (lower (strip c)) week_names.

Definition is_title_header (c : pystr) : bool :=
  has_column (lower (strip c)) title_names.

(** "Add missing key fields if needed" *)
Definition add_missing (df : DataFrame) (col : pystr) : DataFrame :=
  if has_column col (columns df) then df else set_column df col (VStr []).

(** "Auto-detect columns": the loop with [break] is [find]. *)
Definition detect_week (df : DataFrame) : DataFrame * pystr :=
  match find is_week_header (columns df) with
  | Some c => (df, c)
  | None => (set_column df (u "Week") (VInt 1), u "Week")
  end.

Definition detect_title (df : DataFrame) : DataFrame * pystr :=
  match find is_title_header (columns df) with
  | Some c => (df, c)
  | None =>
      (set_column df (u "Lesson Title") (VStr (u "Untitled Lesson")),
       u "Lesson Title")
  end.

(** [file] is what [pd.read_excel(DATA_PATH)] yields, [None] when the
    file does not exist; the result is [None] where the program reports
    the error and stops. *)
Definition load_data (file : option DataFrame)
  : option (DataFrame * pystr * pystr) :=
  match file with
  | None => None
  | Some raw =>
      let df := mkDF (map strip (columns raw)) (rows raw) in
      let df := fold_left add_missing required_columns df in
      let (df, week_col) := detect_week df in
      let (df, title_col) := detect_title df in
      let df := fillna df in
      let df := dropna_all df in
      Some (df, week_col, title_col)
  end.

End Load.

(** [str.lower] on the ASCII range, used to run the program on examples. *)
Definition ascii_lower (s : pystr) : pystr :=
  map (fun c => if ((65 <=? c) && (c <=? 90))%N then (c + 32)%N else c) s.

(* ================================================================== *)
(** * Clock *)
(* ================================================================== *)

Inductive month : Type :=
  | Jan | Feb | Mar | Apr | May | Jun | Jul | Aug | Sep | Oct | Nov | Dec.

(** What [datetime.now()] returns. *)
Record datetime : Type := mkDT {
  year : nat;
  mon : month;
  day : nat;
  hour : nat;
  minute : nat;
  second : nat;
  microsecond : nat
}.

(** [%b] and [%B] *)
Definition month_abbr (m : month) : pystr :=
  match m with
  | Jan => u "Jan" | Feb => u "Feb" | Mar => u "Mar" | Apr => u "Apr"
  | May => u "May" | Jun => u "Jun" | Jul => u "Jul" | Aug => u "Aug"
  | Sep => u "Sep" | Oct => u "Oct" | Nov => u "Nov" | Dec => u "Dec"
  end.

Definition month_name (m : month) : pystr :=
  match m with
  | Jan => u "January" | Feb => u "February" | Mar => u "March"
  | Apr => u "April" | May => u "May" | Jun => u "June"
  | Jul => u "July" | Aug => u "August" | Sep => u "September"
  | Oct => u "October" | Nov => u "November" | Dec => u "December"
  end.

(** [now.strftime("%B %d, %Y")] *)
Definition strftime_date (now : datetime) : pystr :=
  month_name (mon now) ++ u " " ++ two_digits (day now) ++ u ", "
    ++ str_nat (year now).

(** [now.strftime("%H%M%S")] *)
Definition strftime_hms (now : datetime) : pystr :=
  two_digits (hour now) ++ two_digits (minute now) ++ two_digits (second now).

(* ================================================================== *)
(** * Row dictionaries *)
(* ================================================================== *)

(** A Python [dict] from labels to values, in insertion order. *)
Definition pydict := list (pystr * value).

Fixpoint dict_get (d : pydict) (k : pystr) : option value :=
  match d with
  | [] => None
  | (k', v) :: t => if pystr_eqb k' k then Some v else dict_get t k
  end.

(** [d.get(k, "")] *)
Definition dict_get_or_empty (d : pydict) (k : pystr) : value :=
  match dict_get d k with
  | Some v => v
  | None => VStr []
  end.

(** [d[k] = v]: a key already present keeps its place. *)
Fixpoint dict_set (d : pydict) (k : pystr) (v : value) : pydict :=
  match d with
  | [] => [(k, v)]
  | (k', v') :: t =>
      if pystr_eqb k' k then (k', v) :: t else (k', v') :: dict_set t k v
  end.

Definition dict_keys (d : pydict) : list pystr := map fst d.

(** [pd.DataFrame([d])] *)
Definition frame_of_dict (d : pydict) : DataFrame :=
  mkDF (dict_keys d) [map snd d].

(** [pd.concat([a, b], ignore_index=True)]: the columns of [a], then those
    of [b] that [a] lacks; rows of [a], then rows of [b]; a cell whose
    column the row's frame lacks is missing.  pandas aligns frames whose
    labels are distinct; the statements about [concat] assume as much. *)
Definition reindex (cols : list pystr) (new_cols : list pystr)
  (r : list value) : list value :=
  map (fun c => match row_get cols r c with
                | Some v => v
                | None => VNaN
                end) new_cols.

Definition concat (a b : DataFrame) : DataFrame :=
  let cols :=
    columns a
      ++ filter (fun c => negb (has_column c (columns a))) (columns b) in
  mkDF cols
    (map (reindex (columns a) cols) (rows a)
       ++ map (reindex (columns b) cols) (rows b)).

(* ================================================================== *)
(** * The "Add New Lesson" handler *)
(* ================================================================== *)

(** [{c: "" for c in df.columns}] *)
Definition blank_row (cols : list pystr) : pydict :=
  fold_left (fun d c => dict_set d c (VStr [])) cols [].

Definition new_title (now : datetime) : pystr :=
  u "New Lesson " ++ strftime_hms now.

(** [now1] and [now2] are the two readings of the clock the handler takes,
    for the date and for the title. *)
Definition new_row (df : DataFrame) (week_col title_col : pystr)
  (selected_week : value) (now1 now2 : datetime) : pydict :=
  let r := blank_row (columns df) in
  let r := dict_set r week_col selected_week in
  let r := dict_set r (u "Date") (VStr (strftime_date now1)) in
  let r := dict_set r title_col (VStr (new_title now2)) in
  let r := dict_set r (u "Lesson Status") (VStr (u "Planned")) in
  if has_column (u "Day # (Continuous)") (columns df)
  then dict_set r (u "Day # (Continuous)") (VInt (Z.of_nat (len df + 1)))
  else r.

Definition add_new_lesson (df : DataFrame) (week_col title_col : pystr)
  (selected_week : value) (now1 now2 : datetime) : DataFrame :=
  concat df
    (frame_of_dict (new_row df week_col title_col selected_week now1 now2)).

(* ================================================================== *)
(** * generate_pdf *)
(* ================================================================== *)

Inductive style : Type := Normal | Header | SectionHeading.

Inductive flowable : Type :=
  | Paragraph (text : pystr) (st : style)
  | Spacer (w h : nat).

(** [add_section] appends to the story it closes over. *)
Definition add_section (story : list flowable) (name : pystr) (v : value)
  (bullet numbered : bool) : list flowable :=
  match v with
  | VStr s =>
      if pystr_eqb (strip s) [] then story
      else
        let formatted :=
          if bullet || numbered then format_list v numbered
          else replace NL (u "<br/>") s in
        story ++ [Paragraph name SectionHeading;
                  Paragraph formatted Normal;
                  Spacer 1 8]
  | _ => story
  end.

Record pdf : Type := mkPDF {
  week_folder : pystr;
  filename : pystr;
  story : list flowable
}.

Section Render.

(** The two labels [load_data] resolved, globals of the program. *)
Variables week_col title_col : pystr.

Definition pdf_filename (row : pydict) (now : datetime) : pystr :=
  let week := strip (py_str (dict_get_or_empty row week_col)) in
  let dayc :=
    strip (py_str (dict_get_or_empty row (u "Day # (Continuous)"))) in
  let title := strip (py_str (dict_get_or_empty row title_col)) in
  let safe_title := join (u "_") (split_ws title) in
  u "W" ++ week ++ u "D" ++ dayc ++ u "_LessonPlan_"
    ++ month_abbr (mon now) ++ two_digits (day now) ++ u "_"
    ++ str_nat (year now) ++ u "_" ++ safe_title ++ u ".pdf".

Definition header_block (row : pydict) : list flowable :=
  let week := strip (py_str (dict_get_or_empty row week_col)) in
  let dayc :=
    strip (py_str (dict_get_or_empty row (u "Day # (Continuous)"))) in
  let title := strip (py_str (dict_get_or_empty row title_col)) in
  let date := strip (py_str (dict_get_or_empty row (u "Date"))) in
  [Paragraph (u "Somerset Academy Sky Pointe • U.S. History 8") Header;
   Paragraph (u "Week " ++ week ++ u " – Day " ++ dayc
                ++ u " | Date: " ++ date) Normal;
   Spacer 1 12;
   Paragraph (u "Lesson Title: " ++ title) SectionHeading;
   Spacer 1 8].

Definition body_sections (row : pydict) (st : list flowable)
  : list flowable :=
  let get := dict_get_or_empty row in
  let st := add_section st (u "NV Standards")
              (VStr (py_str (get (u "NV Standard Code")) ++ u "<br/>"
                       ++ py_str (get (u "NV Standard Descriptor"))))
              false false in
  let st := add_section st (u "Lesson Objective")
              (get (u "Lesson Objective(s)")) false false in
  let st := add_section st (u "Essential Question")
              (get (u "Essential Question")) false false in
  let st := add_section st (u "Lesson Summary")
              (get (u "Lesson Summary")) false false in
  let st := add_section st (u "Instructional Strategies and Procedures")
              (get (u "Instructional Strategies and Procedures"))
              false true in
  let st := add_section st
              (u "Accommodations and Modifications Strategies")
              (get (u "Accommodations and Modifications Strategies"))
              true false in
  let st := add_section st (u "GIG / Bell Ringer")
              (get (u "GIG / Bell Ringer")) false false in
  let st := add_section st (u "Closure / Exit Ticket")
              (get (u "Closure / Exit Ticket")) false false in
  let st := add_section st (u "Materials / Resources")
              (get (u "Materials / Resources")) true false in
  let st := add_section st (u "Terms / Vocabulary")
              (get (u "Terms / Vocabulary")) true false in
  let st := add_section st (u "Learning Evidence")
              (get (u "Learning Evidence")) false false in
  add_section st (u "Reflection / Notes")
    (get (u "Reflection / Notes")) false false.

Definition generate_pdf (row : pydict) (now : datetime) : pdf :=
  let week := strip (py_str (dict_get_or_empty row week_col)) in
  mkPDF (u "Week_" ++ week)
        (pdf_filename row now)
        (body_sections row (header_block row)).

End Render.

(** The labels of the fields the twelve sections read. *)
Definition section_fields : list pystr :=
  [u "NV Standard Code"; u "NV Standard Descriptor";
   u "Lesson Objective(s)"; u "Essential Question"; u "Lesson Summary";
   u "Instructional Strategies and Procedures";
   u "Accommodations and Modifications Strategies";
   u "GIG / Bell Ringer"; u "Closure / Exit Ticket";
   u "Materials / Resources"; u "Terms / Vocabulary";
   u "Learning Evidence"; u "Reflection / Notes"].

(** The headings a story shows after its header block. *)
Definition section_headings (st : list flowable) : list pystr :=
  flat_map (fun f => match f with
                     | Paragraph t SectionHeading => [t]
                     | _ => []
                     end) (skipn 5 st).

(* ================================================================== *)
(** * Vocabulary of the statements *)
(* ================================================================== *)

(** Text that begins, or ends, with a character that is not whitespace. *)
Definition starts_nonspace (s : pystr) : Prop :=
  exists c t, s = c :: t /\ isspace c = false.

Definition ends_nonspace (s : pystr) : Prop :=
  exists p c, s = p ++ [c] /\ isspace c = false.


(** The items of a text in the words of the specification: split at every
    line break or semicolon, trim each piece, drop the empty ones. *)
Definition is_delimiter (c : N) : bool := cp_eqb c NL || cp_eqb c SEMI.

Fixpoint split_when (p : N -> bool) (s : pystr) : list pystr :=
  match s with
  | [] => [[]]
  | c :: t =>
      if p c then [] :: split_when p t
      else match split_when p t with
           | [] => [[c]]
           | w :: ws => (c :: w) :: ws
           end
  end.

Definition spec_items (text : pystr) : list pystr :=
  filter (fun x => negb (pystr_eqb x []))
    (map strip (split_when is_delimiter text)).

(** The entry of the item at position [k], counted from 0. *)
Definition spec_entry (numbered : bool) (k : nat) (it : pystr) : pystr :=
  if numbered then str_nat (k + 1) ++ u ". " ++ it else u "• " ++ it.

(** The items of any value: only text has some. *)
Definition items_of_value (v : value) : list pystr :=
  match v with
  | VStr s => items_of s
  | _ => []
  end.

(** What a second pass of [format_list] puts in front of its input. *)
Definition reapplied_prefix (numbered : bool) : pystr :=
  if numbered then u "1. " else u "• ".

(** [c] is the first of [cols] that satisfies [P]. *)
Definition first_match (P : pystr -> Prop) (cols : list pystr) (c : pystr)
  : Prop :=
  exists pre post,
    cols = pre ++ c :: post /\ P c /\ forall x, In x pre -> ~ P x.

(** A header names the week, or the title, whatever its letter case. *)
Definition names_week (lower : pystr -> pystr) (h : pystr) : Prop :=
  In (lower h) [u "week"; u "week #"; u "week number"].

Definition names_title (lower : pystr -> pystr) (h : pystr) : Prop :=
  In (lower h) [u "lesson title"; u "title"].

(** A sheet with one lesson and one blank line below it. *)
Definition sheet_with_blank_row : DataFrame :=
  mkDF [u "Week"; u "Lesson Title"; u "Lesson Summary";
        u "Terms / Vocabulary"; u "GIG / Bell Ringer"]
       [[VInt 1; VStr (u "Colonies"); VStr (u "Intro"); VStr (u "colony");
         VStr (u "Map quiz")];
        [VNaN; VNaN; VNaN; VNaN; VNaN]].

(** A sheet with neither a week column nor a title column. *)
Definition sheet_without_week : DataFrame :=
  mkDF [u " Topic "; u "Lesson Summary"]
       [[VStr (u "Colonies"); VStr (u "Intro")];
        [VStr (u "Revolution"); VNaN]].

(** A sheet with a column of dates, one of them left blank. *)
Definition sheet_with_dates : DataFrame :=
  mkDF [u "Week"; u "Lesson Title"; u "Date"]
       [[VInt 1; VStr (u "Colonies"); VTime (u "2025-11-03 00:00:00")];
        [VInt 1; VStr (u "Revolution"); VNaT]].

(** A reading of the clock within the day. *)
Definition valid_clock (t : datetime) : Prop :=
  hour t < 24 /\ minute t < 60 /\ second t < 60.

(** A loaded frame with one lesson, and two readings of the clock within
    the same second. *)
Definition one_lesson : DataFrame :=
  mkDF [u "Week"; u "Lesson Title"; u "Lesson Summary";
        u "Terms / Vocabulary"; u "GIG / Bell Ringer"]
       [[VInt 1; VStr (u "Colonies"); VStr (u "Intro"); VStr (u "colony");
         VStr (u "Map quiz")]].

Definition click1 : datetime := mkDT 2025 Nov 4 9 5 7 120.
Definition click2 : datetime := mkDT 2025 Nov 4 9 5 7 870.

(** A record whose section fields are all empty texts. *)
Definition blank_record : pydict :=
  [(u "Week", VInt 3); (u "Lesson Title", VStr (u "The  Colonies "));
   (u "Day # (Continuous)", VInt 12); (u "Date", VStr [])]
    ++ map (fun c => (c, VStr [])) section_fields.

From Stdlib Require DecimalNat.

(* ================================================================== *)
(** * Further vocabulary *)
(* ================================================================== *)

(** A value that is text with at least one character that is not
    whitespace: what [add_section] and [format_list] call non-empty. *)
Definition visible (v : value) : Prop :=
  exists s, v = VStr s /\ forallb isspace s = false.

(** A day of the month as a calendar has it. *)
Definition valid_day (t : datetime) : Prop := 1 <= day t <= 31.

Definition visibleb (v : value) : bool :=
  match v with
  | VStr s => negb (forallb isspace s)
  | _ => false
  end.

(** The twelve calls of [add_section] in [generate_pdf], in their order:
    heading, value, and the two flags. *)
Record section_entry : Type := mkEntry {
  sec_name : pystr;
  sec_value : value;
  sec_bullet : bool;
  sec_numbered : bool
}.

Definition section_table (row : pydict) : list section_entry :=
  let get := dict_get_or_empty row in
  [mkEntry (u "NV Standards")
     (VStr (py_str (get (u "NV Standard Code")) ++ u "<br/>"
              ++ py_str (get (u "NV Standard Descriptor"))))
     false false;
   mkEntry (u "Lesson Objective") (get (u "Lesson Objective(s)"))
     false false;
   mkEntry (u "Essential Question") (get (u "Essential Question"))
     false false;
   mkEntry (u "Lesson Summary") (get (u "Lesson Summary")) false false;
   mkEntry (u "Instructional Strategies and Procedures")
     (get (u "Instructional Strategies and Procedures")) false true;
   mkEntry (u "Accommodations and Modifications Strategies")
     (get (u "Accommodations and Modifications Strategies")) true false;
   mkEntry (u "GIG / Bell Ringer") (get (u "GIG / Bell Ringer"))
     false false;
   mkEntry (u "Closure / Exit Ticket") (get (u "Closure / Exit Ticket"))
     false false;
   mkEntry (u "Materials / Resources") (get (u "Materials / Resources"))
     true false;
   mkEntry (u "Terms / Vocabulary") (get (u "Terms / Vocabulary"))
     true false;
   mkEntry (u "Learning Evidence") (get (u "Learning Evidence"))
     false false;
   mkEntry (u "Reflection / Notes") (get (u "Reflection / Notes"))
     false false].

(** The sections that show one field: heading and label of the field. *)
Definition field_sections : list (pystr * pystr) :=
  [(u "Lesson Objective", u "Lesson Objective(s)");
   (u "Essential Question", u "Essential Question");
   (u "Lesson Summary", u "Lesson Summary");
   (u "Instructional Strategies and Procedures",
    u "Instructional Strategies and Procedures");
   (u "Accommodations and Modifications Strategies",
    u "Accommodations and Modifications Strategies");
   (u "GIG / Bell Ringer", u "GIG / Bell Ringer");
   (u "Closure / Exit Ticket", u "Closure / Exit Ticket");
   (u "Materials / Resources", u "Materials / Resources");
   (u "Terms / Vocabulary", u "Terms / Vocabulary");
   (u "Learning Evidence", u "Learning Evidence");
   (u "Reflection / Notes", u "Reflection / Notes")].

(** A record with two filled sections. *)
Definition colonies_record : pydict :=
  [(u "Week", VInt 3); (u "Lesson Title", VStr (u "The Colonies"));
   (u "Lesson Summary", VStr (u "Settlement
and trade"));
   (u "Materials / Resources", VStr (u "map; atlas"));
   (u "Learning Evidence", VStr (u "  "));
   (u "Reflection / Notes", VInt 7)].

(** Frame [d'] has, at position [j], the column labelled [k] with the
    cells frame [d] has at that position, row by row. *)
Definition column_kept (j : nat) (k : pystr) (d d' : DataFrame) : Prop :=
  nth_error (columns d') j = Some k
  /\ forall i r, nth_error (rows d) i = Some r ->
                 exists r', nth_error (rows d') i = Some r'
                            /\ nth_error r' j = nth_error r j.

(** The frame with every missing cell turned into the empty text, in
    whatever column: the sheet as it would read had its blanks been typed
    as empty texts. *)
Definition fill_all (df : DataFrame) : DataFrame :=
  mkDF (columns df) (map (map fill_cell) (rows df)).

(** No cell of the frame is a missing timestamp. *)
Definition without_nat (df : DataFrame) : Prop :=
  Forall (Forall (fun v => v <> VNaT)) (rows df).

(** A row with a cell that is not a missing timestamp. *)
Definition has_entry (r : list value) : Prop :=
  exists v, In v r /\ v <> VNaT.

(** A loaded frame that has every column the handler assigns. *)
Definition planned_lesson : DataFrame :=
  mkDF [u "Week"; u "Date"; u "Lesson Title"; u "Lesson Status";
        u "Day # (Continuous)"]
       [[VInt 1; VStr (u "November 03, 2025"); VStr (u "Colonies");
         VStr (u "Planned"); VInt 1]].

(* ================================================================== *)
(** * The sidebar selection *)
(* ================================================================== *)

(** The frames of a session are indexed 0, 1, 2, ...: [read_excel] numbers
    the rows so and [concat] renumbers them ([ignore_index=True]).  A
    filtered frame keeps the index labels of the rows it retains. *)
Definition indexed_rows (df : DataFrame) : list (nat * list value) :=
  combine (seq 0 (len df)) (rows df).

Section Select.

(** Elementwise [==] between a cell and the selected value. *)
Variable py_eq : value -> value -> bool.

(** [df[c] == v], row by row. *)
Definition mask (cols : list pystr) (c : pystr) (v : value)
  (ir : nat * list value) : bool :=
  match row_get cols (snd ir) c with
  | Some x => py_eq x v
  | None => false
  end.

(** [week_df = df[df[week_col] == selected_week]] *)
Definition week_rows (df : DataFrame) (week_col : pystr)
  (selected_week : value) : list (nat * list value) :=
  filter (mask (columns df) week_col selected_week) (indexed_rows df).

(** [selected_row = week_df[week_df[title_col] == selected_title].head(1)] *)
Definition selected_row (df : DataFrame) (week_col title_col : pystr)
  (selected_week selected_title : value) : list (nat * list value) :=
  firstn 1 (filter (mask (columns df) title_col selected_title)
              (week_rows df week_col selected_week)).

(** [idx = selected_row.index[0]], [None] when [selected_row.empty]. *)
Definition selected_index (df : DataFrame) (week_col title_col : pystr)
  (selected_week selected_title : value) : option nat :=
  match selected_row df week_col title_col selected_week selected_title with
  | [] => None
  | (i, _) :: _ => Some i
  end.

(** Row [i] is a lesson of the selected week with the selected title. *)
Definition is_selected (df : DataFrame) (week_col title_col : pystr)
  (selected_week selected_title : value) (i : nat) : Prop :=
  exists w t,
    cell df i week_col = Some w /\ py_eq w selected_week = true
    /\ cell df i title_col = Some t /\ py_eq t selected_title = true.

End Select.

(** [==] on the values of the examples. *)
Definition value_eqb (a b : value) : bool :=
  match a, b with
  | VStr s, VStr t => pystr_eqb s t
  | VInt x, VInt y => Z.eqb x y
  | _, _ => false
  end.

(* ================================================================== *)
(** * The edit form *)
(* ================================================================== *)

(** The frame in memory and what [save_data] has written to the file, the
    newest first. *)
Record session : Type := mkSession {
  frame : DataFrame;
  writes : list DataFrame
}.

(** [save_data(df)] *)
Definition save_data (df : DataFrame) (s : session) : session :=
  mkSession (frame s) (df :: writes s).

Fixpoint update_nth (A : Type) (i : nat) (f : A -> A) (l : list A)
  : list A :=
  match l, i with
  | [], _ => []
  | x :: t, O => f x :: t
  | x :: t, S i' => x :: update_nth i' f t
  end.

(** Row [idx] with [v] in the cell under label [field]; the other rows
    and the other cells as they are. *)
Definition put_cell (df : DataFrame) (idx : nat) (field : pystr)
  (v : value) : DataFrame :=
  mkDF (columns df)
       (update_nth idx (overwrite (columns df) field v) (rows df)).

Section Assign.

(** What a datetime64 column stores when it is assigned a text: the
    timestamp the text reads as, NaT for the empty text, and for a text
    that does not read as a date whatever pandas then does (pandas 2 turns
    the column into one of objects and stores the text). *)
Variable to_datetime : pystr -> value.

(** The value [df.at[idx, field] = text] leaves in the cell: a column of
    dtype datetime64 converts the text, another column takes it as it
    is. *)
Definition stored (df : DataFrame) (field text : pystr) : value :=
  if date_column df field then to_datetime text else VStr text.

(** [df.at[idx, field] = text] for a row and a column the frame has. *)
Definition set_cell (df : DataFrame) (idx : nat) (field text : pystr)
  : DataFrame :=
  put_cell df idx field (stored df field text).

End Assign.

Definition left_fields (title_col : pystr) : list pystr :=
  [title_col; u "Date"; u "NV Standard Code"; u "NV Standard Descriptor";
   u "Lesson Objective(s)"; u "Essential Question"; u "Lesson Summary";
   u "Instructional Strategies and Procedures";
   u "Accommodations and Modifications Strategies";
   u "GIG / Bell Ringer"; u "Closure / Exit Ticket"].

Definition right_fields : list pystr :=
  [u "Materials / Resources"; u "Terms / Vocabulary"; u "Learning Evidence";
   u "Tiered Differentiation"; u "Tech Tools"; u "Tech Purpose";
   u "Formative Check"; u "Summative Assessment"; u "Reflection / Notes";
   u "Lesson Status"].

Section Form.

(** [st.text_area(field, shown, key=field)]: the text the widget returns
    for a field and the text it was given to show. *)
Variable text_area : pystr -> pystr -> pystr.

(** What a datetime64 column makes of a text assigned to one of its
    cells. *)
Variable to_datetime : pystr -> value.

(** The body of either loop for one field; [None] where [df.at] raises
    because the frame has no cell at [idx].  The labels of the frame are
    taken to be distinct, as [df.at] needs to yield one cell. *)
Definition edit_field (idx : nat) (s : session) (field : pystr)
  : option session :=
  if has_column field (columns (frame s)) then
    match cell (frame s) idx field with
    | None => None
    | Some cur =>
        let new_val := text_area field (py_str cur) in
        if pystr_eqb new_val (py_str cur) then Some s
        else
          let df := set_cell to_datetime (frame s) idx field new_val in
          Some (save_data df (mkSession df (writes s)))
    end
  else Some s.

Fixpoint edit_fields (idx : nat) (fields : list pystr) (s : session)
  : option session :=
  match fields with
  | [] => Some s
  | field :: rest =>
      match edit_field idx s field with
      | Some s' => edit_fields idx rest s'
      | None => None
      end
  end.

(** The two columns of the form, left then right. *)
Definition edit_form (title_col : pystr) (idx : nat) (s : session)
  : option session :=
  match edit_fields idx (left_fields title_col) s with
  | Some s' => edit_fields idx right_fields s'
  | None => None
  end.

End Form.

(** A widget that returns what it shows, but for one field. *)
Definition retype (field new_text : pystr) (f shown : pystr) : pystr :=
  if pystr_eqb f field then new_text else shown.

(** A reading of texts as dates for the examples: the empty text is the
    missing timestamp, any other text a timestamp shown as that text. *)
Definition read_date (text : pystr) : value :=
  match text with
  | [] => VNaT
  | _ => VTime text
  end.


(** Two lessons of week 1 under one title, and a lesson of week 2. *)
Definition twin_lessons : DataFrame :=
  mkDF [u "Week"; u "Lesson Title"; u "Lesson Summary"]
       [[VInt 2; VStr (u "Colonies"); VStr (u "later")];
        [VInt 1; VStr (u "Colonies"); VStr (u "first")];
        [VInt 1; VStr (u "Colonies"); VStr (u "second")]].
(* ================================================================== *)
(** * Facts about text *)
(* ================================================================== *)

Unset Implicit Arguments.

Lemma pystr_eqb_eq (a b : pystr) : pystr_eqb a b = true <-> a = b.
Proof.
  unfold pystr_eqb. destruct (list_eq_dec N.eq_dec a b); split; intros;
    congruence.
Qed.

Lemma pystr_eqb_neq (a b : pystr) : pystr_eqb a b = false <-> a <> b.
Proof.
  unfold pystr_eqb. destruct (list_eq_dec N.eq_dec a b); split; intros;
    congruence.
Qed.

Lemma pystr_eqb_refl (a : pystr) : pystr_eqb a a = true.
Proof. now apply pystr_eqb_eq. Qed.

Lemma has_column_In (c : pystr) (cols : list pystr) :
  has_column c cols = true <-> In c cols.
Proof.
  unfold has_column. rewrite existsb_exists. split.
  - intros (x & Hx & E). apply pystr_eqb_eq in E. now subst.
  - intros H. exists c. split; [assumption | apply pystr_eqb_refl].
Qed.

Lemma has_column_not_In (c : pystr) (cols : list pystr) :
  has_column c cols = false <-> ~ In c cols.
Proof.
  rewrite <- has_column_In. destruct (has_column c cols); split; intros;
    congruence.
Qed.

(** ** Stripping *)

Lemma lstrip_split (s : pystr) :
  exists p, s = p ++ lstrip s /\ forallb isspace p = true.
Proof.
  induction s as [|c t (p & E & Hp)]; simpl.
  - exists []. now split.
  - destruct (isspace c) eqn:Hc.
    + exists (c :: p). simpl. rewrite Hc, Hp. split; [now f_equal | reflexivity].
    + exists []. now split.
Qed.

Lemma lstrip_head (s : pystr) (c : N) (t : pystr) :
  lstrip s = c :: t -> isspace c = false.
Proof.
  induction s as [|a s IH]; simpl; [discriminate|].
  destruct (isspace a) eqn:Ha; [exact IH|].
  intros E. now inversion E; subst.
Qed.

Lemma lstrip_fixed (c : N) (t : pystr) :
  isspace c = false -> lstrip (c :: t) = c :: t.
Proof. intros H. simpl. now rewrite H. Qed.

Lemma lstrip_nil_iff (s : pystr) :
  lstrip s = [] <-> forallb isspace s = true.
Proof.
  induction s as [|c t IH]; simpl; [tauto|].
  destruct (isspace c); simpl; [exact IH|].
  split; discriminate.
Qed.

Lemma forallb_rev (A : Type) (f : A -> bool) (l : list A) :
  forallb f (rev l) = forallb f l.
Proof.
  induction l as [|x l IH]; simpl; [reflexivity|].
  rewrite forallb_app, IH. simpl. rewrite andb_true_r. apply andb_comm.
Qed.

Lemma strip_nil_iff (s : pystr) :
  strip s = [] <-> forallb isspace s = true.
Proof.
  unfold strip, rstrip. split.
  - intros H. apply (f_equal (@rev N)) in H. rewrite rev_involutive in H.
    simpl in H. apply lstrip_nil_iff in H. rewrite forallb_rev in H.
    destruct (lstrip_split s) as (p & E & Hp).
    rewrite E, forallb_app, Hp, H. reflexivity.
  - intros H. apply lstrip_nil_iff in H. rewrite H. reflexivity.
Qed.

Lemma strip_fixed (s : pystr) :
  starts_nonspace s -> ends_nonspace s -> strip s = s.
Proof.
  intros (c & t & E1 & Hc) (p & d & E2 & Hd).
  unfold strip, rstrip. rewrite E1, (lstrip_fixed c t Hc), <- E1, E2.
  rewrite rev_app_distr. simpl. rewrite Hd.
  change (d :: rev p) with ([d] ++ rev p).
  rewrite rev_app_distr, rev_involutive. reflexivity.
Qed.

Lemma strip_ends (s : pystr) :
  strip s <> [] -> starts_nonspace (strip s) /\ ends_nonspace (strip s).
Proof.
  unfold strip, rstrip. intros H.
  destruct (lstrip_split (rev (lstrip s))) as (p & E & Hp).
  destruct (lstrip (rev (lstrip s))) as [|d b] eqn:Eb; [now elim H|].
  split.
  - apply (f_equal (@rev N)) in E. rewrite rev_involutive, rev_app_distr in E.
    destruct (rev (d :: b)) as [|c t] eqn:Er; [now elim H|].
    exists c, t. split; [reflexivity|].
    apply lstrip_head with (s := s) (t := t ++ rev p). now rewrite E.
  - exists (rev b), d. split; [reflexivity|].
    now apply lstrip_head with (s := rev (lstrip s)) (t := b).
Qed.

Lemma strip_incl (s : pystr) (c : N) : In c (strip s) -> In c s.
Proof.
  unfold strip, rstrip. intros H. apply in_rev in H.
  destruct (lstrip_split (rev (lstrip s))) as (p & E & _).
  assert (H1 : In c (rev (lstrip s))) by (rewrite E; apply in_or_app; now right).
  apply in_rev in H1.
  destruct (lstrip_split s) as (q & E' & _).
  rewrite E'. apply in_or_app. now right.
Qed.

Lemma strip_idempotent (s : pystr) : strip (strip s) = strip s.
Proof.
  destruct (list_eq_dec N.eq_dec (strip s) []) as [E|NE].
  - rewrite E. reflexivity.
  - destruct (strip_ends s NE). now apply strip_fixed.
Qed.

(** ** Replacing and splitting *)

Lemma cp_eqb_eq (a b : N) : cp_eqb a b = true <-> a = b.
Proof. apply N.eqb_eq. Qed.

Lemma cp_eqb_neq (a b : N) : cp_eqb a b = false <-> a <> b.
Proof. apply N.eqb_neq. Qed.

Lemma replace_In (old : N) (new s : pystr) (c : N) :
  In c (replace old new s) -> In c new \/ (In c s /\ c <> old).
Proof.
  unfold replace. rewrite in_flat_map. intros (x & Hx & Hc).
  destruct (cp_eqb x old) eqn:E.
  - now left.
  - destruct Hc as [<-|[]]. right. split; [assumption|].
    now apply cp_eqb_neq.
Qed.

Lemma replace_absent (old : N) (new s : pystr) :
  ~ In old s -> replace old new s = s.
Proof.
  unfold replace. induction s as [|c t IH]; simpl; intros H; [reflexivity|].
  destruct (cp_eqb c old) eqn:E.
  - apply cp_eqb_eq in E. elim H. now left.
  - simpl. f_equal. apply IH. intros H'. apply H. now right.
Qed.

Lemma split_on_In (sep : N) (s w : pystr) (c : N) :
  In w (split_on sep s) -> In c w -> In c s /\ c <> sep.
Proof.
  revert w. induction s as [|a t IH]; simpl; intros w Hw Hc.
  - destruct Hw as [<-|[]]. destruct Hc.
  - destruct (cp_eqb a sep) eqn:E.
    + destruct Hw as [<-|Hw]; [destruct Hc|].
      destruct (IH w Hw Hc). tauto.
    + apply cp_eqb_neq in E.
      destruct (split_on sep t) as [|w0 ws].
      * destruct Hw as [<-|[]]. destruct Hc as [<-|[]]. tauto.
      * destruct Hw as [<-|Hw].
        -- destruct Hc as [<-|Hc]; [tauto|].
           destruct (IH w0 (or_introl eq_refl) Hc). tauto.
        -- destruct (IH w (or_intror Hw) Hc). tauto.
Qed.

Lemma split_on_absent (sep : N) (s : pystr) :
  ~ In sep s -> split_on sep s = [s].
Proof.
  induction s as [|a t IH]; simpl; intros H; [reflexivity|].
  destruct (cp_eqb a sep) eqn:E.
  - apply cp_eqb_eq in E. elim H. now left.
  - rewrite IH; [reflexivity|]. intros H'. apply H. now right.
Qed.

(** ** The items of a text *)

Lemma items_of_In (s it : pystr) :
  In it (items_of s) <->
  exists w, In w (split_on SEMI (replace NL [SEMI] s))
            /\ strip w <> [] /\ it = strip w.
Proof.
  unfold items_of. rewrite in_map_iff. split.
  - intros (w & E & Hw). apply filter_In in Hw. destruct Hw as [Hw Hne].
    exists w. repeat split; [assumption | | now symmetry].
    apply negb_true_iff in Hne. now apply pystr_eqb_neq.
  - intros (w & Hw & Hne & E). exists w. split; [now symmetry|].
    apply filter_In. split; [assumption|].
    apply negb_true_iff. now apply pystr_eqb_neq.
Qed.

Lemma items_of_char (s it : pystr) (c : N) :
  In it (items_of s) -> In c it -> In c s /\ c <> SEMI /\ c <> NL.
Proof.
  intros Hit Hc. apply items_of_In in Hit. destruct Hit as (w & Hw & _ & ->).
  apply strip_incl in Hc.
  destruct (split_on_In _ _ _ _ Hw Hc) as [Hr Hsemi].
  apply replace_In in Hr. destruct Hr as [[<-|[]]|[Hs Hnl]]; [now elim Hsemi|].
  tauto.
Qed.

Lemma items_of_ends (s it : pystr) :
  In it (items_of s) -> starts_nonspace it /\ ends_nonspace it.
Proof.
  intros Hit. apply items_of_In in Hit. destruct Hit as (w & _ & Hne & ->).
  now apply strip_ends.
Qed.

Lemma items_of_nonempty_item (s it : pystr) :
  In it (items_of s) -> it <> [].
Proof.
  intros Hit. apply items_of_In in Hit. destruct Hit as (w & _ & Hne & ->).
  assumption.
Qed.

(** A blank text has no items: every piece is blank too. *)
Lemma items_of_blank (s : pystr) :
  forallb isspace s = true -> items_of s = [].
Proof.
  intros Hs. destruct (items_of s) as [|it l] eqn:E; [reflexivity|].
  assert (Hit : In it (items_of s)) by (rewrite E; now left).
  destruct (items_of_ends _ _ Hit) as [(c & t & -> & Hc) _].
  destruct (items_of_char s _ c Hit (or_introl eq_refl)) as [Hin _].
  rewrite forallb_forall in Hs. rewrite (Hs c Hin) in Hc. discriminate.
Qed.

Lemma items_of_strip_nonempty (s : pystr) :
  items_of s <> [] -> strip s <> [].
Proof.
  intros H E. apply H. apply items_of_blank. now apply strip_nil_iff.
Qed.

(** A text without delimiters that is already stripped is its one item. *)
Lemma items_of_single (y : pystr) :
  ~ In SEMI y -> ~ In NL y -> starts_nonspace y -> ends_nonspace y ->
  items_of y = [y].
Proof.
  intros Hsemi Hnl Hs He. unfold items_of.
  rewrite (replace_absent _ _ _ Hnl), (split_on_absent _ _ Hsemi).
  simpl. rewrite (strip_fixed y Hs He).
  assert (Hy : pystr_eqb y [] = false).
  { apply pystr_eqb_neq. destruct Hs as (c & t & -> & _). discriminate. }
  rewrite Hy. simpl. now rewrite (strip_fixed y Hs He).
Qed.

(** The program's replace-then-split is a split at either delimiter. *)
Lemma split_on_replace (s : pystr) :
  split_on SEMI (replace NL [SEMI] s) = split_when is_delimiter s.
Proof.
  induction s as [|c t IH]; [reflexivity|].
  unfold replace in *. simpl. unfold is_delimiter.
  destruct (cp_eqb c NL) eqn:E1; simpl.
  - now rewrite IH.
  - destruct (cp_eqb c SEMI) eqn:E2; now rewrite IH.
Qed.

Lemma map_filter_commute (A B : Type) (f : A -> B) (p : B -> bool)
  (l : list A) :
  map f (filter (fun x => p (f x)) l) = filter p (map f l).
Proof.
  induction l as [|x l IH]; simpl; [reflexivity|].
  destruct (p (f x)); simpl; now rewrite IH.
Qed.

Lemma items_of_spec (s : pystr) : items_of s = spec_items s.
Proof.
  unfold items_of, spec_items. rewrite split_on_replace.
  apply (map_filter_commute _ _ strip (fun x => negb (pystr_eqb x []))).
Qed.

(** ** Joining and numbering *)

Lemma join_cons (sep x : pystr) (l : list pystr) :
  l <> [] -> join sep (x :: l) = x ++ sep ++ join sep l.
Proof. destruct l; [congruence | reflexivity]. Qed.

Lemma join_In (sep : pystr) (l : list pystr) (c : N) :
  In c (join sep l) -> In c sep \/ exists x, In x l /\ In c x.
Proof.
  induction l as [|x l IH]; simpl; [tauto|].
  destruct l as [|x' l'].
  - intros H. right. exists x. tauto.
  - intros H. apply in_app_or in H. destruct H as [H|H].
    + right. exists x. tauto.
    + apply in_app_or in H. destruct H as [H|H]; [now left|].
      destruct (IH H) as [H'|(z & Hz & Hc)]; [now left|].
      right. exists z. tauto.
Qed.

Lemma ends_nonspace_app (p s : pystr) :
  ends_nonspace s -> ends_nonspace (p ++ s).
Proof.
  intros (q & c & -> & Hc). exists (p ++ q), c.
  now rewrite app_assoc.
Qed.

Lemma starts_nonspace_app (s q : pystr) :
  starts_nonspace s -> starts_nonspace (s ++ q).
Proof. intros (c & t & -> & Hc). now exists c, (t ++ q). Qed.

Lemma join_starts (sep x : pystr) (l : list pystr) :
  starts_nonspace x -> starts_nonspace (join sep (x :: l)).
Proof.
  intros H. destruct l as [|x' l']; [exact H|].
  rewrite join_cons by discriminate. now apply starts_nonspace_app.
Qed.

Lemma join_ends (sep : pystr) (l : list pystr) :
  l <> [] -> Forall ends_nonspace l -> ends_nonspace (join sep l).
Proof.
  induction l as [|x l IH]; [congruence|].
  intros _ H. inversion H as [|? ? Hx Hl]; subst.
  destruct l as [|x' l']; [exact Hx|].
  rewrite join_cons by discriminate.
  apply ends_nonspace_app, ends_nonspace_app, IH; [discriminate | exact Hl].
Qed.

Lemma enumerate_from_nth (A : Type) (l : list A) (i k : nat) :
  nth_error (enumerate_from i l) k
  = option_map (fun x => (i + k, x)) (nth_error l k).
Proof.
  revert i k. induction l as [|x l IH]; intros i [|k]; simpl;
    try reflexivity.
  - now rewrite Nat.add_0_r.
  - rewrite IH. now rewrite Nat.add_succ_r.
Qed.

Lemma enumerate_from_length (A : Type) (l : list A) (i : nat) :
  length (enumerate_from i l) = length l.
Proof. revert i. induction l; intros; simpl; [reflexivity | now f_equal]. Qed.

Lemma uint_cps_digits (d : Decimal.uint) (c : N) :
  In c (uint_cps d) -> (48 <= c <= 57)%N.
Proof.
  induction d; simpl; intros H; try (destruct H as [<-|H]; [lia | auto]).
  destruct H.
Qed.

Lemma str_nat_digits (n : nat) (c : N) :
  In c (str_nat n) -> (48 <= c <= 57)%N.
Proof. apply uint_cps_digits. Qed.

(* ================================================================== *)
(** * format_list *)
(* ================================================================== *)

Lemma bullet_literal : u "• " = [BULLET; 32%N].
Proof. reflexivity. Qed.

(** The entries [format_list] joins. *)
Lemma format_list_nonempty (s : pystr) (numbered : bool) :
  items_of s <> [] ->
  format_list (VStr s) numbered
  = join (u "<br/>")
      (if numbered then map numbered_entry (enumerate (items_of s))
       else map bullet_entry (items_of s)).
Proof.
  intros H. unfold format_list.
  pose proof (items_of_strip_nonempty s H) as Hs.
  apply pystr_eqb_neq in Hs. rewrite Hs.
  destruct (items_of s); [congruence | now destruct numbered].
Qed.

Lemma format_list_no_items (s : pystr) (numbered : bool) :
  items_of s = [] ->
  format_list (VStr s) numbered = if forallb isspace s then [] else s.
Proof.
  intros H. unfold format_list. rewrite H.
  destruct (forallb isspace s) eqn:E.
  - apply strip_nil_iff in E. rewrite E. reflexivity.
  - destruct (pystr_eqb (strip s) []) eqn:E'; [|reflexivity].
    apply pystr_eqb_eq, strip_nil_iff in E'. congruence.
Qed.

Lemma entry_chars (numbered : bool) (s : pystr) (e : pystr) (c : N) :
  In e (if numbered then map numbered_entry (enumerate (items_of s))
        else map bullet_entry (items_of s)) ->
  In c e -> c <> SEMI /\ c <> NL.
Proof.
  assert (Hit : forall it, In it (items_of s) -> In c it ->
                           c <> SEMI /\ c <> NL).
  { intros it Hit Hc. destruct (items_of_char s it c Hit Hc). tauto. }
  destruct numbered; rewrite in_map_iff.
  - intros ((i & it) & <- & Hin) Hc. unfold numbered_entry in Hc. simpl in Hc.
    apply in_app_or in Hc. destruct Hc as [Hc|Hc].
    + apply str_nat_digits in Hc. unfold SEMI, NL. lia.
    + destruct Hc as [<-|[<-|Hc]]; try (unfold SEMI, NL; lia).
      apply (Hit it); [|assumption].
      apply In_nth_error in Hin. destruct Hin as (k & Hk).
      unfold enumerate in Hk. rewrite enumerate_from_nth in Hk.
      destruct (nth_error (items_of s) k) eqn:E; simpl in Hk; [|discriminate].
      inversion Hk; subst. eapply nth_error_In; eassumption.
  - intros (it & <- & Hin) Hc. unfold bullet_entry in Hc.
    rewrite bullet_literal in Hc.
    destruct Hc as [<-|[<-|Hc]]; try (unfold SEMI, NL, BULLET; lia).
    now apply (Hit it).
Qed.

Lemma entry_ends (numbered : bool) (s : pystr) :
  Forall ends_nonspace
    (if numbered then map numbered_entry (enumerate (items_of s))
     else map bullet_entry (items_of s)).
Proof.
  apply Forall_forall. intros e He.
  destruct numbered; apply in_map_iff in He.
  - destruct He as ((i & it) & <- & Hin). unfold numbered_entry. simpl.
    apply ends_nonspace_app. apply (ends_nonspace_app (u ". ")).
    apply In_nth_error in Hin. destruct Hin as (k & Hk).
    unfold enumerate in Hk. rewrite enumerate_from_nth in Hk.
    destruct (nth_error (items_of s) k) eqn:E; simpl in Hk; [|discriminate].
    inversion Hk; subst. apply (items_of_ends s).
    eapply nth_error_In; eassumption.
  - destruct He as (it & <- & Hin). unfold bullet_entry.
    apply ends_nonspace_app. now apply (items_of_ends s).
Qed.

(** A formatted list is one item of its own: it holds no delimiter and is
    already stripped. *)
Lemma formatted_is_single_item (s : pystr) (numbered : bool) :
  items_of s <> [] ->
  items_of (format_list (VStr s) numbered) = [format_list (VStr s) numbered].
Proof.
  intros H. rewrite (format_list_nonempty s numbered H).
  set (entries := if numbered
                  then map numbered_entry (enumerate (items_of s))
                  else map bullet_entry (items_of s)).
  assert (Hchars : forall c, In c (join (u "<br/>") entries) ->
                             c <> SEMI /\ c <> NL).
  { intros c Hc. apply join_In in Hc. destruct Hc as [Hc|(e & He & Hc)].
    - simpl in Hc. unfold SEMI, NL.
      repeat (destruct Hc as [<-|Hc]; [lia|]). destruct Hc.
    - now apply (entry_chars numbered s e c). }
  apply items_of_single.
  - intros Hc. now destruct (Hchars _ Hc).
  - intros Hc. now destruct (Hchars _ Hc).
  - subst entries. destruct (items_of s) as [|it l]; [congruence|].
    destruct numbered; simpl map; apply join_starts.
    + now exists 49%N, (u ". " ++ it).
    + now exists BULLET, (32%N :: it).
  - apply join_ends; [|apply entry_ends].
    subst entries. destruct (items_of s); [congruence|].
    destruct numbered; discriminate.
Qed.

(** C3, as stated, fails: a text of one space splits into no item, yet
    [format_list] returns the empty text, not the space; and the text
    "no delimiters here" is one item, so numbered mode returns it with the
    ordinal in front, not unchanged. *)
Lemma format_list_fallback_counterexample :
  items_of (u " ") = []
  /\ format_list (VStr (u " ")) true <> u " "
  /\ format_list (VStr (u "no delimiters here")) true
     <> u "no delimiters here".
Proof. repeat split; vm_compute; discriminate. Qed.

(** C3 (amended): a text that splits into no non-empty item comes back
    unchanged when it holds a character that is not whitespace (it is made
    of delimiters and blanks), and comes back as the empty text when it is
    blank; "no delimiters here" in numbered mode is "1. no delimiters
    here". *)
Theorem format_list_fallback :
  (forall (s : pystr) (numbered : bool),
      spec_items s = [] ->
      (forallb isspace s = false -> format_list (VStr s) numbered = s)
      /\ (forallb isspace s = true -> format_list (VStr s) numbered = []))
  /\ format_list (VStr (u "no delimiters here")) true
     = u "1. no delimiters here".
Proof.
  split; [|reflexivity].
  intros s numbered H. rewrite <- items_of_spec in H.
  rewrite (format_list_no_items s numbered H).
  split; intros ->; reflexivity.
Qed.

Lemma format_list_fallback_witness :
  spec_items (u " ;; ; ") = []
  /\ forallb isspace (u " ;; ; ") = false
  /\ format_list (VStr (u " ;; ; ")) false = u " ;; ; ".
Proof.
  split; [reflexivity|]. split; [reflexivity|].
  apply (proj1 format_list_fallback (u " ;; ; ") false); reflexivity.
Defined.

(** C6: when a text splits (at line breaks and semicolons, pieces trimmed,
    empty pieces dropped) into at least one item, [format_list] is the
    items' entries joined by line breaks; the entry of the item at position
    [k] (from 0) is the decimal of [k + 1], a dot, a space and the item in
    numbered mode, and the bullet glyph, a space and the item otherwise. *)
Theorem format_list_entries :
  (forall (s : pystr) (numbered : bool),
      spec_items s <> [] ->
      exists entries : list pystr,
        format_list (VStr s) numbered = join (u "<br/>") entries
        /\ length entries = length (spec_items s)
        /\ forall k it, nth_error (spec_items s) k = Some it ->
                        nth_error entries k = Some (spec_entry numbered k it))
  /\ format_list (VStr (u "a;b;c")) true = u "1. a<br/>2. b<br/>3. c"
  /\ format_list (VStr (u "a
b")) false = u "• a<br/>• b".
Proof.
  split; [|split; reflexivity].
  intros s numbered H. rewrite <- items_of_spec in *.
  rewrite (format_list_nonempty s numbered H).
  eexists. split; [reflexivity|].
  destruct numbered; split.
  - rewrite length_map. apply enumerate_from_length.
  - intros k it Hk. rewrite nth_error_map. unfold enumerate.
    rewrite enumerate_from_nth, Hk. reflexivity.
  - apply length_map.
  - intros k it Hk. rewrite nth_error_map, Hk. reflexivity.
Qed.

Lemma format_list_entries_witness :
  spec_items (u "x; y") <> []
  /\ exists entries : list pystr,
       format_list (VStr (u "x; y")) true = join (u "<br/>") entries
       /\ length entries = length (spec_items (u "x; y"))
       /\ forall k it, nth_error (spec_items (u "x; y")) k = Some it ->
                       nth_error entries k = Some (spec_entry true k it).
Proof.
  split; [vm_compute; discriminate|].
  apply (proj1 format_list_entries). vm_compute. discriminate.
Defined.

(** C5, as stated, fails: the output for "a;b;c" in numbered mode, and the
    output for "a;b" in bullet mode, change when [format_list] reads them
    again. *)
Lemma format_list_idempotent_counterexample :
  format_list (VStr (format_list (VStr (u "a;b;c")) true)) true
    <> format_list (VStr (u "a;b;c")) true
  /\ format_list (VStr (format_list (VStr (u "a;b")) false)) false
    <> format_list (VStr (u "a;b")) false.
Proof. split; vm_compute; discriminate. Qed.

(** C5 (amended): [format_list] leaves its own output unchanged exactly
    when the input had no item (it was not text, was blank, or held
    delimiters only).  When the input had an item, the output is read as
    one single item and gets one more prefix: "1. " in numbered mode, the
    bullet and a space otherwise. *)
Theorem format_list_twice (v : value) (numbered : bool) :
  (items_of_value v = [] ->
   format_list (VStr (format_list v numbered)) numbered
   = format_list v numbered)
  /\ (items_of_value v <> [] ->
      format_list (VStr (format_list v numbered)) numbered
      = reapplied_prefix numbered ++ format_list v numbered).
Proof.
  split.
  - destruct v as [|s|z|o|t|]; try reflexivity.
    cbn [items_of_value]. intros H.
    rewrite (format_list_no_items s numbered H).
    destruct (forallb isspace s) eqn:E; [reflexivity|].
    rewrite (format_list_no_items s numbered H), E. reflexivity.
  - destruct v as [|s|z|o|t|]; cbn [items_of_value]; try congruence.
    intros H. set (y := format_list (VStr s) numbered).
    pose proof (formatted_is_single_item s numbered H) as Hy. fold y in Hy.
    assert (Hne : items_of y <> []) by (rewrite Hy; discriminate).
    rewrite (format_list_nonempty y numbered Hne), Hy.
    destruct numbered; reflexivity.
Qed.

Lemma format_list_twice_witness :
  items_of_value (VStr (u "a;b")) <> []
  /\ format_list (VStr (format_list (VStr (u "a;b")) true)) true
     = u "1. 1. a<br/>2. b".
Proof.
  split; [vm_compute; discriminate|].
  rewrite (proj2 (format_list_twice (VStr (u "a;b")) true)).
  - reflexivity.
  - vm_compute. discriminate.
Defined.

(* ================================================================== *)
(** * Facts about the table *)
(* ================================================================== *)

(** ** One row *)

Lemma row_get_some (cols : list pystr) (r : list value) (c : pystr) :
  length r = length cols -> In c cols ->
  exists v, row_get cols r c = Some v /\ In v r.
Proof.
  revert r. induction cols as [|k cols IH]; intros [|x r] Hlen Hin;
    simpl in *; try discriminate; try contradiction.
  destruct (pystr_eqb k c) eqn:E.
  - exists x. auto.
  - destruct Hin as [->|Hin]; [now rewrite pystr_eqb_refl in E|].
    destruct (IH r) as (v & Hv & Hr); [lia | assumption |].
    exists v. auto.
Qed.

Lemma row_get_none (cols : list pystr) (r : list value) (c : pystr) :
  ~ In c cols -> row_get cols r c = None.
Proof.
  revert r. induction cols as [|k cols IH]; intros [|x r] Hin; simpl;
    try reflexivity.
  destruct (pystr_eqb k c) eqn:E.
  - apply pystr_eqb_eq in E. elim Hin. now left.
  - apply IH. intros H. apply Hin. now right.
Qed.

Lemma row_get_In (cols : list pystr) (r : list value) (c : pystr) (v : value) :
  row_get cols r c = Some v -> In v r.
Proof.
  revert r. induction cols as [|k cols IH]; intros [|x r]; simpl;
    try discriminate.
  destruct (pystr_eqb k c).
  - intros [= ->]. now left.
  - intros H. right. now apply IH.
Qed.

Lemma overwrite_length (cols : list pystr) (c : pystr) (v : value)
  (r : list value) :
  length (overwrite cols c v r) = length r.
Proof.
  revert r. induction cols as [|k cols IH]; intros [|x r]; simpl;
    try reflexivity.
  now rewrite IH.
Qed.

Lemma overwrite_get_same (cols : list pystr) (c : pystr) (v : value)
  (r : list value) :
  length r = length cols -> In c cols ->
  row_get cols (overwrite cols c v r) c = Some v.
Proof.
  revert r. induction cols as [|k cols IH]; intros [|x r] Hlen Hin;
    simpl in *; try discriminate; try contradiction.
  destruct (pystr_eqb k c) eqn:E; [reflexivity|].
  destruct Hin as [->|Hin]; [now rewrite pystr_eqb_refl in E|].
  apply IH; [lia | assumption].
Qed.

Lemma overwrite_get_other (cols : list pystr) (c c' : pystr) (v : value)
  (r : list value) :
  c' <> c -> row_get cols (overwrite cols c v r) c' = row_get cols r c'.
Proof.
  intros Hne. revert r. induction cols as [|k cols IH]; intros [|x r]; simpl;
    try reflexivity.
  destruct (pystr_eqb k c') eqn:E; [|apply IH].
  apply pystr_eqb_eq in E. subst k.
  apply pystr_eqb_neq in Hne. now rewrite Hne.
Qed.

Lemma append_get_same (cols : list pystr) (c : pystr) (v : value)
  (r : list value) :
  length r = length cols -> ~ In c cols ->
  row_get (cols ++ [c]) (r ++ [v]) c = Some v.
Proof.
  revert r. induction cols as [|k cols IH]; intros [|x r] Hlen Hin;
    simpl in *; try discriminate.
  - now rewrite pystr_eqb_refl.
  - destruct (pystr_eqb k c) eqn:E.
    + apply pystr_eqb_eq in E. elim Hin. now left.
    + apply IH; [lia|]. intros H. apply Hin. now right.
Qed.

Lemma append_get_other (cols : list pystr) (c c' : pystr) (v : value)
  (r : list value) :
  length r = length cols -> c' <> c ->
  row_get (cols ++ [c]) (r ++ [v]) c' = row_get cols r c'.
Proof.
  intros Hlen Hne. revert r Hlen.
  induction cols as [|k cols IH]; intros [|x r] Hlen;
    simpl in *; try discriminate.
  - assert (E : pystr_eqb c c' = false) by (apply pystr_eqb_neq; congruence).
    now rewrite E.
  - destruct (pystr_eqb k c'); [reflexivity|]. apply IH. lia.
Qed.

(** ** Whole frames *)

Lemma set_column_columns (df : DataFrame) (c x : pystr) (v : value) :
  In x (columns (set_column df c v)) <-> In x (columns df) \/ x = c.
Proof.
  unfold set_column. destruct (has_column c (columns df)) eqn:E; simpl.
  - apply has_column_In in E. split; [tauto|]. intros [H| ->]; assumption.
  - rewrite in_app_iff. simpl. intuition congruence.
Qed.

Lemma set_column_prefix (df : DataFrame) (c : pystr) (v : value) :
  exists extra, columns (set_column df c v) = columns df ++ extra.
Proof.
  unfold set_column. destruct (has_column c (columns df)); simpl.
  - exists []. now rewrite app_nil_r.
  - now exists [c].
Qed.

Lemma set_column_rectangular (df : DataFrame) (c : pystr) (v : value) :
  rectangular df -> rectangular (set_column df c v).
Proof.
  unfold rectangular, set_column. intros H.
  destruct (has_column c (columns df)); simpl; apply Forall_map;
    eapply Forall_impl; try exact H; simpl; intros r Hr.
  - now rewrite overwrite_length.
  - rewrite !length_app, Hr. reflexivity.
Qed.

Lemma set_column_len (df : DataFrame) (c : pystr) (v : value) :
  len (set_column df c v) = len df.
Proof.
  unfold len, set_column. destruct (has_column c (columns df)); simpl;
    apply length_map.
Qed.

(** After [df[c] = v] every row holds [v] under [c]. *)
Lemma set_column_same (df : DataFrame) (c : pystr) (v : value) :
  rectangular df ->
  Forall (fun r => row_get (columns (set_column df c v)) r c = Some v)
    (rows (set_column df c v)).
Proof.
  unfold rectangular, set_column. intros H.
  destruct (has_column c (columns df)) eqn:E; simpl; apply Forall_map;
    eapply Forall_impl; try exact H; simpl; intros r Hr.
  - apply overwrite_get_same; [assumption | now apply has_column_In].
  - apply append_get_same; [assumption | now apply has_column_not_In].
Qed.

(** A property of the cell under another label survives [df[c] = v]. *)
Lemma set_column_other (df : DataFrame) (c c' : pystr) (v : value)
  (P : option value -> Prop) :
  rectangular df -> c' <> c ->
  Forall (fun r => P (row_get (columns df) r c')) (rows df) ->
  Forall (fun r => P (row_get (columns (set_column df c v)) r c'))
    (rows (set_column df c v)).
Proof.
  unfold rectangular, set_column. intros H Hne HP.
  destruct (has_column c (columns df)) eqn:E; simpl; apply Forall_map;
    rewrite Forall_forall in *; intros r Hr.
  - rewrite overwrite_get_other by assumption. now apply HP.
  - rewrite append_get_other; auto.
Qed.


Lemma fill_row_nth (dates : nat -> bool) (j k : nat) (r : list value) :
  nth_error (fill_row dates j r) k
  = option_map (fun x => if dates (j + k) then x else fill_cell x)
      (nth_error r k).
Proof.
  revert j k. induction r as [|x r IH]; intros j [|k]; simpl;
    try reflexivity.
  - now rewrite Nat.add_0_r.
  - rewrite IH. now replace (S j + k) with (j + S k) by lia.
Qed.



Lemma fill_cell_not_nan (v : value) : is_nan (fill_cell v) = false.
Proof. now destruct v. Qed.

Lemma fill_cell_present (v : value) : is_nan v = false -> fill_cell v = v.
Proof. unfold fill_cell. now intros ->. Qed.

(** A column is of dtype datetime64 when each of its cells is a timestamp
    or NaT. *)
Lemma datetime_column_spec (rs : list (list value)) (j : nat) :
  datetime_column rs j = true
  <-> forall r v, In r rs -> nth_error r j = Some v ->
                  v = VNaT \/ is_time v = true.
Proof.
  unfold datetime_column, column_cells. rewrite forallb_forall. split.
  - intros H r v Hr Hv.
    assert (Hin : In v (flat_map (fun r => match nth_error r j with
                                           | Some v => [v]
                                           | None => []
                                           end) rs)).
    { apply in_flat_map. exists r. split; [assumption|].
      rewrite Hv. now left. }
    specialize (H v Hin). destruct v; simpl in H; try discriminate; auto.
  - intros H v Hin. apply in_flat_map in Hin.
    destruct Hin as (r & Hr & Hv).
    destruct (nth_error r j) as [x|] eqn:E; [|destruct Hv].
    destruct Hv as [<-|[]].
    destruct (H r x Hr E) as [->|Ht]; [reflexivity|].
    now rewrite Ht.
Qed.

(** The rows of the cleaned frame are rows of the frame, filled. *)
Lemma cleaned_row (df : DataFrame) (r' : list value) :
  In r' (rows (dropna_all (fillna df))) ->
  exists r, In r (rows df)
            /\ r' = fill_row (datetime_column (rows df)) 0 r.
Proof.
  unfold dropna_all, fillna. simpl. intros H. apply filter_In in H.
  destruct H as [H _]. apply in_map_iff in H.
  destruct H as (r & <- & Hr). now exists r.
Qed.

(** Cleaning leaves a datetime64 column one. *)
Lemma datetime_column_cleaned (df : DataFrame) (j : nat) :
  datetime_column (rows df) j = true ->
  datetime_column (rows (dropna_all (fillna df))) j = true.
Proof.
  intros H. apply datetime_column_spec. intros r' v Hr' Hv.
  apply cleaned_row in Hr'. destruct Hr' as (r & Hr & ->).
  rewrite fill_row_nth in Hv. simpl in Hv. rewrite H in Hv.
  destruct (nth_error r j) as [x|] eqn:E; [|discriminate].
  simpl in Hv. inversion Hv; subst x.
  rewrite datetime_column_spec in H. now apply (H r).
Qed.


Lemma row_get_fill_row (dates : nat -> bool) (j : nat) (cols : list pystr)
  (r : list value) (c : pystr) (v : value) :
  row_get cols r c = Some v -> is_nan v = false ->
  row_get cols (fill_row dates j r) c = Some v.
Proof.
  intros H Hv. revert j r H.
  induction cols as [|k cols IH]; intros j [|x r] H; simpl in *;
    try discriminate.
  destruct (pystr_eqb k c); [|now apply IH].
  inversion H; subst x.
  destruct (dates j); [reflexivity|]. now rewrite fill_cell_present.
Qed.


(** ** Frames without missing timestamps *)

Lemma fill_row_all (dates : nat -> bool) (j : nat) (r : list value) :
  Forall (fun v => v <> VNaT) r ->
  (forall k v, nth_error r k = Some v -> dates (j + k) = true ->
               v = VNaT \/ is_time v = true) ->
  fill_row dates j r = map fill_cell r.
Proof.
  revert j. induction r as [|x r IH]; intros j Hn H; simpl;
    [reflexivity|].
  inversion Hn as [|? ? Hx Hr]; subst. f_equal.
  - destruct (dates j) eqn:Hd; [|reflexivity].
    destruct (H 0 x eq_refl) as [->|Ht];
      [now rewrite Nat.add_0_r | now elim Hx |].
    now destruct x.
  - apply IH; [assumption|]. intros k v Hk Hd.
    apply (H (S k) v Hk). now replace (j + S k) with (S j + k) by lia.
Qed.

(** Without missing timestamps, [fillna] fills every missing cell. *)
Lemma fillna_fill_all (df : DataFrame) :
  without_nat df -> fillna df = fill_all df.
Proof.
  unfold without_nat, fillna, fill_all. intros H. f_equal.
  apply map_ext_in. intros r Hr. rewrite Forall_forall in H.
  apply fill_row_all; [now apply H|].
  intros k v Hk Hd. simpl in Hd.
  rewrite datetime_column_spec in Hd. now apply (Hd r).
Qed.

(** What [df[c] = v] keeps of the rows, for a [v] that is not NaT: a row
    without missing timestamps stays one, and so does a row with a cell
    that is not a missing timestamp. *)
Lemma overwrite_without_nat (cols : list pystr) (c : pystr) (v : value)
  (r : list value) :
  v <> VNaT -> Forall (fun x => x <> VNaT) r ->
  Forall (fun x => x <> VNaT) (overwrite cols c v r).
Proof.
  intros Hv. revert r.
  induction cols as [|k cols IH]; intros [|x r] Hr; simpl; try assumption.
  inversion Hr; subst. constructor; [|now apply IH].
  now destruct (pystr_eqb k c).
Qed.

Lemma overwrite_has_entry (cols : list pystr) (c : pystr) (v : value)
  (r : list value) :
  v <> VNaT -> has_entry r -> has_entry (overwrite cols c v r).
Proof.
  intros Hv. revert r.
  induction cols as [|k cols IH]; intros [|x r] Hr; simpl; try assumption.
  destruct Hr as (y & [<-|Hy] & Hne).
  - destruct (pystr_eqb k c).
    + exists v. split; [now left | assumption].
    + exists x. split; [now left | assumption].
  - destruct (IH r) as (z & Hz & Hzne); [now exists y|].
    exists z. split; [now right | assumption].
Qed.

Lemma set_column_rows (Q : list value -> Prop) (df : DataFrame)
  (c : pystr) (v : value) :
  (forall cols r, Q r -> Q (overwrite cols c v r)) ->
  (forall r, Q r -> Q (r ++ [v])) ->
  Forall Q (rows df) -> Forall Q (rows (set_column df c v)).
Proof.
  intros Ho Ha H. unfold set_column.
  destruct (has_column c (columns df)); simpl; apply Forall_map;
    eapply Forall_impl; try exact H; simpl; intros r Hr; auto.
Qed.

Lemma set_column_without_nat (df : DataFrame) (c : pystr) (v : value) :
  v <> VNaT -> without_nat df -> without_nat (set_column df c v).
Proof.
  intros Hv. unfold without_nat. apply set_column_rows.
  - intros cols r. now apply overwrite_without_nat.
  - intros r Hr. apply Forall_app. split; [assumption|]. now constructor.
Qed.

Lemma set_column_has_entry (df : DataFrame) (c : pystr) (v : value) :
  v <> VNaT ->
  Forall has_entry (rows df) -> Forall has_entry (rows (set_column df c v)).
Proof.
  intros Hv. apply set_column_rows.
  - intros cols r. now apply overwrite_has_entry.
  - intros r (y & Hy & Hne). exists y. split; [|assumption].
    apply in_or_app. now left.
Qed.

Lemma filter_all (A : Type) (f : A -> bool) (l : list A) :
  (forall x, In x l -> f x = true) -> filter f l = l.
Proof.
  induction l as [|x l IH]; intros H; simpl; [reflexivity|].
  rewrite (H x (or_introl eq_refl)). f_equal. apply IH.
  intros y Hy. apply H. now right.
Qed.

(** A filled row that had a cell other than a missing timestamp has a
    cell that is not missing. *)
Lemma filled_row_present (rs : list (list value)) (r : list value) :
  In r rs -> has_entry r ->
  forallb is_nan (fill_row (datetime_column rs) 0 r) = false.
Proof.
  intros Hr (v & Hv & Hne).
  apply In_nth_error in Hv. destruct Hv as (k & Hk).
  destruct (forallb is_nan (fill_row (datetime_column rs) 0 r)) eqn:E;
    [|reflexivity].
  rewrite forallb_forall in E.
  pose proof (fill_row_nth (datetime_column rs) 0 k r) as Hn.
  rewrite Hk in Hn. simpl in Hn. apply nth_error_In in Hn.
  apply E in Hn.
  destruct (datetime_column rs k) eqn:Hd.
  - rewrite datetime_column_spec in Hd.
    destruct (Hd r v Hr Hk) as [->|Ht]; [now elim Hne|].
    destruct v; discriminate.
  - now rewrite fill_cell_not_nan in Hn.
Qed.

(** When every row has a cell that is not a missing timestamp, [dropna]
    finds no row to drop once the frame is filled. *)
Lemma dropna_after_fillna (df : DataFrame) :
  Forall has_entry (rows df) -> dropna_all (fillna df) = fillna df.
Proof.
  intros H. unfold dropna_all, fillna. simpl. f_equal.
  apply filter_all. intros r' Hr'. apply in_map_iff in Hr'.
  destruct Hr' as (r & <- & Hr). rewrite Forall_forall in H.
  now rewrite (filled_row_present (rows df) r Hr (H r Hr)).
Qed.

(* ================================================================== *)
(** * load_data *)
(* ================================================================== *)

Lemma find_first_match (p : pystr -> bool) (cols : list pystr) (c : pystr) :
  find p cols = Some c <-> first_match (fun x => p x = true) cols c.
Proof.
  induction cols as [|k cols IH]; simpl.
  - split; [discriminate|]. intros (pre & post & E & _).
    now destruct pre.
  - destruct (p k) eqn:Ek.
    + split.
      * intros [= ->]. exists [], cols. simpl. tauto.
      * intros ([|x pre] & post & E & Hc & Hpre); simpl in E.
        -- congruence.
        -- inversion E; subst. elim (Hpre x); [now left | assumption].
    + rewrite IH. split.
      * intros (pre & post & -> & Hc & Hpre). exists (k :: pre), post.
        simpl. repeat split; [assumption|].
        intros x [<-|Hx]; [congruence | now apply Hpre].
      * intros ([|x pre] & post & E & Hc & Hpre); simpl in E.
        -- inversion E; subst. congruence.
        -- inversion E; subst. exists pre, post. repeat split;
             [assumption|]. intros y Hy. apply Hpre. now right.
Qed.

Lemma find_none_iff (p : pystr -> bool) (cols : list pystr) :
  find p cols = None <-> forall x, In x cols -> p x = false.
Proof.
  split.
  - intros H x Hx. now apply (find_none p cols H).
  - intros H. destruct (find p cols) as [c|] eqn:E; [|reflexivity].
    apply find_some in E. destruct E as [Hin Hc].
    rewrite (H c Hin) in Hc. discriminate.
Qed.

Lemma first_match_app (P : pystr -> Prop) (cols extra : list pystr)
  (c : pystr) :
  first_match P cols c -> first_match P (cols ++ extra) c.
Proof.
  intros (pre & post & -> & Hc & Hpre). exists pre, (post ++ extra).
  rewrite <- app_assoc. simpl. tauto.
Qed.

Lemma first_match_ext (P Q : pystr -> Prop) (cols : list pystr) (c : pystr) :
  (forall x, In x cols -> (P x <-> Q x)) ->
  first_match P cols c -> first_match Q cols c.
Proof.
  intros H (pre & post & -> & Hc & Hpre). exists pre, post.
  split; [reflexivity|]. split.
  - apply H; [|assumption]. apply in_or_app. right. now left.
  - intros x Hx HQ. apply (Hpre x Hx). apply H; [|assumption].
    apply in_or_app. now left.
Qed.

Lemma required_stripped (c : pystr) : In c required_columns -> strip c = c.
Proof.
  intros H. repeat (destruct H as [<-|H]; [reflexivity|]). destruct H.
Qed.

(** The loop that adds the required columns. *)
Lemma add_missing_fold (req : list pystr) (df : DataFrame) :
  rectangular df ->
  let df' := fold_left add_missing req df in
  rectangular df'
  /\ len df' = len df
  /\ (exists extra, columns df' = columns df ++ extra
                    /\ forall x, In x extra -> In x req)
  /\ (forall c, In c req -> In c (columns df')).
Proof.
  revert df. induction req as [|c req IH]; intros df Hr; simpl.
  - repeat split; [assumption | | tauto].
    exists []. rewrite app_nil_r. split; [reflexivity | intros x []].
  - assert (Hr1 : rectangular (add_missing df c)).
    { unfold add_missing. destruct (has_column c (columns df));
        [assumption | now apply set_column_rectangular]. }
    assert (Hl1 : len (add_missing df c) = len df).
    { unfold add_missing. destruct (has_column c (columns df));
        [reflexivity | apply set_column_len]. }
    assert (Hc1 : exists e, columns (add_missing df c) = columns df ++ e
                            /\ forall x, In x e -> x = c).
    { unfold add_missing, set_column.
      destruct (has_column c (columns df)) eqn:E; simpl.
      - exists []. rewrite app_nil_r. split; [reflexivity | intros x []].
      - exists [c]. split; [reflexivity|]. intros x [<-|[]]. reflexivity. }
    assert (Hin1 : In c (columns (add_missing df c))).
    { unfold add_missing. destruct (has_column c (columns df)) eqn:E.
      - now apply has_column_In.
      - apply set_column_columns. now right. }
    destruct (IH _ Hr1) as (Hr' & Hl' & (extra & Ecols & Hextra) & Hreq).
    destruct Hc1 as (e & Ee & He).
    repeat split.
    + exact Hr'.
    + now rewrite Hl'.
    + exists (e ++ extra). rewrite Ecols, Ee, <- app_assoc.
      split; [reflexivity|]. intros x Hx. apply in_app_or in Hx.
      destruct Hx as [Hx|Hx]; [left; symmetry; now apply He | right; auto].
    + intros x [<-|Hx]; [|now apply Hreq].
      rewrite Ecols. apply in_or_app. now left.
Qed.

Section LoadFacts.

Variable lower : pystr -> pystr.

Lemma is_week_header_stripped (h : pystr) :
  strip h = h -> (is_week_header lower h = true <-> names_week lower h).
Proof.
  intros E. unfold is_week_header, names_week. rewrite E.
  apply has_column_In.
Qed.

Lemma is_title_header_stripped (h : pystr) :
  strip h = h -> (is_title_header lower h = true <-> names_title lower h).
Proof.
  intros E. unfold is_title_header, names_title. rewrite E.
  apply has_column_In.
Qed.

Lemma detect_week_cases (df df' : DataFrame) (wc : pystr) :
  detect_week lower df = (df', wc) ->
  (find (is_week_header lower) (columns df) = Some wc /\ df' = df)
  \/ (find (is_week_header lower) (columns df) = None
      /\ wc = u "Week" /\ df' = set_column df (u "Week") (VInt 1)).
Proof.
  unfold detect_week.
  destruct (find (is_week_header lower) (columns df)) as [c|];
    intros E; inversion E; subst; [left | right]; repeat split; reflexivity.
Qed.

Lemma detect_title_cases (df df' : DataFrame) (tc : pystr) :
  detect_title lower df = (df', tc) ->
  (find (is_title_header lower) (columns df) = Some tc /\ df' = df)
  \/ (find (is_title_header lower) (columns df) = None
      /\ tc = u "Lesson Title"
      /\ df' = set_column df (u "Lesson Title")
                 (VStr (u "Untitled Lesson"))).
Proof.
  unfold detect_title.
  destruct (find (is_title_header lower) (columns df)) as [c|];
    intros E; inversion E; subst; [left | right]; repeat split; reflexivity.
Qed.

(** What either detection step keeps: the shape, the row count, the
    columns already there, and the resolved label is a column. *)
Ltac detect_shape cases :=
  let H := fresh "H" in
  intros ? H; apply cases in H;
  destruct H as [[Hf ->]|(Hf & -> & ->)];
  [ repeat split; try assumption; try reflexivity;
    [ now apply (find_some _ _ Hf)
    | exists []; now rewrite app_nil_r ]
  | repeat split;
    [ now apply set_column_rectangular
    | apply set_column_len
    | apply set_column_columns; now right
    | apply set_column_prefix ] ].

Lemma detect_week_shape (df df' : DataFrame) (wc : pystr) :
  rectangular df -> detect_week lower df = (df', wc) ->
  rectangular df' /\ len df' = len df /\ In wc (columns df')
  /\ exists extra, columns df' = columns df ++ extra.
Proof. detect_shape detect_week_cases. Qed.

Lemma detect_title_shape (df df' : DataFrame) (tc : pystr) :
  rectangular df -> detect_title lower df = (df', tc) ->
  rectangular df' /\ len df' = len df /\ In tc (columns df')
  /\ exists extra, columns df' = columns df ++ extra.
Proof. detect_shape detect_title_cases. Qed.

(** The stages of [load_data] on a sheet that was found. *)
Lemma load_data_stages (raw : DataFrame) :
  rectangular raw ->
  exists d1 d2 d3 wc tc,
    d1 = fold_left add_missing required_columns
           (mkDF (map strip (columns raw)) (rows raw))
    /\ detect_week lower d1 = (d2, wc)
    /\ detect_title lower d2 = (d3, tc)
    /\ load_data lower (Some raw) = Some (dropna_all (fillna d3), wc, tc)
    /\ rectangular d1 /\ rectangular d2 /\ rectangular d3
    /\ len d3 = len raw.
Proof.
  intros Hraw.
  set (d0 := mkDF (map strip (columns raw)) (rows raw)).
  assert (H0 : rectangular d0).
  { unfold rectangular, d0. simpl. now rewrite length_map. }
  destruct (add_missing_fold required_columns d0 H0) as (H1 & L1 & _ & _).
  set (d1 := fold_left add_missing required_columns d0) in *.
  destruct (detect_week lower d1) as [d2 wc] eqn:Ew.
  destruct (detect_week_shape _ _ _ H1 Ew) as (H2 & L2 & _ & _).
  destruct (detect_title lower d2) as [d3 tc] eqn:Et.
  destruct (detect_title_shape _ _ _ H2 Et) as (H3 & L3 & _ & _).
  exists d1, d2, d3, wc, tc. repeat split; try assumption.
  - unfold load_data. fold d0. fold d1. rewrite Ew, Et. reflexivity.
  - rewrite L3, L2, L1. reflexivity.
Qed.

Lemma cell_of_rows (df : DataFrame) (c : pystr) (P : option value -> Prop) :
  Forall (fun r => P (row_get (columns df) r c)) (rows df) ->
  forall i, i < len df -> P (cell df i c).
Proof.
  intros H i Hi. unfold cell, len in *.
  destruct (nth_error (rows df) i) as [r|] eqn:E.
  - rewrite Forall_forall in H. apply H. eapply nth_error_In; eassumption.
  - apply nth_error_None in E. lia.
Qed.

(** A cell that is not missing passes the cleaning untouched. *)
Lemma cleaning_keeps (df : DataFrame) (c : pystr) (v : value) :
  is_nan v = false ->
  Forall (fun r => row_get (columns df) r c = Some v) (rows df) ->
  Forall (fun r => row_get (columns df) r c = Some v)
    (rows (dropna_all (fillna df))).
Proof.
  intros Hv H. rewrite Forall_forall in *. intros r' Hr'.
  apply cleaned_row in Hr'. destruct Hr' as (r & Hr & ->).
  apply row_get_fill_row; [now apply H | assumption].
Qed.

End LoadFacts.

Lemma scan_found (p : pystr -> bool) (P : pystr -> Prop)
  (headers extra : list pystr) (h : pystr) :
  (forall x, In x headers -> (p x = true <-> P x)) ->
  first_match P headers h -> find p (headers ++ extra) = Some h.
Proof.
  intros Hp Hm. apply find_first_match, first_match_app.
  apply (first_match_ext P); [|assumption].
  intros x Hx. symmetry. now apply Hp.
Qed.

Lemma scan_none (p : pystr -> bool) (P : pystr -> Prop) (cols : list pystr) :
  (forall x, In x cols -> (p x = true <-> P x)) ->
  (forall x, In x cols -> ~ P x) -> find p cols = None.
Proof.
  intros Hp Hn. apply find_none_iff. intros x Hx.
  destruct (p x) eqn:E; [|reflexivity].
  elim (Hn x Hx). now apply Hp.
Qed.

Lemma stripped_headers (raw : DataFrame) (x : pystr) :
  In x (map strip (columns raw)) -> strip x = x.
Proof.
  intros H. apply in_map_iff in H. destruct H as (y & <- & _).
  apply strip_idempotent.
Qed.

Section LoadClaims.

Variable lower : pystr -> pystr.

(** C8: the week label is the first stripped header of the sheet whose
    lower-cased text is "week", "week #" or "week number"; when neither a
    header of the sheet nor a required field is one, the label is "Week"
    and every record holds the number 1 under it.  Likewise the title label
    over "lesson title" and "title", with the column "Lesson Title" holding
    "Untitled Lesson". *)
Theorem load_data_resolves (raw : DataFrame) :
  rectangular raw ->
  exists df wc tc,
    load_data lower (Some raw) = Some (df, wc, tc)
    /\ (forall h,
           first_match (names_week lower) (map strip (columns raw)) h ->
           wc = h)
    /\ ((forall h, In h (map strip (columns raw) ++ required_columns) ->
                   ~ names_week lower h) ->
        wc = u "Week" /\ In (u "Week") (columns df)
        /\ forall i, i < len df -> cell df i (u "Week") = Some (VInt 1))
    /\ (forall h,
           first_match (names_title lower) (map strip (columns raw)) h ->
           tc = h)
    /\ ((forall h, In h (map strip (columns raw) ++ required_columns
                           ++ [u "Week"]) ->
                   ~ names_title lower h) ->
        tc = u "Lesson Title" /\ In (u "Lesson Title") (columns df)
        /\ forall i, i < len df ->
                     cell df i (u "Lesson Title")
                     = Some (VStr (u "Untitled Lesson"))).
Proof.
  intros Hraw.
  destruct (load_data_stages lower raw Hraw)
    as (d1 & d2 & d3 & wc & tc & E1 & Ew & Et & El & H1 & H2 & H3 & _).
  set (headers := map strip (columns raw)) in *.
  assert (H0 : rectangular (mkDF headers (rows raw))).
  { unfold rectangular, headers. simpl. now rewrite length_map. }
  destruct (add_missing_fold required_columns _ H0)
    as (_ & _ & (extra1 & Ec1 & Hx1) & _).
  rewrite <- E1 in Ec1. simpl in Ec1.
  assert (Hstrip : forall x, In x (columns d1) -> strip x = x).
  { intros x Hx. rewrite Ec1 in Hx. apply in_app_or in Hx.
    destruct Hx as [Hx|Hx]; [now apply (stripped_headers raw)|].
    now apply required_stripped, Hx1. }
  assert (Hcols2 : forall x, In x (columns d2) ->
                             In x (columns d1) \/ x = u "Week").
  { intros x Hx. destruct (detect_week_cases lower _ _ _ Ew)
      as [[_ ->]|(_ & _ & ->)]; [now left|].
    now apply set_column_columns in Hx. }
  destruct (detect_week_shape lower _ _ _ H1 Ew) as (_ & _ & _ & e2 & Ec2).
  destruct (detect_title_shape lower _ _ _ H2 Et) as (_ & _ & _ & e3 & Ec3).
  assert (HWnone :
            (forall h, In h (headers ++ required_columns) ->
                       ~ names_week lower h) ->
            find (is_week_header lower) (columns d1) = None).
  { intros H. apply scan_none with (P := names_week lower).
    - intros x Hx. apply is_week_header_stripped. now apply Hstrip.
    - intros x Hx. apply H. rewrite Ec1 in Hx. apply in_app_or in Hx.
      apply in_or_app. destruct Hx; [now left | right; now apply Hx1]. }
  assert (HTnone :
            (forall h, In h (headers ++ required_columns ++ [u "Week"]) ->
                       ~ names_title lower h) ->
            find (is_title_header lower) (columns d2) = None).
  { intros H. apply scan_none with (P := names_title lower).
    - intros x Hx. apply is_title_header_stripped.
      destruct (Hcols2 x Hx) as [Hx'| ->]; [now apply Hstrip|reflexivity].
    - intros x Hx. apply H. apply in_or_app.
      destruct (Hcols2 x Hx) as [Hx'| ->].
      + rewrite Ec1 in Hx'. apply in_app_or in Hx'.
        destruct Hx' as [Hx'|Hx']; [now left|].
        right. apply in_or_app. left. now apply Hx1.
      + right. apply in_or_app. right. now left. }
  exists (dropna_all (fillna d3)), wc, tc.
  split; [exact El|]. split; [|split; [|split]].
  - (* a header of the sheet names the week *)
    intros h Hm.
    assert (Hf : find (is_week_header lower) (columns d1) = Some h).
    { rewrite Ec1. apply scan_found with (P := names_week lower);
        [|assumption].
      intros x Hx. apply is_week_header_stripped.
      now apply (stripped_headers raw). }
    destruct (detect_week_cases lower _ _ _ Ew) as [[Hf' _]|(Hf' & _)];
      congruence.
  - (* no header names the week: the column is synthesized *)
    intros H. specialize (HWnone H).
    destruct (detect_week_cases lower _ _ _ Ew) as [[Hf' _]|(_ & Hw & Ed2)];
      [congruence|].
    split; [assumption|]. split.
    + simpl. rewrite Ec3. apply in_or_app. left.
      destruct (detect_week_shape lower _ _ _ H1 Ew) as (_ & _ & Hin & _).
      now rewrite <- Hw.
    + apply (cell_of_rows (dropna_all (fillna d3)) (u "Week")
               (fun o => o = Some (VInt 1))).
      apply (cleaning_keeps d3); [reflexivity|].
      assert (Hd2 : Forall (fun r => row_get (columns d2) r (u "Week")
                                     = Some (VInt 1)) (rows d2)).
      { rewrite Ed2. now apply set_column_same. }
      destruct (detect_title_cases lower _ _ _ Et) as [[_ ->]|(_ & _ & ->)];
        [assumption|].
      apply (set_column_other d2 _ _ _ (fun o => o = Some (VInt 1)));
        [assumption | | assumption].
      intros E. apply (f_equal (@length N)) in E. vm_compute in E.
      discriminate.
  - (* a header of the sheet names the title *)
    intros h Hm.
    assert (Hf : find (is_title_header lower) (columns d2) = Some h).
    { rewrite Ec2, Ec1, <- app_assoc.
      apply scan_found with (P := names_title lower); [|assumption].
      intros x Hx. apply is_title_header_stripped.
      now apply (stripped_headers raw). }
    destruct (detect_title_cases lower _ _ _ Et) as [[Hf' _]|(Hf' & _)];
      congruence.
  - (* no header names the title: the column is synthesized *)
    intros H. specialize (HTnone H).
    destruct (detect_title_cases lower _ _ _ Et) as [[Hf' _]|(_ & Hw & Ed3)];
      [congruence|].
    split; [assumption|]. split.
    + simpl.
      destruct (detect_title_shape lower _ _ _ H2 Et) as (_ & _ & Hin & _).
      now rewrite <- Hw.
    + apply (cell_of_rows (dropna_all (fillna d3)) (u "Lesson Title")
               (fun o => o = Some (VStr (u "Untitled Lesson")))).
      apply (cleaning_keeps d3); [reflexivity|].
      rewrite Ed3. now apply set_column_same.
Qed.

(** What the steps before the cleaning keep of the rows. *)
Lemma load_data_stages_rows (Q : list value -> Prop) (raw d1 d2 d3 : DataFrame)
  (wc tc : pystr) :
  (forall (df : DataFrame) c v,
     v <> VNaT -> Forall Q (rows df) ->
     Forall Q (rows (set_column df c v))) ->
  Forall Q (rows raw) ->
  d1 = fold_left add_missing required_columns
         (mkDF (map strip (columns raw)) (rows raw)) ->
  detect_week lower d1 = (d2, wc) ->
  detect_title lower d2 = (d3, tc) ->
  Forall Q (rows d3).
Proof.
  intros Hset Hn E1 Ew Et.
  assert (Hfold : forall req d,
             Forall Q (rows d) ->
             Forall Q (rows (fold_left add_missing req d))).
  { induction req as [|c req IH]; intros d Hd; simpl; [assumption|].
    apply IH. unfold add_missing.
    destruct (has_column c (columns d)); [assumption|].
    now apply Hset. }
  assert (N1 : Forall Q (rows d1)) by (rewrite E1; now apply Hfold).
  assert (N2 : Forall Q (rows d2)).
  { destruct (detect_week_cases lower _ _ _ Ew) as [[_ ->]|(_ & _ & ->)];
      [assumption | now apply Hset]. }
  destruct (detect_title_cases lower _ _ _ Et) as [[_ ->]|(_ & _ & ->)];
    [assumption | now apply Hset].
Qed.

(** Once cleaned, the frame has lost no row when every row of the sheet
    has a cell that is not a missing timestamp: the missing markers are
    filled before [dropna] looks for rows made of them. *)
Lemma load_data_drops_nothing (raw : DataFrame) :
  rectangular raw -> Forall has_entry (rows raw) ->
  exists df wc tc,
    load_data lower (Some raw) = Some (df, wc, tc) /\ len df = len raw.
Proof.
  intros Hraw Hn.
  destruct (load_data_stages lower raw Hraw)
    as (d1 & d2 & d3 & wc & tc & E1 & Ew & Et & El & _ & H2 & H3 & L3).
  exists (dropna_all (fillna d3)), wc, tc. split; [exact El|].
  rewrite dropna_after_fillna.
  - unfold len, fillna in *. simpl. now rewrite length_map.
  - apply (load_data_stages_rows has_entry raw d1 d2 d3 wc tc);
      try assumption.
    intros df c v. apply set_column_has_entry.
Qed.


End LoadClaims.

Lemma load_data_resolves_witness :
  rectangular sheet_without_week
  /\ exists df wc tc,
       load_data ascii_lower (Some sheet_without_week) = Some (df, wc, tc)
       /\ wc = u "Week"
       /\ cell df 1 (u "Week") = Some (VInt 1)
       /\ tc = u "Lesson Title".
Proof.
  assert (Hr : rectangular sheet_without_week) by (repeat constructor).
  split; [exact Hr|].
  destruct (load_data_resolves ascii_lower sheet_without_week Hr)
    as (df & wc & tc & E & _ & Hw & _ & Ht).
  exists df, wc, tc. split; [exact E|].
  assert (Hlen : 1 < len df).
  { vm_compute in E. inversion E. vm_compute. lia. }
  destruct Hw as (Hw & _ & Hcell).
  { intros h Hh. vm_compute in Hh. unfold names_week.
    repeat (destruct Hh as [<-|Hh];
            [vm_compute; intuition discriminate|]).
    destruct Hh. }
  destruct Ht as (Ht & _).
  { intros h Hh. vm_compute in Hh. unfold names_title.
    repeat (destruct Hh as [<-|Hh];
            [vm_compute; intuition discriminate|]).
    destruct Hh. }
  repeat split; [exact Hw | now apply Hcell | exact Ht].
Defined.



(** C2 fails on the program: the sheet has a line whose five cells are all
    missing; the loaded frame still has two records, the second made of
    five empty texts. *)
Theorem load_data_keeps_blank_row :
  exists df,
    load_data ascii_lower (Some sheet_with_blank_row)
    = Some (df, u "Week", u "Lesson Title")
    /\ nth_error (rows sheet_with_blank_row) 1
       = Some [VNaN; VNaN; VNaN; VNaN; VNaN]
    /\ len df = 2
    /\ nth_error (rows df) 1
       = Some [VStr []; VStr []; VStr []; VStr []; VStr []].
Proof.
  eexists. split; [vm_compute; reflexivity|].
  repeat split; reflexivity.
Qed.

(* ================================================================== *)
(** * The "Add New Lesson" handler *)
(* ================================================================== *)

(** ** Dictionaries *)

Lemma dict_get_set (d : pydict) (k k' : pystr) (v : value) :
  dict_get (dict_set d k v) k'
  = if pystr_eqb k k' then Some v else dict_get d k'.
Proof.
  induction d as [|[k0 v0] d IH]; simpl; [reflexivity|].
  destruct (pystr_eqb k0 k) eqn:E0; simpl.
  - apply pystr_eqb_eq in E0. subst k0.
    destruct (pystr_eqb k k'); reflexivity.
  - destruct (pystr_eqb k0 k') eqn:E1; [|exact IH].
    apply pystr_eqb_eq in E1. subst k'.
    destruct (pystr_eqb k k0) eqn:E2; [|reflexivity].
    apply pystr_eqb_eq in E2. subst k0.
    rewrite pystr_eqb_refl in E0. discriminate.
Qed.

Lemma dict_keys_set (d : pydict) (k x : pystr) (v : value) :
  In x (dict_keys (dict_set d k v)) <-> In x (dict_keys d) \/ x = k.
Proof.
  unfold dict_keys. induction d as [|[k0 v0] d IH]; simpl.
  - intuition congruence.
  - destruct (pystr_eqb k0 k) eqn:E0; simpl.
    + apply pystr_eqb_eq in E0. subst k0. intuition congruence.
    + rewrite IH. tauto.
Qed.

Lemma row_get_dict (d : pydict) (k : pystr) :
  row_get (dict_keys d) (map snd d) k = dict_get d k.
Proof.
  unfold dict_keys. induction d as [|[k0 v0] d IH]; simpl; [reflexivity|].
  destruct (pystr_eqb k0 k); [reflexivity | exact IH].
Qed.

(** ** Aligning and stacking *)

Lemma reindex_get (cols new_cols : list pystr) (r : list value) (c : pystr) :
  In c new_cols ->
  row_get new_cols (reindex cols new_cols r) c
  = Some (match row_get cols r c with Some v => v | None => VNaN end).
Proof.
  unfold reindex. induction new_cols as [|k l IH]; simpl; [tauto|].
  intros Hin. destruct (pystr_eqb k c) eqn:E.
  - apply pystr_eqb_eq in E. now subst k.
  - destruct Hin as [->|Hin]; [now rewrite pystr_eqb_refl in E|].
    now apply IH.
Qed.

Lemma concat_len (a b : DataFrame) : len (concat a b) = len a + len b.
Proof. unfold len, concat. simpl. now rewrite length_app, !length_map. Qed.

Lemma concat_columns (a b : DataFrame) (c : pystr) :
  In c (columns (concat a b)) <-> In c (columns a) \/ In c (columns b).
Proof.
  unfold concat. simpl. rewrite in_app_iff, filter_In. split.
  - tauto.
  - intros [H|H]; [now left|].
    destruct (has_column c (columns a)) eqn:E.
    + left. now apply has_column_In.
    + right. split; [assumption | reflexivity].
Qed.

(** A row of the first frame keeps its cells and shows the missing marker
    under the columns only the second frame has. *)
Lemma concat_cell_left (a b : DataFrame) (i : nat) (c : pystr) :
  i < len a -> In c (columns (concat a b)) ->
  cell (concat a b) i c
  = Some (match cell a i c with Some v => v | None => VNaN end).
Proof.
  intros Hi Hc. unfold cell, len in *.
  destruct (nth_error (rows a) i) as [r|] eqn:E.
  - assert (E' : nth_error (rows (concat a b)) i
                 = Some (reindex (columns a) (columns (concat a b)) r)).
    { unfold concat at 1. simpl rows.
      rewrite nth_error_app1 by (now rewrite length_map).
      rewrite nth_error_map, E. reflexivity. }
    rewrite E'. now apply reindex_get.
  - apply nth_error_None in E. lia.
Qed.

Lemma concat_cell_right (a : DataFrame) (d : pydict) (c : pystr) :
  In c (columns (concat a (frame_of_dict d))) ->
  cell (concat a (frame_of_dict d)) (len a) c
  = Some (match dict_get d c with Some v => v | None => VNaN end).
Proof.
  intros Hc. unfold cell, len.
  assert (E : nth_error (rows (concat a (frame_of_dict d))) (length (rows a))
              = Some (reindex (dict_keys d)
                        (columns (concat a (frame_of_dict d)))
                        (map snd d))).
  { unfold concat at 1. simpl rows.
    rewrite nth_error_app2 by (now rewrite length_map).
    rewrite length_map, Nat.sub_diag. reflexivity. }
  rewrite E, reindex_get by assumption. now rewrite row_get_dict.
Qed.

(** ** The row the handler builds *)

Lemma blank_row_keys (cols : list pystr) (x : pystr) :
  In x (dict_keys (blank_row cols)) <-> In x cols.
Proof.
  unfold blank_row.
  assert (G : forall d, In x (dict_keys (fold_left
                 (fun d c => dict_set d c (VStr [])) cols d))
              <-> In x (dict_keys d) \/ In x cols).
  { induction cols as [|c cols IH]; intros d; simpl; [tauto|].
    rewrite IH, dict_keys_set. intuition congruence. }
  rewrite G. simpl. tauto.
Qed.

Ltac day_counter df :=
  unfold new_row;
  destruct (has_column (u "Day # (Continuous)") (columns df)).

Lemma new_row_keys (df : DataFrame) (wc tc : pystr) (sw : value)
  (now1 now2 : datetime) (x : pystr) :
  In x (columns df) \/ x = tc \/ x = u "Date" \/ x = u "Lesson Status" ->
  In x (dict_keys (new_row df wc tc sw now1 now2)).
Proof.
  intros H. day_counter df; repeat rewrite dict_keys_set;
    rewrite blank_row_keys; tauto.
Qed.

Lemma new_row_title (df : DataFrame) (wc tc : pystr) (sw : value)
  (now1 now2 : datetime) :
  tc <> u "Lesson Status" -> tc <> u "Day # (Continuous)" ->
  dict_get (new_row df wc tc sw now1 now2) tc = Some (VStr (new_title now2)).
Proof.
  intros H1 H2.
  assert (E1 : pystr_eqb (u "Lesson Status") tc = false)
    by (apply pystr_eqb_neq; congruence).
  assert (E2 : pystr_eqb (u "Day # (Continuous)") tc = false)
    by (apply pystr_eqb_neq; congruence).
  day_counter df; repeat rewrite dict_get_set;
    now rewrite ?E2, E1, pystr_eqb_refl.
Qed.

Lemma new_row_date_status (df : DataFrame) (wc tc : pystr) (sw : value)
  (now1 now2 : datetime) (c : pystr) :
  c = u "Date" \/ c = u "Lesson Status" ->
  exists s, dict_get (new_row df wc tc sw now1 now2) c = Some (VStr s).
Proof.
  intros [-> | ->]; day_counter df; repeat rewrite dict_get_set;
    change (pystr_eqb (u "Day # (Continuous)") (u "Date")) with false;
    change (pystr_eqb (u "Lesson Status") (u "Date")) with false;
    change (pystr_eqb (u "Day # (Continuous)") (u "Lesson Status"))
      with false;
    rewrite ?pystr_eqb_refl; cbv iota;
    try (destruct (pystr_eqb tc (u "Date"))); eexists; reflexivity.
Qed.

(** ** The time in the title *)

Lemma app_eq_by_length (A : Type) (a a' b b' : list A) :
  length a = length a' -> a ++ b = a' ++ b' -> a = a' /\ b = b'.
Proof.
  revert a'. induction a as [|x a IH]; intros [|x' a'] Hlen E;
    simpl in *; try discriminate.
  - now split.
  - inversion E; subst. destruct (IH a') as [-> ->]; [lia | assumption |].
    now split.
Qed.

Lemma below_100 (P : nat -> bool) :
  forallb P (seq 0 100) = true -> forall n, n < 100 -> P n = true.
Proof.
  intros H n Hn. rewrite forallb_forall in H. apply H.
  apply in_seq. lia.
Qed.

Lemma two_digits_length (n : nat) :
  n < 100 -> length (two_digits n) = 2.
Proof.
  intros Hn. apply Nat.eqb_eq.
  apply (below_100 (fun n => Nat.eqb (length (two_digits n)) 2));
    [vm_compute; reflexivity | assumption].
Qed.

Lemma two_digits_inj (n m : nat) :
  n < 100 -> m < 100 -> two_digits n = two_digits m -> n = m.
Proof.
  intros Hn Hm E.
  pose proof (below_100
    (fun n => forallb (fun m => implb (pystr_eqb (two_digits n)
                                         (two_digits m))
                                      (Nat.eqb n m)) (seq 0 100))) as H.
  specialize (H ltac:(vm_compute; reflexivity) n Hn). cbv beta in H.
  rewrite forallb_forall in H.
  specialize (H m ltac:(apply in_seq; lia)).
  apply pystr_eqb_eq in E. rewrite E in H. now apply Nat.eqb_eq.
Qed.

(** Two titles agree exactly when the clock readings agree in hour, minute
    and second. *)
Lemma new_title_eq_iff (t t' : datetime) :
  valid_clock t -> valid_clock t' ->
  (new_title t = new_title t'
   <-> hour t = hour t' /\ minute t = minute t' /\ second t = second t').
Proof.
  intros (Hh & Hm & Hs) (Hh' & Hm' & Hs'). unfold new_title, strftime_hms.
  split.
  - intros E. apply app_inv_head in E.
    apply app_eq_by_length in E;
      [|rewrite !two_digits_length; lia].
    destruct E as [E1 E]. apply app_eq_by_length in E;
      [|rewrite !two_digits_length; lia].
    destruct E as [E2 E3].
    repeat split; apply two_digits_inj; assumption || lia.
  - intros (-> & -> & ->). reflexivity.
Qed.

(** ** The handler *)

Lemma add_new_lesson_columns (df : DataFrame) (wc tc : pystr) (sw : value)
  (now1 now2 : datetime) (x : pystr) :
  In x (columns df) \/ x = tc \/ x = u "Date" \/ x = u "Lesson Status" ->
  In x (columns (add_new_lesson df wc tc sw now1 now2)).
Proof.
  intros H. unfold add_new_lesson. apply concat_columns.
  destruct H as [H|H]; [now left|].
  right. simpl. apply new_row_keys. tauto.
Qed.

Lemma one_lesson_labels : NoDup (columns one_lesson).
Proof.
  repeat (constructor; [vm_compute; intuition discriminate|]). constructor.
Defined.

(** C7, as stated, fails: two additions whose clock readings fall in the
    same second give the two new records the same title. *)
Lemma add_new_lesson_unique_counterexample :
  click1 <> click2
  /\ let df1 := add_new_lesson one_lesson (u "Week") (u "Lesson Title")
                  (VInt 1) click1 click1 in
     let df2 := add_new_lesson df1 (u "Week") (u "Lesson Title")
                  (VInt 1) click2 click2 in
     cell df2 1 (u "Lesson Title") = Some (VStr (u "New Lesson 090507"))
     /\ cell df2 2 (u "Lesson Title") = Some (VStr (u "New Lesson 090507")).
Proof. split; [discriminate|]. split; vm_compute; reflexivity. Qed.

(** C7 (amended): adding a record makes the frame one record longer; the
    new record's title is "New Lesson " followed by the hour, minute and
    second of the clock, two digits each; every cell of every earlier
    record is unchanged; and two readings of the clock give the same title
    exactly when they agree in hour, minute and second, so titles differ
    only between additions made in different seconds of the day. *)
Theorem add_new_lesson_frame (df : DataFrame) (wc tc : pystr) (sw : value)
  (now1 now2 : datetime) :
  rectangular df -> NoDup (columns df) ->
  tc <> u "Lesson Status" -> tc <> u "Day # (Continuous)" ->
  let df' := add_new_lesson df wc tc sw now1 now2 in
  len df' = len df + 1
  /\ cell df' (len df) tc
     = Some (VStr (u "New Lesson " ++ two_digits (hour now2)
                     ++ two_digits (minute now2)
                     ++ two_digits (second now2)))
  /\ (forall i c, i < len df -> In c (columns df) ->
                  cell df' i c = cell df i c)
  /\ (forall t, valid_clock now2 -> valid_clock t ->
                (new_title t = new_title now2
                 <-> hour t = hour now2 /\ minute t = minute now2
                     /\ second t = second now2)).
Proof.
  intros Hr _ H1 H2 df'. subst df'. split; [|split; [|split]].
  - unfold add_new_lesson. rewrite concat_len. reflexivity.
  - unfold add_new_lesson. rewrite concat_cell_right.
    + now rewrite new_row_title.
    + apply add_new_lesson_columns. tauto.
  - intros i c Hi Hc. unfold add_new_lesson.
    rewrite concat_cell_left;
      [|assumption | apply add_new_lesson_columns; tauto].
    unfold cell, len in *.
    destruct (nth_error (rows df) i) as [r|] eqn:E.
    + assert (Hlen : length r = length (columns df)).
      { unfold rectangular in Hr. rewrite Forall_forall in Hr.
        apply Hr. eapply nth_error_In; eassumption. }
      destruct (row_get_some _ r c Hlen Hc) as (v & -> & _). reflexivity.
    + apply nth_error_None in E. lia.
  - intros t Hv Ht. now apply new_title_eq_iff.
Qed.

Lemma add_new_lesson_frame_witness :
  rectangular one_lesson
  /\ len (add_new_lesson one_lesson (u "Week") (u "Lesson Title")
            (VInt 1) click1 click2) = 2
  /\ cell (add_new_lesson one_lesson (u "Week") (u "Lesson Title")
             (VInt 1) click1 click2) 1 (u "Lesson Title")
     = Some (VStr (u "New Lesson 090507")).
Proof.
  assert (Hr : rectangular one_lesson) by (repeat constructor).
  split; [exact Hr|].
  destruct (add_new_lesson_frame one_lesson (u "Week") (u "Lesson Title")
              (VInt 1) click1 click2 Hr) as (Hlen & Hcell & _).
  - apply one_lesson_labels.
  - vm_compute. discriminate.
  - vm_compute. discriminate.
  - split; [exact Hlen | exact Hcell].
Defined.

(** C10: when the frame has no column "Date" (or "Lesson Status"), the
    frame after the addition has it, the new record holds a text under it,
    and every earlier record holds the missing marker there. *)
Theorem add_new_lesson_new_columns (df : DataFrame) (wc tc : pystr)
  (sw : value) (now1 now2 : datetime) (c : pystr) :
  NoDup (columns df) ->
  c = u "Date" \/ c = u "Lesson Status" ->
  ~ In c (columns df) ->
  let df' := add_new_lesson df wc tc sw now1 now2 in
  In c (columns df')
  /\ (exists s, cell df' (len df) c = Some (VStr s))
  /\ (forall i, i < len df -> cell df' i c = Some VNaN).
Proof.
  intros _ Hc Hnot df'. subst df'.
  assert (Hin : In c (columns (add_new_lesson df wc tc sw now1 now2)))
    by (apply add_new_lesson_columns; tauto).
  split; [exact Hin|]. split.
  - destruct (new_row_date_status df wc tc sw now1 now2 c Hc) as (s & Hs).
    exists s. unfold add_new_lesson in *.
    rewrite concat_cell_right by assumption. now rewrite Hs.
  - intros i Hi. unfold add_new_lesson in *.
    rewrite concat_cell_left by assumption.
    unfold cell. destruct (nth_error (rows df) i); [|reflexivity].
    now rewrite row_get_none.
Qed.

Lemma add_new_lesson_new_columns_witness :
  ~ In (u "Lesson Status") (columns one_lesson)
  /\ In (u "Lesson Status")
       (columns (add_new_lesson one_lesson (u "Week") (u "Lesson Title")
                   (VInt 1) click1 click2))
  /\ cell (add_new_lesson one_lesson (u "Week") (u "Lesson Title")
             (VInt 1) click1 click2) 0 (u "Lesson Status") = Some VNaN.
Proof.
  assert (Hn : ~ In (u "Lesson Status") (columns one_lesson)).
  { apply has_column_not_In. reflexivity. }
  split; [exact Hn|].
  destruct (add_new_lesson_new_columns one_lesson (u "Week")
              (u "Lesson Title") (VInt 1) click1 click2
              (u "Lesson Status") one_lesson_labels (or_intror eq_refl) Hn)
    as (Hin & _ & Hold).
  split; [exact Hin|]. apply Hold. vm_compute. lia.
Defined.

(* ================================================================== *)
(** * generate_pdf *)
(* ================================================================== *)

(** ** Sections *)

(** The policy of [add_section]: nothing is added for a value that is not
    text or is blank. *)
Lemma add_section_omits (st : list flowable) (name : pystr) (v : value)
  (bullet numbered : bool) :
  (is_str v = false \/ exists s, v = VStr s /\ forallb isspace s = true) ->
  add_section st name v bullet numbered = st.
Proof.
  intros [H|(s & -> & H)].
  - destruct v; [reflexivity | discriminate | reflexivity ..].
  - unfold add_section. apply strip_nil_iff in H. now rewrite H.
Qed.

(** Text with a visible character adds a heading, a body and a spacer. *)
Lemma add_section_emits (st : list flowable) (name s : pystr)
  (bullet numbered : bool) :
  forallb isspace s = false ->
  exists body,
    add_section st name (VStr s) bullet numbered
    = st ++ [Paragraph name SectionHeading; Paragraph body Normal;
             Spacer 1 8].
Proof.
  intros H. unfold add_section.
  destruct (pystr_eqb (strip s) []) eqn:E.
  - apply pystr_eqb_eq, strip_nil_iff in E. congruence.
  - eexists. reflexivity.
Qed.

(** The value of the first section is never blank: the line break between
    the code and the descriptor is part of it. *)
Lemma nv_standards_never_blank (a b : pystr) :
  forallb isspace (a ++ u "<br/>" ++ b) = false.
Proof.
  rewrite forallb_app. simpl. apply andb_false_r.
Qed.

Lemma body_sections_blank (row : pydict) (st : list flowable) :
  (forall c, In c section_fields -> dict_get_or_empty row c = VStr []) ->
  body_sections row st
  = st ++ [Paragraph (u "NV Standards") SectionHeading;
           Paragraph (u "<br/>") Normal;
           Spacer 1 8].
Proof.
  intros H. unfold body_sections.
  repeat (rewrite H by (vm_compute; tauto)).
  reflexivity.
Qed.

(** C1 fails on the program: for a record whose section fields are all
    empty texts the story is the header block followed by the heading
    "NV Standards", a body made of one line break, and a spacer. *)
Theorem generate_pdf_blank_record :
  (forall c, In c section_fields -> dict_get blank_record c = Some (VStr []))
  /\ skipn 5 (story (generate_pdf (u "Week") (u "Lesson Title")
                       blank_record click1))
     = [Paragraph (u "NV Standards") SectionHeading;
        Paragraph (u "<br/>") Normal;
        Spacer 1 8]
  /\ section_headings (story (generate_pdf (u "Week") (u "Lesson Title")
                                blank_record click1))
     = [u "NV Standards"].
Proof.
  split; [|split; reflexivity].
  intros c Hc. unfold section_fields in Hc.
  repeat (destruct Hc as [<-|Hc]; [reflexivity|]). destruct Hc.
Qed.

(** The same for every record with empty section fields, whatever the
    labels and the clock. *)
Lemma generate_pdf_headings_blank (wc tc : pystr) (row : pydict)
  (now : datetime) :
  (forall c, In c section_fields -> dict_get_or_empty row c = VStr []) ->
  section_headings (story (generate_pdf wc tc row now)) = [u "NV Standards"].
Proof.
  intros H. unfold generate_pdf. simpl story.
  rewrite (body_sections_blank row _ H). reflexivity.
Qed.

(** ** The file name *)

Lemma split_ws_aux_nospace (cur s w : pystr) (c : N) :
  (forall x, In x cur -> isspace x = false) ->
  In w (split_ws_aux cur s) -> In c w -> isspace c = false.
Proof.
  revert cur. induction s as [|a s IH]; simpl; intros cur Hcur Hw Hc.
  - destruct cur as [|k cur]; [destruct Hw|].
    destruct Hw as [<-|[]]. apply Hcur. now apply in_rev.
  - destruct (isspace a) eqn:Ea.
    + destruct cur as [|k cur].
      * apply (IH []); [intros x [] | assumption | assumption].
      * destruct Hw as [<-|Hw].
        -- apply Hcur. now apply in_rev.
        -- apply (IH []); [intros x [] | assumption | assumption].
    + apply (IH (a :: cur)); try assumption.
      intros x [<-|Hx]; [assumption | now apply Hcur].
Qed.

Lemma safe_title_nospace (title : pystr) (c : N) :
  In c (join (u "_") (split_ws title)) -> isspace c = false.
Proof.
  intros H. apply join_In in H. destruct H as [[<-|[]]|(w & Hw & Hc)].
  - reflexivity.
  - apply (split_ws_aux_nospace [] title w c);
      [intros x [] | assumption | assumption].
Qed.

(** C9: the file name is "W", the week, "D", the day counter,
    "_LessonPlan_", the month's three letters and the day of the month on
    two digits, "_", the year, "_", the title with each run of whitespace
    turned into one underscore, ".pdf"; month, day and year are those of
    the clock.  Two renderings of one record on the same calendar day
    therefore get the same file name. *)
Theorem pdf_filename_same_day (wc tc : pystr) (row : pydict)
  (now1 now2 : datetime) :
  year now1 = year now2 -> mon now1 = mon now2 -> day now1 = day now2 ->
  filename (generate_pdf wc tc row now1)
  = filename (generate_pdf wc tc row now2)
  /\ exists week dayc title safe_title,
       week = strip (py_str (dict_get_or_empty row wc))
       /\ dayc = strip (py_str (dict_get_or_empty row
                                  (u "Day # (Continuous)")))
       /\ title = strip (py_str (dict_get_or_empty row tc))
       /\ safe_title = join (u "_") (split_ws title)
       /\ (forall c, In c safe_title -> isspace c = false)
       /\ filename (generate_pdf wc tc row now1)
          = u "W" ++ week ++ u "D" ++ dayc ++ u "_LessonPlan_"
              ++ month_abbr (mon now1) ++ two_digits (day now1) ++ u "_"
              ++ str_nat (year now1) ++ u "_" ++ safe_title ++ u ".pdf".
Proof.
  intros Hy Hm Hd. split.
  - unfold generate_pdf, pdf_filename. simpl filename.
    now rewrite Hy, Hm, Hd.
  - do 4 eexists. repeat split; try reflexivity.
    intros c Hc. now apply safe_title_nospace in Hc.
Qed.

Lemma pdf_filename_same_day_witness :
  filename (generate_pdf (u "Week") (u "Lesson Title") blank_record click1)
  = filename (generate_pdf (u "Week") (u "Lesson Title") blank_record click2)
  /\ filename (generate_pdf (u "Week") (u "Lesson Title") blank_record
                 click1)
     = u "W3D12_LessonPlan_Nov04_2025_The_Colonies.pdf".
Proof.
  destruct (pdf_filename_same_day (u "Week") (u "Lesson Title")
              blank_record click1 click2 eq_refl eq_refl eq_refl)
    as (Hsame & _).
  split; [exact Hsame | reflexivity].
Defined.

(* ================================================================== *)
(** * More about format_list *)
(* ================================================================== *)

Lemma visible_or_not (v : value) :
  visible v
  \/ (is_str v = false \/ exists s, v = VStr s /\ forallb isspace s = true).
Proof.
  destruct v as [|s|z|o|t|]; try (right; left; reflexivity).
  destruct (forallb isspace s) eqn:E.
  - right. right. now exists s.
  - left. now exists s.
Qed.

Lemma visible_not_blank (v : value) :
  visible v ->
  ~ (is_str v = false \/ exists s, v = VStr s /\ forallb isspace s = true).
Proof.
  intros (s & -> & H) [H'|(s' & E & H')]; [discriminate|].
  inversion E; subst. congruence.
Qed.

Lemma formatted_starts (s : pystr) (numbered : bool) :
  items_of s <> [] -> starts_nonspace (format_list (VStr s) numbered).
Proof.
  intros H. pose proof (formatted_is_single_item s numbered H) as Hy.
  apply (items_of_ends (format_list (VStr s) numbered)).
  rewrite Hy. now left.
Qed.

(** X1: [format_list] returns the empty text exactly for a value that is
    not text or is blank text; any text with a visible character gives a
    non-empty result. *)
Theorem format_list_empty_iff (v : value) (numbered : bool) :
  format_list v numbered = [] <-> ~ visible v.
Proof.
  split.
  - intros E (s & -> & Hs).
    destruct (items_of s) as [|it l] eqn:Ei.
    + rewrite (format_list_no_items s numbered Ei), Hs in E.
      subst s. discriminate.
    + assert (Hne : items_of s <> []) by (rewrite Ei; discriminate).
      destruct (formatted_starts s numbered Hne) as (c & t & Ey & _).
      congruence.
  - intros H. destruct (visible_or_not v) as [Hv|[Hv|(s & -> & Hs)]].
    + contradiction.
    + destruct v; try reflexivity. discriminate.
    + unfold format_list. apply strip_nil_iff in Hs. now rewrite Hs.
Qed.

(** X2: every item [format_list] extracts is non-empty, begins and ends
    with a character that is not whitespace (stripping it again changes
    nothing), holds neither a semicolon nor a line break, and is made of
    characters of the text. *)
Theorem items_well_formed (s it : pystr) :
  In it (items_of s) ->
  it <> [] /\ strip it = it
  /\ forall c, In c it -> In c s /\ c <> SEMI /\ c <> NL.
Proof.
  intros H. split; [now apply (items_of_nonempty_item s)|]. split.
  - destruct (items_of_ends s it H). now apply strip_fixed.
  - intros c Hc. now apply (items_of_char s it).
Qed.

Lemma items_well_formed_witness :
  In (u "b c") (items_of (u " a ;
 b c ;; "))
  /\ strip (u "b c") = u "b c".
Proof.
  assert (H : In (u "b c") (items_of (u " a ;
 b c ;; "))) by (vm_compute; tauto).
  split; [exact H|].
  exact (proj1 (proj2 (items_well_formed _ _ H))).
Defined.

(** X3: when the text has at least one item, the formatted list holds no
    semicolon and no raw line break (the only breaks are the "<br/>"
    between entries), and it neither begins nor ends with whitespace. *)
Theorem formatted_has_no_delimiter (s : pystr) (numbered : bool) :
  items_of s <> [] ->
  (forall c, In c (format_list (VStr s) numbered) -> c <> SEMI /\ c <> NL)
  /\ strip (format_list (VStr s) numbered) = format_list (VStr s) numbered.
Proof.
  intros H. pose proof (formatted_is_single_item s numbered H) as Hy.
  set (y := format_list (VStr s) numbered) in *.
  assert (Hin : In y (items_of y)) by (rewrite Hy; now left).
  split.
  - intros c Hcy. destruct (items_of_char y y c Hin Hcy). tauto.
  - destruct (items_of_ends y y Hin). now apply strip_fixed.
Qed.

Lemma formatted_has_no_delimiter_witness :
  items_of (u "a
b;c") <> []
  /\ forall c, In c (format_list (VStr (u "a
b;c")) false) -> c <> SEMI /\ c <> NL.
Proof.
  assert (H : items_of (u "a
b;c") <> []) by (vm_compute; discriminate).
  split; [exact H|].
  exact (proj1 (formatted_has_no_delimiter _ false H)).
Defined.

(* ================================================================== *)
(** * More about the file name *)
(* ================================================================== *)

Lemma uint_cps_inj (d d' : Decimal.uint) :
  uint_cps d = uint_cps d' -> d = d'.
Proof.
  revert d'. induction d; intros [] E; simpl in E;
    try discriminate; try reflexivity;
    inversion E; f_equal; auto.
Qed.

Lemma str_nat_inj (n m : nat) : str_nat n = str_nat m -> n = m.
Proof.
  unfold str_nat. intros E. apply uint_cps_inj in E.
  now apply DecimalNat.Unsigned.to_uint_inj.
Qed.

(** Two texts cut at the first separator agree piece by piece. *)
Lemma app_sep_inj (sep : N) (a a' r r' : pystr) :
  ~ In sep a -> ~ In sep a' ->
  a ++ sep :: r = a' ++ sep :: r' -> a = a' /\ r = r'.
Proof.
  revert a'. induction a as [|x a IH]; intros [|x' a'] Ha Ha' E;
    simpl in *.
  - inversion E. now split.
  - inversion E; subst. elim Ha'. now left.
  - inversion E; subst. elim Ha. now left.
  - inversion E; subst. destruct (IH a') as [-> ->]; try tauto.
Qed.

Lemma month_abbr_length (m : month) : length (month_abbr m) = 3.
Proof. destruct m; reflexivity. Qed.

Lemma month_abbr_inj (m m' : month) : month_abbr m = month_abbr m' -> m = m'.
Proof.
  destruct m, m'; intros E; try reflexivity; vm_compute in E; discriminate.
Qed.

Lemma str_nat_no_underscore (n : nat) : ~ In 95%N (str_nat n).
Proof. intros H. apply str_nat_digits in H. lia. Qed.

(** X4: the file name tells the day of the rendering: two renderings of
    one record get the same file name only if the clock shows the same
    year, month and day of the month. *)
Theorem pdf_filename_tells_day (wc tc : pystr) (row : pydict)
  (now1 now2 : datetime) :
  valid_day now1 -> valid_day now2 ->
  filename (generate_pdf wc tc row now1)
  = filename (generate_pdf wc tc row now2) ->
  year now1 = year now2 /\ mon now1 = mon now2 /\ day now1 = day now2.
Proof.
  unfold valid_day. intros Hd1 Hd2 E.
  change (filename (generate_pdf wc tc row now1))
    with (pdf_filename wc tc row now1) in E.
  change (filename (generate_pdf wc tc row now2))
    with (pdf_filename wc tc row now2) in E.
  unfold pdf_filename in E. cbv zeta in E.
  do 5 apply app_inv_head in E.
  apply app_eq_by_length in E; [|now rewrite !month_abbr_length].
  destruct E as [Em E]. apply month_abbr_inj in Em.
  apply app_eq_by_length in E; [|rewrite !two_digits_length; lia].
  destruct E as [Ed E]. apply two_digits_inj in Ed; try lia.
  apply app_inv_head in E.
  apply (app_sep_inj 95%N) in E; try apply str_nat_no_underscore.
  destruct E as [Ey _]. apply str_nat_inj in Ey. tauto.
Qed.

Lemma pdf_filename_tells_day_witness :
  valid_day click1 /\ valid_day click2
  /\ (filename (generate_pdf (u "Week") (u "Lesson Title") blank_record
                  click1)
      = filename (generate_pdf (u "Week") (u "Lesson Title") blank_record
                    click2) ->
      day click1 = day click2).
Proof.
  assert (H1 : valid_day click1) by (vm_compute; lia).
  assert (H2 : valid_day click2) by (vm_compute; lia).
  split; [exact H1|]. split; [exact H2|].
  intros E.
  exact (proj2 (proj2 (pdf_filename_tells_day _ _ _ _ _ H1 H2 E))).
Defined.

(* ================================================================== *)
(** * More about the story *)
(* ================================================================== *)

Lemma visibleb_iff (v : value) : visibleb v = true <-> visible v.
Proof.
  unfold visible. split.
  - destruct v as [|s|z|o|t|]; simpl; try discriminate.
    intros H. exists s. split; [reflexivity|]. now apply negb_true_iff.
  - intros (s & -> & H). simpl. now rewrite H.
Qed.

Lemma add_section_app (st : list flowable) (name : pystr) (v : value)
  (bullet numbered : bool) :
  add_section st name v bullet numbered
  = st ++ add_section [] name v bullet numbered.
Proof.
  unfold add_section. destruct v; try (now rewrite app_nil_r).
  destruct (pystr_eqb (strip s) []); [now rewrite app_nil_r | reflexivity].
Qed.

(** What one call adds: nothing, or a heading, a body and a spacer. *)
Lemma add_section_block (name : pystr) (v : value) (bullet numbered : bool) :
  exists body,
    add_section [] name v bullet numbered
    = if visibleb v
      then [Paragraph name SectionHeading; Paragraph body Normal; Spacer 1 8]
      else [].
Proof.
  destruct (visibleb v) eqn:E.
  - apply visibleb_iff in E. destruct E as (s & -> & Hs).
    exact (add_section_emits [] name s bullet numbered Hs).
  - exists []. apply add_section_omits.
    destruct (visible_or_not v) as [Hv|Hv]; [|exact Hv].
    apply visibleb_iff in Hv. congruence.
Qed.

Lemma body_sections_table (row : pydict) (st : list flowable) :
  body_sections row st
  = st ++ flat_map (fun e => add_section [] (sec_name e) (sec_value e)
                               (sec_bullet e) (sec_numbered e))
            (section_table row).
Proof.
  unfold body_sections, section_table. cbv zeta.
  rewrite (add_section_app st).
  repeat match goal with
         | |- context [add_section (?a ++ ?b) ?n ?v ?bl ?nm] =>
             rewrite (add_section_app (a ++ b) n v bl nm)
         end.
  cbn [flat_map sec_name sec_value sec_bullet sec_numbered].
  rewrite <- !app_assoc, app_nil_r. reflexivity.
Qed.

Lemma blocks_headings (table : list section_entry) :
  flat_map (fun f => match f with
                     | Paragraph t SectionHeading => [t]
                     | _ => []
                     end)
    (flat_map (fun e => add_section [] (sec_name e) (sec_value e)
                          (sec_bullet e) (sec_numbered e)) table)
  = map sec_name (filter (fun e => visibleb (sec_value e)) table).
Proof.
  induction table as [|e table IH]; [reflexivity|].
  cbn [flat_map filter]. rewrite flat_map_app, IH.
  destruct (add_section_block (sec_name e) (sec_value e) (sec_bullet e)
              (sec_numbered e)) as (body & ->).
  destruct (visibleb (sec_value e)); reflexivity.
Qed.

Lemma blocks_length (table : list section_entry) :
  length (flat_map (fun e => add_section [] (sec_name e) (sec_value e)
                               (sec_bullet e) (sec_numbered e)) table)
  = 3 * length (filter (fun e => visibleb (sec_value e)) table).
Proof.
  induction table as [|e table IH]; [reflexivity|].
  cbn [flat_map filter]. rewrite length_app, IH.
  destruct (add_section_block (sec_name e) (sec_value e) (sec_bullet e)
              (sec_numbered e)) as (body & ->).
  destruct (visibleb (sec_value e)); simpl; lia.
Qed.

Lemma story_headings (wc tc : pystr) (row : pydict) (now : datetime) :
  section_headings (story (generate_pdf wc tc row now))
  = map sec_name (filter (fun e => visibleb (sec_value e))
                    (section_table row)).
Proof.
  unfold generate_pdf. cbn [story].
  rewrite body_sections_table. unfold section_headings.
  change (skipn 5 (header_block wc tc row ++ ?x)) with x.
  apply blocks_headings.
Qed.

(** X5: the story is the five flowables of the header block followed by
    three flowables (heading, body, spacer) for each section shown, so its
    length is 5 plus 3 times the number of headings; the headings are
    those of the twelve sections whose value is text with a visible
    character, in the order of the source. *)
Theorem story_shape (wc tc : pystr) (row : pydict) (now : datetime) :
  let st := story (generate_pdf wc tc row now) in
  firstn 5 st = header_block wc tc row
  /\ length st = 5 + 3 * length (section_headings st)
  /\ length (section_headings st) <= 12
  /\ section_headings st
     = map sec_name (filter (fun e => visibleb (sec_value e))
                       (section_table row)).
Proof.
  intros st. subst st. rewrite story_headings.
  split; [|split; [|split]].
  - unfold generate_pdf. cbn [story]. rewrite body_sections_table.
    reflexivity.
  - unfold generate_pdf. cbn [story]. rewrite body_sections_table.
    rewrite length_app, blocks_length, length_map. reflexivity.
  - rewrite length_map.
    etransitivity; [apply filter_length_le | reflexivity].
  - reflexivity.
Qed.

(** The table has one entry per heading.  [field_section_at k] settles
    the section whose entry is at position [k] of the table. *)
Tactic Notation "field_section_at" integer(k) hyp(Hin) :=
  inversion Hin; subst; clear Hin;
  do 2 eexists; split;
  [ unfold section_table; cbv zeta; do k right; left; reflexivity
  | let e := fresh "e" in
    let He := fresh "He" in
    let En := fresh "En" in
    intros e He En; unfold section_table in He; cbv zeta in He;
    repeat (destruct He as [<-|He];
            [ first [ exfalso; vm_compute in En; discriminate
                    | reflexivity ]
            | ]);
    destruct He ].

Lemma section_table_lookup (row : pydict) (name field : pystr) :
  In (name, field) field_sections ->
  exists bl nm,
    In (mkEntry name (dict_get_or_empty row field) bl nm) (section_table row)
    /\ forall e, In e (section_table row) -> sec_name e = name ->
                 sec_value e = dict_get_or_empty row field.
Proof.
  intros Hin. unfold field_sections in Hin.
  destruct Hin as [Hin|Hin]; [field_section_at 1 Hin|].
  destruct Hin as [Hin|Hin]; [field_section_at 2 Hin|].
  destruct Hin as [Hin|Hin]; [field_section_at 3 Hin|].
  destruct Hin as [Hin|Hin]; [field_section_at 4 Hin|].
  destruct Hin as [Hin|Hin]; [field_section_at 5 Hin|].
  destruct Hin as [Hin|Hin]; [field_section_at 6 Hin|].
  destruct Hin as [Hin|Hin]; [field_section_at 7 Hin|].
  destruct Hin as [Hin|Hin]; [field_section_at 8 Hin|].
  destruct Hin as [Hin|Hin]; [field_section_at 9 Hin|].
  destruct Hin as [Hin|Hin]; [field_section_at 10 Hin|].
  destruct Hin as [Hin|Hin]; [field_section_at 11 Hin|].
  destruct Hin.
Qed.

(** X6: the heading "NV Standards" is always in the story; the heading of
    each of the other eleven sections is in the story exactly when the
    record's value for the section's field is text with a visible
    character (a missing field counts as empty text). *)
Theorem story_heading_iff (wc tc : pystr) (row : pydict) (now : datetime)
  (name field : pystr) :
  In (name, field) field_sections ->
  In (u "NV Standards") (section_headings (story (generate_pdf wc tc row now)))
  /\ (In name (section_headings (story (generate_pdf wc tc row now)))
      <-> visible (dict_get_or_empty row field)).
Proof.
  intros Hin. rewrite story_headings. split.
  - unfold section_table. cbv zeta. cbn [filter sec_value visibleb].
    rewrite nv_standards_never_blank. cbn [negb map sec_name].
    left. reflexivity.
  - destruct (section_table_lookup row name field Hin)
      as (bl & nm & Hentry & Huniq).
    rewrite in_map_iff, <- visibleb_iff. split.
    + intros (e & En & He). apply filter_In in He. destruct He as [He Hv].
      now rewrite <- (Huniq e He En).
    + intros Hv.
      exists (mkEntry name (dict_get_or_empty row field) bl nm).
      split; [reflexivity|]. apply filter_In. split; [exact Hentry|exact Hv].
Qed.

Lemma story_heading_iff_witness :
  In (u "Lesson Summary", u "Lesson Summary") field_sections
  /\ In (u "Lesson Summary")
       (section_headings
          (story (generate_pdf (u "Week") (u "Lesson Title")
                    colonies_record click1)))
  /\ ~ In (u "Learning Evidence")
       (section_headings
          (story (generate_pdf (u "Week") (u "Lesson Title")
                    colonies_record click1))).
Proof.
  assert (H1 : In (u "Lesson Summary", u "Lesson Summary") field_sections)
    by (unfold field_sections; repeat (first [left; reflexivity | right])).
  assert (H2 : In (u "Learning Evidence", u "Learning Evidence")
                 field_sections)
    by (unfold field_sections; repeat (first [left; reflexivity | right])).
  split; [exact H1|]. split.
  - apply (story_heading_iff (u "Week") (u "Lesson Title") colonies_record
             click1 _ _ H1).
    eexists. split; reflexivity.
  - intros H.
    apply (story_heading_iff (u "Week") (u "Lesson Title") colonies_record
             click1 _ _ H2) in H.
    destruct H as (s & E & Hs). vm_compute in E. inversion E; subst.
    vm_compute in Hs. discriminate.
Defined.

(* ================================================================== *)
(** * More about load_data *)
(* ================================================================== *)

(** ** Missing cells and empty texts *)

Lemma fill_cell_idem (v : value) : fill_cell (fill_cell v) = fill_cell v.
Proof. destruct v; reflexivity. Qed.

Lemma fill_all_idem (df : DataFrame) : fill_all (fill_all df) = fill_all df.
Proof.
  unfold fill_all. simpl. f_equal. rewrite map_map.
  apply map_ext. intros r. rewrite map_map. apply map_ext, fill_cell_idem.
Qed.

Lemma fill_all_without_nat (df : DataFrame) : without_nat (fill_all df).
Proof.
  unfold without_nat, fill_all. simpl. apply Forall_map, Forall_forall.
  intros r _. apply Forall_map, Forall_forall. intros v _.
  destruct v; discriminate.
Qed.

Lemma overwrite_fill (cols : list pystr) (c : pystr) (v : value)
  (r : list value) :
  fill_cell v = v ->
  overwrite cols c v (map fill_cell r) = map fill_cell (overwrite cols c v r).
Proof.
  intros Hv. revert r. induction cols as [|k cols IH]; intros [|x r]; simpl;
    try reflexivity.
  rewrite IH. destruct (pystr_eqb k c); [now rewrite Hv | reflexivity].
Qed.

Lemma set_column_fill_all (df : DataFrame) (c : pystr) (v : value) :
  fill_cell v = v ->
  set_column (fill_all df) c v = fill_all (set_column df c v).
Proof.
  intros Hv. unfold set_column, fill_all. simpl.
  destruct (has_column c (columns df)); simpl; f_equal;
    rewrite !map_map; apply map_ext; intros r.
  - now apply overwrite_fill.
  - rewrite map_app. simpl. now rewrite Hv.
Qed.

Lemma add_missing_fill_all (df : DataFrame) (c : pystr) :
  add_missing (fill_all df) c = fill_all (add_missing df c).
Proof.
  unfold add_missing. simpl columns.
  destruct (has_column c (columns df)); [reflexivity|].
  now apply set_column_fill_all.
Qed.

Lemma add_missing_fold_fill_all (req : list pystr) (df : DataFrame) :
  fold_left add_missing req (fill_all df)
  = fill_all (fold_left add_missing req df).
Proof.
  revert df. induction req as [|c req IH]; intros df; simpl; [reflexivity|].
  now rewrite add_missing_fill_all, IH.
Qed.

Section LoadMore.

Variable lower : pystr -> pystr.

Lemma detect_week_fill_all (df : DataFrame) :
  detect_week lower (fill_all df)
  = (fill_all (fst (detect_week lower df)), snd (detect_week lower df)).
Proof.
  unfold detect_week. simpl columns.
  destruct (find (is_week_header lower) (columns df)); simpl;
    [reflexivity|].
  now rewrite set_column_fill_all.
Qed.

Lemma detect_title_fill_all (df : DataFrame) :
  detect_title lower (fill_all df)
  = (fill_all (fst (detect_title lower df)), snd (detect_title lower df)).
Proof.
  unfold detect_title. simpl columns.
  destruct (find (is_title_header lower) (columns df)); simpl;
    [reflexivity|].
  now rewrite set_column_fill_all.
Qed.

(** X7: outside date columns [load_data] cannot tell a missing cell from
    an empty text: a sheet none of whose cells is a missing timestamp and
    the same sheet with every missing cell replaced by the empty text load
    to the same frame and the same two labels. *)
Theorem load_data_fill_blind (raw : DataFrame) :
  without_nat raw ->
  load_data lower (Some (fill_all raw)) = load_data lower (Some raw).
Proof.
  intros Hn. unfold load_data.
  change (mkDF (map strip (columns (fill_all raw))) (rows (fill_all raw)))
    with (fill_all (mkDF (map strip (columns raw)) (rows raw))).
  rewrite add_missing_fold_fill_all, detect_week_fill_all.
  destruct (detect_week lower
              (fold_left add_missing required_columns
                 (mkDF (map strip (columns raw)) (rows raw))))
    as [d2 wc] eqn:Ew.
  cbn [fst snd]. rewrite detect_title_fill_all.
  destruct (detect_title lower d2) as [d3 tc] eqn:Et.
  cbn [fst snd].
  rewrite (fillna_fill_all (fill_all d3)) by apply fill_all_without_nat.
  rewrite fill_all_idem, (fillna_fill_all d3); [reflexivity|].
  apply (load_data_stages_rows lower (Forall (fun v => v <> VNaT))
           raw (fold_left add_missing required_columns
                  (mkDF (map strip (columns raw)) (rows raw)))
           d2 d3 wc tc); try assumption; try reflexivity.
  intros df c v. apply set_column_without_nat.
Qed.

End LoadMore.

Lemma load_data_fill_blind_witness :
  without_nat sheet_without_week
  /\ load_data ascii_lower (Some (fill_all sheet_without_week))
     = load_data ascii_lower (Some sheet_without_week).
Proof.
  assert (Hn : without_nat sheet_without_week)
    by (repeat constructor; discriminate).
  split; [exact Hn|].
  apply (load_data_fill_blind ascii_lower sheet_without_week Hn).
Defined.

(** A missing timestamp is told from an empty text: the sheet with a blank
    date loads with NaT in the cell, the sheet with the empty text typed
    there loads with the empty text. *)
Lemma load_data_tells_missing_date :
  load_data ascii_lower (Some (fill_all sheet_with_dates))
  <> load_data ascii_lower (Some sheet_with_dates).
Proof. vm_compute. discriminate. Qed.

(** ** The cells of the sheet *)

Lemma column_kept_refl (j : nat) (k : pystr) (d : DataFrame) :
  nth_error (columns d) j = Some k -> column_kept j k d d.
Proof. intros H. split; [exact H|]. intros i r Hr. now exists r. Qed.

Lemma column_kept_trans (j : nat) (k : pystr) (d1 d2 d3 : DataFrame) :
  column_kept j k d1 d2 -> column_kept j k d2 d3 -> column_kept j k d1 d3.
Proof.
  intros [_ H12] [Hc H23]. split; [exact Hc|].
  intros i r Hr. destruct (H12 i r Hr) as (r2 & Hr2 & E2).
  destruct (H23 i r2 Hr2) as (r3 & Hr3 & E3).
  exists r3. split; [exact Hr3 | congruence].
Qed.

Lemma overwrite_nth (cols : list pystr) (c : pystr) (v : value)
  (r : list value) (j : nat) (k : pystr) :
  nth_error cols j = Some k -> k <> c ->
  nth_error (overwrite cols c v r) j = nth_error r j.
Proof.
  revert r j. induction cols as [|k0 cols IH]; intros [|x r] [|j] Hk Hne;
    simpl in *; try discriminate; try reflexivity.
  - inversion Hk; subst. apply pystr_eqb_neq in Hne. now rewrite Hne.
  - now apply IH.
Qed.

Lemma set_column_keeps (df : DataFrame) (c : pystr) (v : value)
  (j : nat) (k : pystr) :
  rectangular df -> nth_error (columns df) j = Some k -> k <> c ->
  column_kept j k df (set_column df c v).
Proof.
  intros Hr Hk Hne. unfold column_kept, set_column.
  assert (Hj : j < length (columns df))
    by (apply nth_error_Some; congruence).
  destruct (has_column c (columns df)); simpl; split.
  - exact Hk.
  - intros i r Hi. exists (overwrite (columns df) c v r).
    rewrite nth_error_map, Hi. split; [reflexivity|].
    now apply overwrite_nth with (k := k).
  - now rewrite nth_error_app1.
  - intros i r Hi. exists (r ++ [v]).
    rewrite nth_error_map, Hi. split; [reflexivity|].
    apply nth_error_app1.
    unfold rectangular in Hr. rewrite Forall_forall in Hr.
    rewrite (Hr r); [assumption|]. eapply nth_error_In; eassumption.
Qed.

Lemma add_missing_keeps (df : DataFrame) (c : pystr) (j : nat) (k : pystr) :
  rectangular df -> nth_error (columns df) j = Some k ->
  column_kept j k df (add_missing df c).
Proof.
  intros Hr Hk. unfold add_missing.
  destruct (has_column c (columns df)) eqn:E.
  - now apply column_kept_refl.
  - apply set_column_keeps; try assumption.
    intros ->. apply has_column_not_In in E. apply E.
    eapply nth_error_In; eassumption.
Qed.

Lemma add_missing_rectangular (df : DataFrame) (c : pystr) :
  rectangular df -> rectangular (add_missing df c).
Proof.
  intros H. unfold add_missing. destruct (has_column c (columns df));
    [assumption | now apply set_column_rectangular].
Qed.

Lemma add_missing_fold_keeps (req : list pystr) (df : DataFrame)
  (j : nat) (k : pystr) :
  rectangular df -> nth_error (columns df) j = Some k ->
  column_kept j k df (fold_left add_missing req df).
Proof.
  revert df. induction req as [|c req IH]; intros df Hr Hk; simpl.
  - now apply column_kept_refl.
  - pose proof (add_missing_keeps df c j k Hr Hk) as H1.
    apply (column_kept_trans j k df (add_missing df c)); [exact H1|].
    apply IH; [now apply add_missing_rectangular | apply H1].
Qed.

(** A column kept in a frame with as many rows keeps its dtype. *)
Lemma datetime_column_kept (j : nat) (k : pystr) (d d' : DataFrame) :
  column_kept j k d d' -> len d' = len d ->
  datetime_column (rows d') j = datetime_column (rows d) j.
Proof.
  intros [_ Hk] Hlen. apply eq_true_iff_eq.
  rewrite !datetime_column_spec. split; intros H r v Hr Hv.
  - apply In_nth_error in Hr. destruct Hr as (i & Hi).
    destruct (Hk i r Hi) as (r' & Hr' & E).
    apply (H r'); [eapply nth_error_In; eassumption | congruence].
  - apply In_nth_error in Hr. destruct Hr as (i & Hi).
    destruct (nth_error (rows d) i) as [r0|] eqn:E0.
    + destruct (Hk i r0 E0) as (r' & Hr' & E).
      rewrite Hi in Hr'. inversion Hr'; subst r'.
      apply (H r0); [eapply nth_error_In; eassumption | congruence].
    + apply nth_error_None in E0.
      assert (Hlt : i < length (rows d'))
        by (apply nth_error_Some; congruence).
      unfold len in Hlen. lia.
Qed.

Section LoadCells.

Variable lower : pystr -> pystr.

(** X8: [load_data] keeps a sheet each of whose rows has a cell that is
    not a missing timestamp: the frame has as many records as the sheet
    has rows, in the same order; a column of the sheet keeps its position,
    its label is the stripped header, and (unless that label is "Week" or
    "Lesson Title", the two columns the program may write) each of its
    cells is the sheet's cell, a missing one turned into the empty text
    unless the column is one of dates (dtype datetime64), where NaT
    stays. *)
Theorem load_data_keeps_cells (raw : DataFrame) :
  rectangular raw -> Forall has_entry (rows raw) ->
  exists df wc tc,
    load_data lower (Some raw) = Some (df, wc, tc)
    /\ len df = len raw
    /\ forall i j h r,
         nth_error (rows raw) i = Some r ->
         nth_error (columns raw) j = Some h ->
         strip h <> u "Week" -> strip h <> u "Lesson Title" ->
         exists r', nth_error (rows df) i = Some r'
                    /\ nth_error (columns df) j = Some (strip h)
                    /\ nth_error r' j
                       = option_map
                           (fun x => if datetime_column (rows raw) j
                                     then x else fill_cell x)
                           (nth_error r j).
Proof.
  intros Hraw Hent.
  destruct (load_data_stages lower raw Hraw)
    as (d1 & d2 & d3 & wc & tc & E1 & Ew & Et & El & H1 & H2 & H3 & L3).
  exists (dropna_all (fillna d3)), wc, tc. split; [exact El|].
  assert (Hent3 : Forall has_entry (rows d3)).
  { apply (load_data_stages_rows lower has_entry raw d1 d2 d3 wc tc);
      try assumption.
    intros df c v. apply set_column_has_entry. }
  rewrite (dropna_after_fillna d3 Hent3).
  split.
  - unfold len, fillna in *. simpl. now rewrite length_map.
  - intros i j h r Hi Hj Hw Ht.
    set (d0 := mkDF (map strip (columns raw)) (rows raw)) in *.
    assert (H0 : rectangular d0).
    { unfold rectangular, d0. simpl. now rewrite length_map. }
    assert (Hj0 : nth_error (columns d0) j = Some (strip h)).
    { unfold d0. simpl. now rewrite nth_error_map, Hj. }
    assert (K1 : column_kept j (strip h) d0 d1).
    { rewrite E1. now apply add_missing_fold_keeps. }
    assert (K2 : column_kept j (strip h) d1 d2).
    { destruct (detect_week_cases lower _ _ _ Ew) as [[_ ->]|(_ & _ & ->)].
      - apply column_kept_refl, K1.
      - apply set_column_keeps; [assumption | apply K1 | assumption]. }
    assert (K3 : column_kept j (strip h) d2 d3).
    { destruct (detect_title_cases lower _ _ _ Et) as [[_ ->]|(_ & _ & ->)].
      - apply column_kept_refl, K2.
      - apply set_column_keeps; [assumption | apply K2 | assumption]. }
    pose proof (column_kept_trans _ _ _ _ _
                  (column_kept_trans _ _ _ _ _ K1 K2) K3) as K.
    assert (Hd : datetime_column (rows d3) j
                 = datetime_column (rows raw) j)
      by (apply (datetime_column_kept j (strip h) d0 d3 K); exact L3).
    destruct K as [Hc Hrows].
    destruct (Hrows i r Hi) as (r3 & Hr3 & E3).
    exists (fill_row (datetime_column (rows d3)) 0 r3). split; [|split].
    + unfold fillna. simpl. now rewrite nth_error_map, Hr3.
    + exact Hc.
    + rewrite fill_row_nth, E3. simpl. now rewrite Hd.
Qed.

End LoadCells.

Lemma load_data_keeps_cells_witness :
  rectangular sheet_with_dates
  /\ Forall has_entry (rows sheet_with_dates)
  /\ exists df wc tc,
       load_data ascii_lower (Some sheet_with_dates) = Some (df, wc, tc)
       /\ len df = 2
       /\ exists r', nth_error (rows df) 1 = Some r'
                     /\ nth_error (columns df) 2 = Some (u "Date")
                     /\ nth_error r' 2 = Some VNaT.
Proof.
  assert (Hr : rectangular sheet_with_dates) by (repeat constructor).
  assert (Hn : Forall has_entry (rows sheet_with_dates)).
  { repeat constructor;
      (exists (VInt 1); split; [now left | discriminate]). }
  split; [exact Hr|]. split; [exact Hn|].
  destruct (load_data_keeps_cells ascii_lower sheet_with_dates Hr Hn)
    as (df & wc & tc & E & Hlen & Hcells).
  exists df, wc, tc. split; [exact E|]. split; [exact Hlen|].
  destruct (Hcells 1 2 (u "Date")
              [VInt 1; VStr (u "Revolution"); VNaT] eq_refl eq_refl)
    as (r' & H1 & H2 & H3).
  - vm_compute. discriminate.
  - vm_compute. discriminate.
  - exists r'. split; [exact H1|]. split; [exact H2 | exact H3].
Defined.

(* ================================================================== *)
(** * More about the "Add New Lesson" handler *)
(* ================================================================== *)

Lemma dict_get_blank_row (cols : list pystr) (c : pystr) :
  dict_get (blank_row cols) c = if has_column c cols then Some (VStr []) else None.
Proof.
  unfold blank_row.
  assert (G : forall d,
             dict_get (fold_left (fun d c => dict_set d c (VStr [])) cols d) c
             = if has_column c cols then Some (VStr []) else dict_get d c).
  { induction cols as [|k cols IH]; intros d; simpl; [reflexivity|].
    rewrite IH, dict_get_set.
    destruct (pystr_eqb c k) eqn:E.
    - apply pystr_eqb_eq in E. subst k. rewrite pystr_eqb_refl. simpl.
      now destruct (has_column c cols).
    - assert (E' : pystr_eqb k c = false).
      { apply pystr_eqb_neq. apply pystr_eqb_neq in E. congruence. }
      rewrite E'. reflexivity. }
  rewrite G. now destruct (has_column c cols).
Qed.

Lemma dict_keys_set_NoDup (d : pydict) (k : pystr) (v : value) :
  NoDup (dict_keys d) -> NoDup (dict_keys (dict_set d k v)).
Proof.
  unfold dict_keys. induction d as [|[k0 v0] d IH]; simpl; intros H.
  - constructor; [intros [] | constructor].
  - destruct (pystr_eqb k0 k) eqn:E; simpl; [exact H|].
    inversion H as [|? ? Hn Hd]; subst. constructor; [|now apply IH].
    intros Hin. apply (dict_keys_set d k k0 v) in Hin.
    destruct Hin as [Hin| ->]; [now apply Hn|].
    now rewrite pystr_eqb_refl in E.
Qed.

Lemma blank_row_NoDup (cols : list pystr) : NoDup (dict_keys (blank_row cols)).
Proof.
  unfold blank_row.
  assert (G : forall d, NoDup (dict_keys d) ->
                        NoDup (dict_keys (fold_left
                                 (fun d c => dict_set d c (VStr [])) cols d))).
  { induction cols as [|c cols IH]; intros d Hd; simpl; [exact Hd|].
    apply IH. now apply dict_keys_set_NoDup. }
  apply G. constructor.
Qed.

Lemma new_row_NoDup (df : DataFrame) (wc tc : pystr) (sw : value)
  (now1 now2 : datetime) :
  NoDup (dict_keys (new_row df wc tc sw now1 now2)).
Proof.
  day_counter df; repeat apply dict_keys_set_NoDup; apply blank_row_NoDup.
Qed.

(** The keys of the new row: the columns of the frame and the four labels
    the handler assigns whatever the columns are. *)
Lemma new_row_keys_iff (df : DataFrame) (wc tc : pystr) (sw : value)
  (now1 now2 : datetime) (x : pystr) :
  In x (dict_keys (new_row df wc tc sw now1 now2))
  <-> In x (columns df) \/ x = wc \/ x = u "Date" \/ x = tc
      \/ x = u "Lesson Status".
Proof.
  unfold new_row.
  destruct (has_column (u "Day # (Continuous)") (columns df)) eqn:E;
    repeat rewrite dict_keys_set; rewrite blank_row_keys; [|tauto].
  apply has_column_In in E. intuition congruence.
Qed.

Lemma reindex_length (cols new_cols : list pystr) (r : list value) :
  length (reindex cols new_cols r) = length new_cols.
Proof. unfold reindex. apply length_map. Qed.

Lemma concat_rectangular (a b : DataFrame) : rectangular (concat a b).
Proof.
  unfold rectangular, concat. simpl. apply Forall_app. split;
    apply Forall_map, Forall_forall; intros r _; apply reindex_length.
Qed.

Lemma concat_NoDup (a b : DataFrame) :
  NoDup (columns a) -> NoDup (columns b) -> NoDup (columns (concat a b)).
Proof.
  intros Ha Hb. unfold concat. simpl. apply NoDup_app.
  - exact Ha.
  - now apply NoDup_filter.
  - intros x Hx Hf. apply filter_In in Hf. destruct Hf as [_ Hf].
    apply has_column_In in Hx. now rewrite Hx in Hf.
Qed.

Ltac distinct_labels :=
  match goal with
  | |- pystr_eqb ?a ?b = false => apply pystr_eqb_neq; congruence
  end.

(** X9: the record the handler appends holds the empty text under every
    column of the frame it does not assign; the selected week under the
    week label; the clock's date as "Month DD, YYYY" under "Date"; the
    text "Planned" under "Lesson Status"; and, when the frame has the
    column "Day # (Continuous)", the number of records before the addition
    plus one under it. *)
Theorem add_new_lesson_record (df : DataFrame) (wc tc : pystr) (sw : value)
  (now1 now2 : datetime) :
  NoDup (columns df) ->
  let df' := add_new_lesson df wc tc sw now1 now2 in
  (forall c, In c (columns df) ->
             c <> wc -> c <> u "Date" -> c <> tc -> c <> u "Lesson Status" ->
             c <> u "Day # (Continuous)" ->
             cell df' (len df) c = Some (VStr []))
  /\ (wc <> u "Date" -> wc <> tc -> wc <> u "Lesson Status" ->
      wc <> u "Day # (Continuous)" ->
      cell df' (len df) wc = Some sw)
  /\ (tc <> u "Date" ->
      cell df' (len df) (u "Date")
      = Some (VStr (month_name (mon now1) ++ u " " ++ two_digits (day now1)
                      ++ u ", " ++ str_nat (year now1))))
  /\ cell df' (len df) (u "Lesson Status") = Some (VStr (u "Planned"))
  /\ (In (u "Day # (Continuous)") (columns df) ->
      cell df' (len df) (u "Day # (Continuous)")
      = Some (VInt (Z.of_nat (len df + 1)))).
Proof.
  intros _ df'. subst df'. unfold add_new_lesson.
  assert (Hcol : forall x,
             In x (columns df) \/ x = wc \/ x = u "Date" \/ x = tc
             \/ x = u "Lesson Status" ->
             In x (columns (concat df (frame_of_dict
                     (new_row df wc tc sw now1 now2))))).
  { intros x Hx. apply concat_columns. right. simpl.
    now apply new_row_keys_iff. }
  split; [|split; [|split; [|split]]].
  - intros c Hc H1 H2 H3 H4 H5.
    rewrite concat_cell_right by (apply Hcol; tauto).
    assert (Hb : dict_get (blank_row (columns df)) c = Some (VStr [])).
    { rewrite dict_get_blank_row.
      apply has_column_In in Hc. now rewrite Hc. }
    day_counter df; repeat rewrite dict_get_set;
      repeat match goal with
             | |- context [pystr_eqb ?a c] =>
                 let E := fresh "E" in
                 assert (E : pystr_eqb a c = false) by distinct_labels;
                 rewrite E; clear E
             end;
      now rewrite Hb.
  - intros H1 H2 H3 H4.
    rewrite concat_cell_right by (apply Hcol; tauto).
    day_counter df; repeat rewrite dict_get_set;
      repeat match goal with
             | |- context [pystr_eqb ?a wc] =>
                 lazymatch a with
                 | wc => fail
                 | _ =>
                     let E := fresh "E" in
                     assert (E : pystr_eqb a wc = false) by distinct_labels;
                     rewrite E; clear E
                 end
             end;
      now rewrite pystr_eqb_refl.
  - intros H1.
    rewrite concat_cell_right by (apply Hcol; tauto).
    assert (E1 : pystr_eqb tc (u "Date") = false) by distinct_labels.
    day_counter df; repeat rewrite dict_get_set;
      change (pystr_eqb (u "Day # (Continuous)") (u "Date")) with false;
      change (pystr_eqb (u "Lesson Status") (u "Date")) with false;
      now rewrite E1, pystr_eqb_refl.
  - rewrite concat_cell_right by (apply Hcol; tauto).
    day_counter df; repeat rewrite dict_get_set;
      change (pystr_eqb (u "Day # (Continuous)") (u "Lesson Status"))
        with false;
      now rewrite pystr_eqb_refl.
  - intros Hd. rewrite concat_cell_right by (apply Hcol; tauto).
    unfold new_row. apply has_column_In in Hd. rewrite Hd.
    now rewrite dict_get_set, pystr_eqb_refl.
Qed.

Lemma add_new_lesson_record_witness :
  NoDup (columns one_lesson)
  /\ cell (add_new_lesson one_lesson (u "Week") (u "Lesson Title")
             (VInt 1) click1 click2) 1 (u "Lesson Summary")
     = Some (VStr [])
  /\ cell (add_new_lesson one_lesson (u "Week") (u "Lesson Title")
             (VInt 1) click1 click2) 1 (u "Date")
     = Some (VStr (u "November 04, 2025")).
Proof.
  split; [exact one_lesson_labels|].
  destruct (add_new_lesson_record one_lesson (u "Week") (u "Lesson Title")
              (VInt 1) click1 click2 one_lesson_labels)
    as (Hblank & _ & Hdate & _).
  split.
  - apply Hblank; try (vm_compute; discriminate).
    vm_compute. tauto.
  - apply Hdate. vm_compute. discriminate.
Defined.

(** X10: the handler keeps the frame well formed and adds no column but
    the four it assigns: the new frame is rectangular, its labels are
    distinct, the old columns come first in their order, and a label is a
    column of the new frame exactly when it was one before or is the week
    label, "Date", the title label or "Lesson Status".  In particular a
    frame without "Day # (Continuous)" does not get that column. *)
Theorem add_new_lesson_shape (df : DataFrame) (wc tc : pystr) (sw : value)
  (now1 now2 : datetime) :
  NoDup (columns df) ->
  let df' := add_new_lesson df wc tc sw now1 now2 in
  rectangular df'
  /\ NoDup (columns df')
  /\ (exists extra, columns df' = columns df ++ extra)
  /\ (forall c, In c (columns df')
                <-> In c (columns df) \/ c = wc \/ c = u "Date" \/ c = tc
                    \/ c = u "Lesson Status").
Proof.
  intros Hnd df'. subst df'. unfold add_new_lesson.
  split; [apply concat_rectangular|]. split; [|split].
  - apply concat_NoDup; [exact Hnd|]. simpl. apply new_row_NoDup.
  - unfold concat. simpl. eexists. reflexivity.
  - intros c. rewrite concat_columns. simpl.
    rewrite new_row_keys_iff. tauto.
Qed.

Lemma add_new_lesson_shape_witness :
  NoDup (columns one_lesson)
  /\ ~ In (u "Day # (Continuous)")
       (columns (add_new_lesson one_lesson (u "Week") (u "Lesson Title")
                   (VInt 1) click1 click2)).
Proof.
  split; [exact one_lesson_labels|].
  destruct (add_new_lesson_shape one_lesson (u "Week") (u "Lesson Title")
              (VInt 1) click1 click2 one_lesson_labels)
    as (_ & _ & _ & Hcols).
  intros H. apply Hcols in H. vm_compute in H.
  intuition discriminate.
Defined.

(** The cells of the new record are texts, a number, or the selected
    week. *)
Lemma new_row_cells (P : value -> Prop) (df : DataFrame) (wc tc : pystr)
  (sw : value) (now1 now2 : datetime) (c : pystr) (v : value) :
  (forall s, P (VStr s)) -> (forall z, P (VInt z)) -> P sw ->
  dict_get (new_row df wc tc sw now1 now2) c = Some v -> P v.
Proof.
  intros Hs Hz Hsw. day_counter df; repeat rewrite dict_get_set;
    rewrite dict_get_blank_row;
    repeat match goal with
           | |- context [if ?b then _ else _] => destruct b
           end;
    intros E; inversion E; subst; auto.
Qed.

Lemma filter_nothing (A : Type) (f : A -> bool) (l : list A) :
  (forall x, In x l -> f x = false) -> filter f l = [].
Proof.
  induction l as [|x l IH]; intros H; simpl; [reflexivity|].
  rewrite (H x (or_introl eq_refl)). apply IH. intros y Hy. apply H.
  now right.
Qed.

(** When the frame has the labels the handler assigns, the addition
    creates no column, and what holds of every cell of the frame, of every
    text, of every number and of the selected week holds of every cell of
    the new frame. *)
Lemma add_new_lesson_cells (P : value -> Prop) (df : DataFrame)
  (wc tc : pystr) (sw : value) (now1 now2 : datetime) :
  rectangular df ->
  In wc (columns df) -> In tc (columns df) ->
  In (u "Date") (columns df) -> In (u "Lesson Status") (columns df) ->
  (forall s, P (VStr s)) -> (forall z, P (VInt z)) -> P sw ->
  (forall i c v, cell df i c = Some v -> P v) ->
  columns (add_new_lesson df wc tc sw now1 now2) = columns df
  /\ forall i c v,
       cell (add_new_lesson df wc tc sw now1 now2) i c = Some v -> P v.
Proof.
  intros Hr Hwc Htc Hdate Hst Hs Hz Hsw Hclean.
  assert (Hcols : columns (add_new_lesson df wc tc sw now1 now2)
                  = columns df).
  { unfold add_new_lesson, concat. simpl. rewrite filter_nothing.
    - apply app_nil_r.
    - intros x Hx. apply new_row_keys_iff in Hx.
      apply negb_false_iff, has_column_In.
      destruct Hx as [Hx|[->|[->|[->| ->]]]]; assumption. }
  split; [exact Hcols|].
  intros i c v Hcell.
  assert (Hc : In c (columns (add_new_lesson df wc tc sw now1 now2))).
  { unfold cell in Hcell.
    destruct (nth_error (rows (add_new_lesson df wc tc sw now1 now2)) i)
      as [r|]; [|discriminate].
    destruct (in_dec (list_eq_dec N.eq_dec) c
                (columns (add_new_lesson df wc tc sw now1 now2)))
      as [Hin|Hout]; [exact Hin|].
    rewrite (row_get_none _ r c Hout) in Hcell. discriminate. }
  unfold add_new_lesson in *.
  destruct (Nat.lt_trichotomy i (len df)) as [Hi|[Hi|Hi]].
  - rewrite concat_cell_left in Hcell by assumption.
    inversion Hcell; subst v; clear Hcell.
    destruct (cell df i c) as [v0|] eqn:E; [now apply (Hclean i c)|].
    exfalso. unfold cell, len in *.
    destruct (nth_error (rows df) i) as [r|] eqn:Er.
    + rewrite Hcols in Hc.
      assert (Hlen : length r = length (columns df)).
      { unfold rectangular in Hr. rewrite Forall_forall in Hr.
        apply Hr. eapply nth_error_In; eassumption. }
      destruct (row_get_some _ r c Hlen Hc) as (v & Hv & _). congruence.
    + apply nth_error_None in Er. lia.
  - subst i. rewrite concat_cell_right in Hcell by assumption.
    inversion Hcell; subst v; clear Hcell.
    destruct (dict_get (new_row df wc tc sw now1 now2) c) as [v0|] eqn:E.
    + now apply (new_row_cells P df wc tc sw now1 now2 c).
    + exfalso. rewrite <- row_get_dict in E.
      assert (Hk : In c (dict_keys (new_row df wc tc sw now1 now2))).
      { apply new_row_keys_iff. left. now rewrite <- Hcols. }
      destruct (row_get_some (dict_keys (new_row df wc tc sw now1 now2))
                  (map snd (new_row df wc tc sw now1 now2)) c) as (v & Hv & _);
        [unfold dict_keys; now rewrite !length_map | exact Hk | congruence].
  - exfalso. unfold cell in Hcell.
    assert (Hnone : nth_error
                      (rows (concat df (frame_of_dict
                               (new_row df wc tc sw now1 now2)))) i = None).
    { apply nth_error_None. fold (len (concat df (frame_of_dict
                               (new_row df wc tc sw now1 now2)))).
      rewrite concat_len. unfold len at 2. simpl. lia. }
    now rewrite Hnone in Hcell.
Qed.

(** X11: when the frame already has the week label, the title label,
    "Date" and "Lesson Status" among its columns, the addition creates no
    column, and if no cell was missing before and the selected week is not
    missing, no cell of the new frame is missing; likewise for the missing
    timestamp NaT. *)
Theorem add_new_lesson_no_missing (df : DataFrame) (wc tc : pystr)
  (sw : value) (now1 now2 : datetime) :
  rectangular df -> NoDup (columns df) ->
  In wc (columns df) -> In tc (columns df) ->
  In (u "Date") (columns df) -> In (u "Lesson Status") (columns df) ->
  sw <> VNaN ->
  (forall i c v, cell df i c = Some v -> v <> VNaN) ->
  let df' := add_new_lesson df wc tc sw now1 now2 in
  columns df' = columns df
  /\ (forall i c v, cell df' i c = Some v -> v <> VNaN)
  /\ (sw <> VNaT ->
      (forall i c v, cell df i c = Some v -> v <> VNaT) ->
      forall i c v, cell df' i c = Some v -> v <> VNaT).
Proof.
  intros Hr _ Hwc Htc Hdate Hst Hsw Hclean df'. subst df'.
  destruct (add_new_lesson_cells (fun v => v <> VNaN) df wc tc sw now1 now2
              Hr Hwc Htc Hdate Hst) as [Hcols Hcells];
    try assumption; try discriminate.
  split; [exact Hcols|]. split; [exact Hcells|].
  intros Hsw' Hclean'.
  apply (add_new_lesson_cells (fun v => v <> VNaT) df wc tc sw now1 now2
           Hr Hwc Htc Hdate Hst); try assumption; discriminate.
Qed.

Lemma planned_lesson_labels : NoDup (columns planned_lesson).
Proof.
  repeat (constructor; [vm_compute; intuition discriminate|]). constructor.
Defined.

Lemma planned_lesson_clean (i : nat) (c : pystr) (v : value) :
  cell planned_lesson i c = Some v -> v <> VNaN.
Proof.
  unfold cell, planned_lesson. simpl rows. simpl columns.
  destruct i as [|[|i]]; simpl nth_error; try discriminate.
  cbn [row_get].
  repeat match goal with
         | |- context [pystr_eqb ?a c] => destruct (pystr_eqb a c)
         end;
    intros E; inversion E; discriminate.
Defined.

Lemma add_new_lesson_no_missing_witness :
  rectangular planned_lesson
  /\ columns (add_new_lesson planned_lesson (u "Week") (u "Lesson Title")
                (VInt 1) click1 click2)
     = columns planned_lesson
  /\ forall i c v,
       cell (add_new_lesson planned_lesson (u "Week") (u "Lesson Title")
               (VInt 1) click1 click2) i c = Some v -> v <> VNaN.
Proof.
  assert (Hr : rectangular planned_lesson) by (repeat constructor).
  split; [exact Hr|].
  assert (Hw : In (u "Week") (columns planned_lesson))
    by (vm_compute; tauto).
  assert (Ht : In (u "Lesson Title") (columns planned_lesson))
    by (vm_compute; tauto).
  assert (Hd : In (u "Date") (columns planned_lesson))
    by (vm_compute; tauto).
  assert (Hs : In (u "Lesson Status") (columns planned_lesson))
    by (vm_compute; tauto).
  assert (Hsw : VInt 1 <> VNaN) by discriminate.
  destruct (add_new_lesson_no_missing planned_lesson (u "Week")
              (u "Lesson Title") (VInt 1) click1 click2 Hr
              planned_lesson_labels Hw Ht Hd Hs Hsw planned_lesson_clean)
    as (Hcols & Hcells & _).
  split; [exact Hcols | exact Hcells].
Defined.

(* ================================================================== *)
(** * The sidebar selection *)
(* ================================================================== *)

Lemma filter_twice (A : Type) (p q : A -> bool) (l : list A) :
  filter q (filter p l) = filter (fun x => p x && q x) l.
Proof.
  induction l as [|x l IH]; simpl; [reflexivity|].
  destruct (p x); simpl; [|exact IH].
  destruct (q x); simpl; now rewrite IH.
Qed.

(** The head of a filtered, numbered list is the first row that passes. *)
Lemma first_passing (P : list value -> bool) (l : list (list value))
  (n : nat) :
  match filter (fun ir => P (snd ir)) (combine (seq n (length l)) l) with
  | [] => forall k r, nth_error l k = Some r -> P r = false
  | (i, r) :: _ =>
      exists k, i = n + k /\ nth_error l k = Some r /\ P r = true
                /\ forall j r', j < k -> nth_error l j = Some r' ->
                                P r' = false
  end.
Proof.
  revert n. induction l as [|x l IH]; intros n.
  - intros [|k] r; discriminate.
  - cbn [length seq combine filter snd]. destruct (P x) eqn:Ex.
    + exists 0. rewrite Nat.add_0_r.
      split; [reflexivity|]. split; [reflexivity|]. split; [exact Ex|].
      intros j r' Hj. lia.
    + specialize (IH (S n)).
      destruct (filter (fun ir => P (snd ir))
                  (combine (seq (S n) (length l)) l))
        as [|[i r] rest].
      * intros [|k] r Hr; simpl in Hr; [congruence | eauto].
      * destruct IH as (k & -> & Hk & HP & Hbefore).
        exists (S k). split; [lia|]. split; [exact Hk|].
        split; [exact HP|].
        intros [|j] r' Hj Hr'; simpl in Hr'; [congruence|].
        apply (Hbefore j); [lia | assumption].
Qed.

Section SelectFacts.

Variable py_eq : value -> value -> bool.

(** A row passes both masks. *)
Lemma is_selected_row (df : DataFrame) (wc tc : pystr) (sw st : value)
  (i : nat) :
  is_selected py_eq df wc tc sw st i
  <-> exists r, nth_error (rows df) i = Some r
                /\ (mask py_eq (columns df) wc sw (i, r)
                    && mask py_eq (columns df) tc st (i, r)) = true.
Proof.
  unfold is_selected, cell, mask. simpl. split.
  - intros (w & t & Hw & Ew & Ht & Et).
    destruct (nth_error (rows df) i) as [r|]; [|discriminate].
    exists r. split; [reflexivity|]. now rewrite Hw, Ht, Ew, Et.
  - intros (r & -> & H). apply andb_true_iff in H. destruct H as [Hw Ht].
    destruct (row_get (columns df) r wc) as [w|]; [|discriminate].
    destruct (row_get (columns df) r tc) as [t|]; [|discriminate].
    now exists w, t.
Qed.

(** X12: the row the form edits is the first row of the frame whose week
    cell equals the selected week and whose title cell equals the selected
    title; there is none exactly when no row is such a lesson.  With two
    lessons of one week under one title, only the first can be selected. *)
Theorem selected_index_first (df : DataFrame) (wc tc : pystr)
  (sw st : value) :
  (forall i,
      selected_index py_eq df wc tc sw st = Some i
      <-> is_selected py_eq df wc tc sw st i
          /\ forall j, j < i -> ~ is_selected py_eq df wc tc sw st j)
  /\ (selected_index py_eq df wc tc sw st = None
      <-> forall i, ~ is_selected py_eq df wc tc sw st i).
Proof.
  unfold selected_index, selected_row, week_rows, indexed_rows, len.
  rewrite filter_twice.
  pose proof (first_passing
                (fun r => mask py_eq (columns df) wc sw (0, r)
                          && mask py_eq (columns df) tc st (0, r))
                (rows df) 0) as H.
  change (fun ir : nat * list value =>
            (fun r => mask py_eq (columns df) wc sw (0, r)
                      && mask py_eq (columns df) tc st (0, r)) (snd ir))
    with (fun x : nat * list value =>
            mask py_eq (columns df) wc sw x && mask py_eq (columns df) tc st x)
    in H.
  destruct (filter (fun x : nat * list value =>
                      mask py_eq (columns df) wc sw x
                      && mask py_eq (columns df) tc st x)
              (combine (seq 0 (length (rows df))) (rows df)))
    as [|[i0 r0] rest]; cbn [firstn].
  - assert (Hnone : forall i, ~ is_selected py_eq df wc tc sw st i).
    { intros i Hi. apply is_selected_row in Hi.
      destruct Hi as (r & Hr & Hm). pose proof (H i r Hr) as Hf.
      unfold mask in Hf, Hm. simpl snd in Hf, Hm. congruence. }
    split.
    + intros i. split; [discriminate|]. intros [Hi _]. now elim (Hnone i).
    + split; [intros _; exact Hnone | reflexivity].
  - destruct H as (k & -> & Hk & HP & Hbefore). simpl.
    assert (Hsel : is_selected py_eq df wc tc sw st k).
    { apply is_selected_row. exists r0. split; [exact Hk | exact HP]. }
    assert (Hfirst : forall j, j < k -> ~ is_selected py_eq df wc tc sw st j).
    { intros j Hj Hs. apply is_selected_row in Hs.
      destruct Hs as (r & Hr & Hm). pose proof (Hbefore j r Hj Hr) as Hf.
      unfold mask in Hf, Hm. simpl snd in Hf, Hm. congruence. }
    split.
    + intros i. split.
      * intros [= <-]. split; assumption.
      * intros [Hi Hlt]. f_equal.
        destruct (Nat.lt_trichotomy k i) as [Hc|[Hc|Hc]];
          [now elim (Hlt k Hc) | exact Hc | now elim (Hfirst i Hc)].
    + split; [discriminate|]. intros Hn. now elim (Hn k).
Qed.

End SelectFacts.

(* ================================================================== *)
(** * The edit form *)
(* ================================================================== *)

Lemma update_nth_length (A : Type) (i : nat) (f : A -> A) (l : list A) :
  length (update_nth i f l) = length l.
Proof.
  revert i. induction l as [|x l IH]; intros [|i]; simpl; try reflexivity.
  now rewrite IH.
Qed.

Lemma update_nth_same (A : Type) (i : nat) (f : A -> A) (l : list A) :
  nth_error (update_nth i f l) i = option_map f (nth_error l i).
Proof.
  revert i. induction l as [|x l IH]; intros [|i]; simpl; try reflexivity.
  apply IH.
Qed.

Lemma update_nth_other (A : Type) (i j : nat) (f : A -> A) (l : list A) :
  j <> i -> nth_error (update_nth i f l) j = nth_error l j.
Proof.
  revert i j. induction l as [|x l IH]; intros [|i] [|j] H; simpl;
    try reflexivity; try congruence.
  apply IH. congruence.
Qed.

Lemma put_cell_rectangular (df : DataFrame) (i : nat) (c : pystr)
  (v : value) :
  rectangular df -> rectangular (put_cell df i c v).
Proof.
  unfold rectangular, put_cell. simpl. intros H.
  rewrite Forall_forall in *. intros r Hr.
  apply In_nth_error in Hr. destruct Hr as (j & Hj).
  destruct (Nat.eq_dec j i) as [->|Hne].
  - rewrite update_nth_same in Hj.
    destruct (nth_error (rows df) i) as [r0|] eqn:E; [|discriminate].
    simpl in Hj. inversion Hj; subst. rewrite overwrite_length.
    apply H. eapply nth_error_In; eassumption.
  - rewrite update_nth_other in Hj by assumption.
    apply H. eapply nth_error_In; eassumption.
Qed.

Lemma put_cell_len (df : DataFrame) (i : nat) (c : pystr) (v : value) :
  len (put_cell df i c v) = len df.
Proof. unfold len, put_cell. simpl. apply update_nth_length. Qed.


Lemma put_cell_other (df : DataFrame) (i j : nat) (c c' : pystr)
  (v : value) :
  j <> i \/ c' <> c ->
  cell (put_cell df i c v) j c' = cell df j c'.
Proof.
  intros H. unfold cell, put_cell. simpl.
  destruct (Nat.eq_dec j i) as [->|Hne].
  - rewrite update_nth_same.
    destruct (nth_error (rows df) i) as [r|]; [|reflexivity].
    simpl. apply overwrite_get_other. destruct H; congruence.
  - now rewrite update_nth_other.
Qed.

Section FormFacts.

Variable text_area : pystr -> pystr -> pystr.
Variable to_datetime : pystr -> value.

(** What the handler of one field can return. *)
Lemma edit_field_cases (idx : nat) (s s' : session) (field : pystr) :
  edit_field text_area to_datetime idx s field = Some s' ->
  s' = s
  \/ exists cur,
       In field (columns (frame s))
       /\ cell (frame s) idx field = Some cur
       /\ text_area field (py_str cur) <> py_str cur
       /\ s' = mkSession
                 (set_cell to_datetime (frame s) idx field
                    (text_area field (py_str cur)))
                 (set_cell to_datetime (frame s) idx field
                    (text_area field (py_str cur)) :: writes s).
Proof.
  unfold edit_field.
  destruct (has_column field (columns (frame s))) eqn:Hc;
    [|intros [= <-]; now left].
  destruct (cell (frame s) idx field) as [cur|]; [|discriminate].
  cbv zeta.
  destruct (pystr_eqb (text_area field (py_str cur)) (py_str cur)) eqn:E.
  - intros [= <-]. now left.
  - intros [= <-]. right. exists cur. apply has_column_In in Hc.
    apply pystr_eqb_neq in E. repeat split; assumption || reflexivity.
Qed.

Lemma edit_field_keeps (idx : nat) (s s' : session) (field : pystr) :
  rectangular (frame s) ->
  edit_field text_area to_datetime idx s field = Some s' ->
  rectangular (frame s')
  /\ columns (frame s') = columns (frame s)
  /\ len (frame s') = len (frame s)
  /\ forall j c, j <> idx \/ c <> field ->
                 cell (frame s') j c = cell (frame s) j c.
Proof.
  intros Hr E. apply edit_field_cases in E.
  destruct E as [->|(cur & _ & _ & _ & ->)]; cbn [frame].
  - repeat split; reflexivity || assumption.
  - unfold set_cell. split; [now apply put_cell_rectangular|].
    split; [reflexivity|].
    split; [apply put_cell_len|]. intros j c H. now apply put_cell_other.
Qed.


(** X14: handling one field changes no other cell: the columns and the
    number of records stay, every cell in another row or under another
    label keeps its value, and a field the frame does not have leaves the
    session as it was. *)
Theorem edit_field_frame (idx : nat) (s s' : session) (field : pystr) :
  rectangular (frame s) ->
  edit_field text_area to_datetime idx s field = Some s' ->
  rectangular (frame s')
  /\ columns (frame s') = columns (frame s)
  /\ len (frame s') = len (frame s)
  /\ (forall j c, j <> idx \/ c <> field ->
                  cell (frame s') j c = cell (frame s) j c)
  /\ (~ In field (columns (frame s)) -> s' = s).
Proof.
  intros Hr. unfold edit_field.
  destruct (has_column field (columns (frame s))) eqn:Hc.
  - destruct (cell (frame s) idx field) as [cur|]; [|discriminate].
    cbv zeta.
    destruct (pystr_eqb (text_area field (py_str cur)) (py_str cur)).
    + intros [= <-]. repeat split; try reflexivity; try assumption.
    + intros [= <-]. unfold save_data, set_cell. cbn [frame writes].
      split; [now apply put_cell_rectangular|].
      split; [reflexivity|]. split; [apply put_cell_len|]. split.
      * intros j c H. now apply put_cell_other.
      * intros Hn. apply has_column_In in Hc. contradiction.
  - intros [= <-]. repeat split; try reflexivity; try assumption.
Qed.

(** One field: the handler returns, and either leaves the session alone or
    writes the frame it has just changed. *)
Lemma edit_field_step (idx : nat) (s : session) (field : pystr) :
  rectangular (frame s) -> idx < len (frame s) ->
  exists s',
    edit_field text_area to_datetime idx s field = Some s'
    /\ (s' = s \/ writes s' = frame s' :: writes s).
Proof.
  intros Hr Hi. unfold edit_field.
  destruct (has_column field (columns (frame s))) eqn:Hc;
    [|exists s; split; [reflexivity | now left]].
  apply has_column_In in Hc.
  assert (Hcur : exists cur, cell (frame s) idx field = Some cur).
  { unfold cell, len in *.
    destruct (nth_error (rows (frame s)) idx) as [r|] eqn:E.
    - assert (Hlen : length r = length (columns (frame s))).
      { unfold rectangular in Hr. rewrite Forall_forall in Hr.
        apply Hr. eapply nth_error_In; eassumption. }
      destruct (row_get_some _ r field Hlen Hc) as (v & Hv & _).
      now exists v.
    - apply nth_error_None in E. lia. }
  destruct Hcur as (cur & ->). cbv zeta.
  destruct (pystr_eqb (text_area field (py_str cur)) (py_str cur)).
  - exists s. split; [reflexivity | now left].
  - eexists. split; [reflexivity|]. right. reflexivity.
Qed.

Lemma edit_fields_app (idx : nat) (l1 l2 : list pystr) (s : session) :
  edit_fields text_area to_datetime idx (l1 ++ l2) s
  = match edit_fields text_area to_datetime idx l1 s with
    | Some s' => edit_fields text_area to_datetime idx l2 s'
    | None => None
    end.
Proof.
  revert s. induction l1 as [|f l1 IH]; intros s; simpl; [reflexivity|].
  destruct (edit_field text_area to_datetime idx s f);
    [apply IH | reflexivity].
Qed.

Lemma edit_fields_effect (idx : nat) (fields : list pystr) (s : session) :
  rectangular (frame s) -> idx < len (frame s) ->
  exists s',
    edit_fields text_area to_datetime idx fields s = Some s'
    /\ rectangular (frame s')
    /\ columns (frame s') = columns (frame s)
    /\ len (frame s') = len (frame s)
    /\ (forall j c, j <> idx \/ ~ In c fields ->
                    cell (frame s') j c = cell (frame s) j c)
    /\ exists nw,
         writes s' = nw ++ writes s
         /\ length nw <= length fields
         /\ match nw with
            | [] => frame s' = frame s
            | w :: _ => w = frame s'
            end.
Proof.
  revert s. induction fields as [|f fields IH]; intros s Hr Hi.
  - exists s. simpl. repeat split; try reflexivity; try assumption.
    exists []. repeat split; reflexivity || lia.
  - destruct (edit_field_step idx s f Hr Hi) as (s1 & E1 & Hw1).
    destruct (edit_field_keeps idx s s1 f Hr E1)
      as (Hr1 & Hc1 & Hl1 & Hsame1).
    assert (Hi1 : idx < len (frame s1)) by (now rewrite Hl1).
    destruct (IH s1 Hr1 Hi1)
      as (s' & E' & Hr' & Hc' & Hl' & Hsame' & nw & Hnw & Hlen & Hhd).
    exists s'. simpl. rewrite E1.
    split; [exact E'|]. split; [exact Hr'|].
    split; [congruence|]. split; [congruence|]. split.
    + intros j c H. rewrite Hsame', Hsame1; [reflexivity | |];
        simpl in H; intuition congruence.
    + destruct Hw1 as [-> | Hw1].
      * exists nw. split; [exact Hnw|]. split; [simpl; lia | exact Hhd].
      * exists (nw ++ [frame s1]). rewrite Hnw, Hw1, <- app_assoc.
        split; [reflexivity|]. split; [rewrite length_app; simpl; lia|].
        destruct nw as [|w nw]; simpl; [now symmetry | exact Hhd].
Qed.

(** X15: the form, run on a row of the frame, always completes; it keeps
    the columns and the number of records; it changes no cell of another
    row and no cell under a label that is not one of its twenty-one
    fields; it writes the frame at most twenty-one times; and when it is
    done, either nothing was written and the frame is as before, or the
    newest write is the frame in memory. *)
Theorem edit_form_effect (tc : pystr) (idx : nat) (s : session) :
  rectangular (frame s) -> idx < len (frame s) ->
  exists s',
    edit_form text_area to_datetime tc idx s = Some s'
    /\ rectangular (frame s')
    /\ columns (frame s') = columns (frame s)
    /\ len (frame s') = len (frame s)
    /\ (forall j c, j <> idx \/ ~ In c (left_fields tc ++ right_fields) ->
                    cell (frame s') j c = cell (frame s) j c)
    /\ exists nw,
         writes s' = nw ++ writes s
         /\ length nw <= 21
         /\ match nw with
            | [] => frame s' = frame s
            | w :: _ => w = frame s'
            end.
Proof.
  intros Hr Hi.
  destruct (edit_fields_effect idx (left_fields tc ++ right_fields) s Hr Hi)
    as (s' & E & H).
  exists s'. split; [|exact H].
  unfold edit_form. now rewrite <- edit_fields_app.
Qed.

End FormFacts.


Lemma edit_field_frame_witness :
  rectangular planned_lesson
  /\ exists s',
       edit_field (retype (u "Week") (u "2")) read_date 0
         (mkSession planned_lesson []) (u "Week") = Some s'
       /\ cell (frame s') 0 (u "Lesson Title") = Some (VStr (u "Colonies")).
Proof.
  assert (Hr : rectangular planned_lesson) by (repeat constructor).
  split; [exact Hr|].
  eexists. split; [vm_compute; reflexivity|].
  destruct (edit_field_frame (retype (u "Week") (u "2")) read_date 0
              (mkSession planned_lesson []) _ (u "Week") Hr eq_refl)
    as (_ & _ & _ & Hsame & _).
  rewrite Hsame; [reflexivity|]. right. vm_compute. discriminate.
Defined.

Lemma edit_form_effect_witness :
  rectangular planned_lesson
  /\ exists s',
       edit_form (retype (u "Lesson Status") (u "Taught")) read_date
         (u "Lesson Title") 0 (mkSession planned_lesson []) = Some s'
       /\ cell (frame s') 0 (u "Week") = Some (VInt 1)
       /\ writes s' = [frame s'].
Proof.
  assert (Hr : rectangular planned_lesson) by (repeat constructor).
  split; [exact Hr|].
  destruct (edit_form_effect (retype (u "Lesson Status") (u "Taught"))
              read_date (u "Lesson Title") 0 (mkSession planned_lesson [])
              Hr)
    as (s' & E & _ & _ & _ & Hsame & _).
  - vm_compute. lia.
  - exists s'. split; [exact E|]. split.
    + rewrite Hsame; [reflexivity|]. right. vm_compute.
      intuition discriminate.
    + vm_compute in E. inversion E. reflexivity.
Defined.

(* ================================================================== *)
(** * Loading a loaded frame *)
(* ================================================================== *)

Lemma frame_eta (df : DataFrame) : mkDF (columns df) (rows df) = df.
Proof. now destruct df. Qed.

Lemma map_fixed (A : Type) (f : A -> A) (l : list A) :
  (forall x, In x l -> f x = x) -> map f l = l.
Proof.
  induction l as [|x l IH]; intros H; simpl; [reflexivity|].
  rewrite H by (now left). f_equal. apply IH. intros y Hy. apply H.
  now right.
Qed.

Lemma find_app_some (p : pystr -> bool) (l e : list pystr) (x : pystr) :
  find p l = Some x -> find p (l ++ e) = Some x.
Proof.
  induction l as [|k l IH]; simpl; [discriminate|].
  destruct (p k); [auto | exact IH].
Qed.

Lemma find_app_none (p : pystr -> bool) (l e : list pystr) :
  find p l = None -> find p (l ++ e) = find p e.
Proof.
  induction l as [|k l IH]; simpl; [reflexivity|].
  destruct (p k); [discriminate | exact IH].
Qed.

Lemma set_column_columns_eq (df : DataFrame) (c : pystr) (v : value) :
  columns (set_column df c v)
  = columns df ++ (if has_column c (columns df) then [] else [c]).
Proof.
  unfold set_column. destruct (has_column c (columns df)); simpl;
    [now rewrite app_nil_r | reflexivity].
Qed.

(** ** Rows that [df[c] = v] would not change *)

Lemma overwrite_twice (cols : list pystr) (c : pystr) (v : value)
  (r : list value) :
  overwrite cols c v (overwrite cols c v r) = overwrite cols c v r.
Proof.
  revert r. induction cols as [|k cols IH]; intros [|x r]; simpl;
    try reflexivity.
  rewrite IH. now destruct (pystr_eqb k c).
Qed.

Lemma overwrite_commute (cols : list pystr) (c c' : pystr) (v v' : value)
  (r : list value) :
  c <> c' ->
  overwrite cols c v (overwrite cols c' v' r)
  = overwrite cols c' v' (overwrite cols c v r).
Proof.
  intros Hne. revert r. induction cols as [|k cols IH]; intros [|x r];
    simpl; try reflexivity.
  rewrite IH. f_equal.
  destruct (pystr_eqb k c) eqn:E1, (pystr_eqb k c') eqn:E2; try reflexivity.
  apply pystr_eqb_eq in E1, E2. congruence.
Qed.

Lemma overwrite_app (cols e : list pystr) (c : pystr) (v : value)
  (r t : list value) :
  length r = length cols ->
  overwrite (cols ++ e) c v (r ++ t)
  = overwrite cols c v r ++ overwrite e c v t.
Proof.
  revert r. induction cols as [|k cols IH]; intros [|x r] H;
    simpl in *; try discriminate; [reflexivity|].
  rewrite IH by lia. reflexivity.
Qed.

Lemma overwrite_absent (cols : list pystr) (c : pystr) (v : value)
  (r : list value) :
  ~ In c cols -> overwrite cols c v r = r.
Proof.
  revert r. induction cols as [|k cols IH]; intros [|x r] H; simpl;
    try reflexivity.
  destruct (pystr_eqb k c) eqn:E.
  - apply pystr_eqb_eq in E. elim H. now left.
  - f_equal. apply IH. intros Hin. apply H. now right.
Qed.

(** After [df[c] = v], doing it again changes no row. *)
Lemma set_column_settled (df : DataFrame) (c : pystr) (v : value) :
  rectangular df ->
  Forall (fun r => overwrite (columns (set_column df c v)) c v r = r)
    (rows (set_column df c v)).
Proof.
  unfold rectangular, set_column. intros H.
  destruct (has_column c (columns df)) eqn:E; simpl; apply Forall_map;
    eapply Forall_impl; try exact H; simpl; intros r Hr.
  - apply overwrite_twice.
  - rewrite overwrite_app by assumption.
    rewrite overwrite_absent by (now apply has_column_not_In).
    simpl. now rewrite pystr_eqb_refl.
Qed.

Lemma set_column_keeps_settled (df : DataFrame) (c c' : pystr)
  (v v' : value) :
  rectangular df -> c <> c' ->
  Forall (fun r => overwrite (columns df) c v r = r) (rows df) ->
  Forall (fun r => overwrite (columns (set_column df c' v')) c v r = r)
    (rows (set_column df c' v')).
Proof.
  unfold rectangular, set_column. intros Hr Hne H.
  destruct (has_column c' (columns df)) eqn:E; simpl; apply Forall_map;
    rewrite Forall_forall in *; intros r Hin.
  - rewrite overwrite_commute by assumption. now rewrite H.
  - rewrite overwrite_app by (now apply Hr). rewrite H by assumption.
    simpl. assert (E' : pystr_eqb c' c = false)
      by (apply pystr_eqb_neq; congruence).
    now rewrite E'.
Qed.

Lemma map_fixed_inv (A : Type) (f : A -> A) (l : list A) :
  map f l = l -> forall x, In x l -> f x = x.
Proof.
  induction l as [|y l IH]; simpl; intros H x Hx; [destruct Hx|].
  injection H as Hy Hl.
  destruct Hx as [<-|Hx]; [exact Hy | now apply IH].
Qed.

(** A row that [df[c] = v] would not change stays so when it is filled. *)
Lemma overwrite_fill_row (dates : nat -> bool) (j : nat)
  (cols : list pystr) (c : pystr) (v : value) (r : list value) :
  fill_cell v = v ->
  overwrite cols c v r = r ->
  overwrite cols c v (fill_row dates j r) = fill_row dates j r.
Proof.
  intros Hv. revert j r.
  induction cols as [|k cols IH]; intros j [|x r] H; simpl in *;
    try reflexivity.
  injection H as Hx Hr. rewrite (IH _ _ Hr). f_equal.
  destruct (pystr_eqb k c); [|reflexivity].
  subst x. rewrite Hv. now destruct (dates j).
Qed.

(** When [df[c] = v] changes nothing in a frame, it changes nothing in
    the cleaned frame. *)
Lemma set_column_cleaned (df : DataFrame) (c : pystr) (v : value) :
  fill_cell v = v ->
  set_column df c v = df ->
  set_column (dropna_all (fillna df)) c v = dropna_all (fillna df).
Proof.
  intros Hv H. unfold set_column in *.
  change (columns (dropna_all (fillna df))) with (columns df).
  destruct (has_column c (columns df)).
  - apply (f_equal rows) in H. simpl in H.
    pose proof (map_fixed_inv _ _ _ H) as Hfix.
    rewrite map_fixed; [reflexivity|]. intros r' Hr'.
    apply cleaned_row in Hr'. destruct Hr' as (r & Hr & ->).
    apply overwrite_fill_row; [assumption | now apply Hfix].
  - apply (f_equal columns) in H. simpl in H.
    apply (f_equal (@length pystr)) in H. rewrite length_app in H.
    simpl in H. lia.
Qed.

Lemma fill_row_twice (dates dates' : nat -> bool) (j : nat)
  (r : list value) :
  (forall k, dates k = true -> dates' k = true) ->
  fill_row dates' j (fill_row dates j r) = fill_row dates j r.
Proof.
  intros H. revert j. induction r as [|x r IH]; intros j; simpl;
    [reflexivity|].
  rewrite IH. f_equal. destruct (dates j) eqn:E.
  - now rewrite (H j E).
  - destruct (dates' j); [reflexivity | apply fill_cell_idem].
Qed.

(** Filling the cleaned frame changes nothing. *)
Lemma fillna_cleaned (df : DataFrame) :
  fillna (dropna_all (fillna df)) = dropna_all (fillna df).
Proof.
  unfold fillna at 1.
  change (columns (dropna_all (fillna df))) with (columns df).
  rewrite map_fixed; [reflexivity|]. intros r' Hr'.
  apply cleaned_row in Hr'. destruct Hr' as (r & Hr & ->).
  apply fill_row_twice. intros k. apply datetime_column_cleaned.
Qed.

Lemma dropna_all_idem (df : DataFrame) :
  dropna_all (dropna_all df) = dropna_all df.
Proof.
  unfold dropna_all. simpl. f_equal.
  induction (rows df) as [|r l IH]; simpl; [reflexivity|].
  destruct (negb (forallb is_nan r)) eqn:E; simpl; [|exact IH].
  now rewrite E, IH.
Qed.

Lemma set_column_nothing (df : DataFrame) (c : pystr) (v : value) :
  In c (columns df) ->
  Forall (fun r => overwrite (columns df) c v r = r) (rows df) ->
  set_column df c v = df.
Proof.
  intros Hc H. unfold set_column. apply has_column_In in Hc. rewrite Hc.
  rewrite map_fixed; [apply frame_eta|].
  rewrite Forall_forall in H. exact H.
Qed.

Lemma add_missing_nothing (req : list pystr) (df : DataFrame) :
  (forall c, In c req -> In c (columns df)) ->
  fold_left add_missing req df = df.
Proof.
  induction req as [|c req IH]; intros H; simpl; [reflexivity|].
  assert (E : add_missing df c = df).
  { unfold add_missing.
    assert (Hc : has_column c (columns df) = true)
      by (apply has_column_In, H; now left).
    now rewrite Hc. }
  rewrite E. apply IH. intros x Hx. apply H. now right.
Qed.

Section LoadAgain.

Variable lower : pystr -> pystr.

Lemma detect_week_found (df : DataFrame) (c : pystr) :
  find (is_week_header lower) (columns df) = Some c ->
  detect_week lower df = (df, c).
Proof. intros H. unfold detect_week. now rewrite H. Qed.

Lemma detect_title_found (df : DataFrame) (c : pystr) :
  find (is_title_header lower) (columns df) = Some c ->
  detect_title lower df = (df, c).
Proof. intros H. unfold detect_title. now rewrite H. Qed.

(** The frame after both detections is what the detections return when
    they look at it again. *)
Lemma detections_settled (d1 d2 d3 : DataFrame) (wc tc : pystr) :
  rectangular d1 ->
  ~ names_week lower (u "Lesson Title") ->
  detect_week lower d1 = (d2, wc) ->
  detect_title lower d2 = (d3, tc) ->
  detect_week lower d3 = (d3, wc) /\ detect_title lower d3 = (d3, tc).
Proof.
  intros H1 Hlt Ew Et.
  assert (Hlt' : is_week_header lower (u "Lesson Title") = false).
  { destruct (is_week_header lower (u "Lesson Title")) eqn:E;
      [|reflexivity].
    apply is_week_header_stripped in E; [contradiction | reflexivity]. }
  destruct (detect_week_shape lower _ _ _ H1 Ew) as (H2 & _ & _ & _).
  split.
  - destruct (detect_week_cases lower _ _ _ Ew)
      as [[Hf ->]|(Hf & -> & ->)].
    + apply detect_week_found.
      destruct (detect_title_cases lower _ _ _ Et)
        as [[_ ->]|(_ & _ & ->)]; [exact Hf|].
      rewrite set_column_columns_eq. now apply find_app_some.
    + assert (Hsettled :
                Forall (fun r => overwrite (columns d3) (u "Week")
                                   (VInt 1) r = r) (rows d3)).
      { destruct (detect_title_cases lower _ _ _ Et)
          as [[_ ->]|(_ & _ & ->)].
        - now apply set_column_settled.
        - apply set_column_keeps_settled;
            [assumption | | now apply set_column_settled].
          intros E. apply (f_equal (@length N)) in E. vm_compute in E.
          discriminate. }
      assert (Hin : In (u "Week") (columns d3)).
      { destruct (detect_title_shape lower _ _ _ H2 Et)
          as (_ & _ & _ & e3 & ->).
        apply in_or_app. left. apply set_column_columns. now right. }
      destruct (find (is_week_header lower) (columns d3)) as [c|] eqn:Ef.
      * rewrite (detect_week_found _ _ Ef). f_equal.
        assert (Ec : columns d3
                     = columns d1
                         ++ (if has_column (u "Week") (columns d1)
                             then [] else [u "Week"])
                         ++ (if has_column (u "Lesson Title")
                                  (columns (set_column d1 (u "Week")
                                              (VInt 1)))
                             then [] else [u "Lesson Title"])
                     \/ columns d3
                        = columns d1
                            ++ (if has_column (u "Week") (columns d1)
                                then [] else [u "Week"]) ++ []).
        { destruct (detect_title_cases lower _ _ _ Et)
            as [[_ ->]|(_ & _ & ->)].
          - right. now rewrite set_column_columns_eq, app_nil_r.
          - left. now rewrite !set_column_columns_eq, <- app_assoc. }
        destruct Ec as [Ec|Ec]; rewrite Ec, find_app_none in Ef
          by assumption;
          destruct (has_column (u "Week") (columns d1));
          try destruct (has_column (u "Lesson Title")
                          (columns (set_column d1 (u "Week") (VInt 1))));
          simpl in Ef; rewrite ?Hlt' in Ef;
          try discriminate;
          destruct (is_week_header lower (u "Week"));
          congruence.
      * unfold detect_week. rewrite Ef.
        now rewrite set_column_nothing.
  - destruct (detect_title_cases lower _ _ _ Et)
      as [[Hf ->]|(Hf & -> & ->)].
    + now apply detect_title_found.
    + assert (Hin : In (u "Lesson Title")
                      (columns (set_column d2 (u "Lesson Title")
                                  (VStr (u "Untitled Lesson")))))
        by (apply set_column_columns; now right).
      destruct (find (is_title_header lower)
                  (columns (set_column d2 (u "Lesson Title")
                              (VStr (u "Untitled Lesson")))))
        as [c|] eqn:Ef.
      * rewrite (detect_title_found _ _ Ef). f_equal.
        rewrite set_column_columns_eq, find_app_none in Ef by assumption.
        destruct (has_column (u "Lesson Title") (columns d2));
          simpl in Ef; [discriminate|].
        destruct (is_title_header lower (u "Lesson Title")); congruence.
      * unfold detect_title. rewrite Ef.
        rewrite set_column_nothing;
          [reflexivity | exact Hin | now apply set_column_settled].
Qed.

Lemma detect_week_cleaned (df : DataFrame) (wc : pystr) :
  detect_week lower df = (df, wc) ->
  detect_week lower (dropna_all (fillna df)) = (dropna_all (fillna df), wc).
Proof.
  unfold detect_week.
  change (columns (dropna_all (fillna df))) with (columns df).
  destruct (find (is_week_header lower) (columns df)).
  - intros H. inversion H. reflexivity.
  - intros H. inversion H as [[H1 H2]]. rewrite H1.
    now rewrite set_column_cleaned.
Qed.

Lemma detect_title_cleaned (df : DataFrame) (tc : pystr) :
  detect_title lower df = (df, tc) ->
  detect_title lower (dropna_all (fillna df))
  = (dropna_all (fillna df), tc).
Proof.
  unfold detect_title.
  change (columns (dropna_all (fillna df))) with (columns df).
  destruct (find (is_title_header lower) (columns df)).
  - intros H. inversion H. reflexivity.
  - intros H. inversion H as [[H1 H2]]. rewrite H1.
    now rewrite set_column_cleaned.
Qed.

(** X17: loading is idempotent: when the frame [load_data] returned is
    loaded again (as if it were the sheet), the result is the same frame
    with the same week label and title label.  The label "Lesson Title"
    must not read as a week header, which holds for Python's [lower]. *)
Theorem load_data_idempotent (raw df : DataFrame) (wc tc : pystr) :
  rectangular raw ->
  ~ names_week lower (u "Lesson Title") ->
  load_data lower (Some raw) = Some (df, wc, tc) ->
  load_data lower (Some df) = Some (df, wc, tc).
Proof.
  intros Hraw Hlt E.
  destruct (load_data_stages lower raw Hraw)
    as (d1 & d2 & d3 & wc0 & tc0 & E1 & Ew & Et & El & H1 & H2 & H3 & _).
  rewrite El in E. inversion E; subst df wc0 tc0; clear E.
  destruct (detect_week_shape lower _ _ _ H1 Ew) as (_ & _ & _ & e2 & Ec2).
  destruct (detect_title_shape lower _ _ _ H2 Et)
    as (_ & _ & Htc & e3 & Ec3).
  assert (H0 : rectangular (mkDF (map strip (columns raw)) (rows raw))).
  { unfold rectangular. simpl. now rewrite length_map. }
  destruct (add_missing_fold required_columns _ H0)
    as (_ & _ & (extra1 & Ec1 & Hx1) & Hreq).
  rewrite <- E1 in Ec1, Hreq. simpl in Ec1.
  assert (Hcols3 : forall x, In x (columns d3) ->
                             In x (columns d1) \/ x = u "Week"
                             \/ x = u "Lesson Title").
  { intros x Hx.
    assert (Hx2 : In x (columns d2) \/ x = u "Lesson Title").
    { destruct (detect_title_cases lower _ _ _ Et)
        as [[_ ->]|(_ & _ & ->)]; [now left|].
      now apply set_column_columns in Hx. }
    destruct Hx2 as [Hx2|Hx2]; [|tauto].
    destruct (detect_week_cases lower _ _ _ Ew)
      as [[_ ->]|(_ & _ & ->)]; [now left|].
    apply set_column_columns in Hx2. tauto. }
  assert (Hstrip : map strip (columns d3) = columns d3).
  { apply map_fixed. intros x Hx.
    destruct (Hcols3 x Hx) as [Hx1'|[->| ->]]; try reflexivity.
    rewrite Ec1 in Hx1'. apply in_app_or in Hx1'.
    destruct Hx1' as [Hh|Hh]; [now apply (stripped_headers raw)|].
    now apply required_stripped, Hx1. }
  assert (Hreq3 : forall c, In c required_columns -> In c (columns d3)).
  { intros c Hc. rewrite Ec3, Ec2. apply in_or_app. left.
    apply in_or_app. left. now apply Hreq. }
  destruct (detections_settled d1 d2 d3 wc tc H1 Hlt Ew Et) as [Dw Dt].
  unfold load_data.
  change (columns (dropna_all (fillna d3))) with (columns d3).
  rewrite Hstrip.
  change (mkDF (columns d3) (rows (dropna_all (fillna d3))))
    with (dropna_all (fillna d3)).
  rewrite (add_missing_nothing _ (dropna_all (fillna d3)) Hreq3).
  rewrite (detect_week_cleaned d3 wc Dw).
  rewrite (detect_title_cleaned d3 tc Dt).
  now rewrite fillna_cleaned, dropna_all_idem.
Qed.

End LoadAgain.

Lemma load_data_idempotent_witness :
  rectangular sheet_without_week
  /\ exists df wc tc,
       load_data ascii_lower (Some sheet_without_week) = Some (df, wc, tc)
       /\ load_data ascii_lower (Some df) = Some (df, wc, tc).
Proof.
  assert (Hr : rectangular sheet_without_week) by (repeat constructor).
  split; [exact Hr|].
  do 3 eexists. split; [vm_compute; reflexivity|].
  apply (load_data_idempotent ascii_lower sheet_without_week _ _ _ Hr).
  - unfold names_week. vm_compute. intuition discriminate.
  - vm_compute. reflexivity.
Defined.

Lemma selected_index_first_witness :
  selected_index value_eqb twin_lessons (u "Week") (u "Lesson Title")
    (VInt 1) (VStr (u "Colonies")) = Some 1
  /\ ~ is_selected value_eqb twin_lessons (u "Week") (u "Lesson Title")
         (VInt 1) (VStr (u "Colonies")) 0.
Proof.
  split; [reflexivity|].
  apply (proj2 (proj1 (proj1 (selected_index_first value_eqb twin_lessons
                                (u "Week") (u "Lesson Title") (VInt 1)
                                (VStr (u "Colonies"))) 1) eq_refl)).
  lia.
Defined.
